(** * Booth access and operator sessions of festival-digital

    A shallow embedding of the code that admits operators to booths:

    - [Sql]: check_ip_attempts, validate_booth_code and
      cleanup_expired_sessions of the booth-code migration, over the tables
      it creates;
    - [SupabaseClient]: getSupabase and the mock-mode switch;
    - [BoothCode]: booth-code.js (code generation, assignCodeToBooth,
      regenerateBoothCode, validateBoothCode, startBoothOperation,
      endBoothOperation, getActiveOperation);
    - [BoothOperationJs]: booth-operation.js (startBoothOperation with the
      operator limit, endBoothOperation, getCurrentOperation,
      calculateDuration, getOperationStats);
    - [OperatorAuth]: operator-auth.js (the stored operator session,
      operatorLogin, operatorLogout, hasBoothAccess, isOperator,
      refreshSession);
    - [AuthManager]: auth-manager.js (roles, permissions, checkPageAccess);
    - [AccessControl]: access-control.js (getCurrentUserRole, isAdmin,
      canAccessBooth, checkPageAccess, logout).

    Conventions.
    - A timestamp is the number of milliseconds since the epoch, in [Z]; every
      [new Date()] / [NOW()] of one call reads the same instant [now].
    - A table is the list of its rows in insertion order.  Queries of the
      store always answer.  A statement that writes fails on what the
      migration declares: the types of the columns (VARCHAR(n), TEXT,
      DECIMAL(5,2) and TIMESTAMP, module [Pg]), NOT NULL, UNIQUE, the foreign
      keys, and the trigger update_daily_stats_on_operation_end, which runs
      after every update of booth_operations.  A statement that fails writes
      nothing; an id taken from a sequence is not given back.  The trigger
      that sets updated_at, a column no function reads, is left out.
    - The session of the store keeps UTC, so that [NOW()] and the texts that
      [toISOString] writes into TIMESTAMP columns name the same instants.
      The browser has a zone, [zone] of the world, which does not change
      during the calls considered; it reads the text of a TIMESTAMP column
      as local time ([Js.local_date]).
    - An async function takes the world (store, localStorage, whether the
      Supabase client was created, the zone of the browser) and returns the
      world it leaves with its answer.  Answers carry a constructor for each
      message of the source, quoted beside it.
    - [Math.random()] is a rational in the unit interval; a call receives the
      sequence of values it will draw as a function [nat -> Q].
    - A string is the list of the bytes of its UTF-8 encoding, which is
      well formed; [Js.length16] counts its UTF-16 code units as
      [String.prototype.length] does, [Pg.char_length] its characters as
      the store does.
    - [setHours(getHours() + h)] and [setDate(getDate() + n)] add h hours
      and n days of 24 hours to the instant (no clock change in between). *)

From Stdlib Require Import ZArith List String Ascii Bool Lia QArith Qround DecimalString.
Import ListNotations.
Open Scope string_scope.
Open Scope Z_scope.

(** ** JavaScript values *)

Module Js.

(** [!!x] for a field that holds a string, null or undefined. *)
Definition truthy (x : option string) : bool :=
  match x with
  | Some s => negb (s =? "")%string
  | None => false
  end.

(** [x || null] on such a field. *)
Definition or_null (x : option string) : option string :=
  if truthy x then x else None.

(** [n || d] on a number-or-null field: null and 0 are falsy. *)
Definition or_default (n : option Z) (d : Z) : Z :=
  match n with
  | Some v => if v =? 0 then d else v
  | None => d
  end.

(** [s.charAt(i)]: the one-character string at index [i], or the empty
    string out of range. *)
Definition charAt (s : string) (i : Z) : string :=
  if i <? 0 then ""
  else match String.get (Z.to_nat i) s with
       | Some c => String c ""
       | None => ""
       end.

Definition Rng := nat -> Q.

Definition shift (rnd : Rng) (n : nat) : Rng := fun i => rnd (n + i)%nat.

(** [Math.floor(Math.random() * n)] for the draw [r]. *)
Definition random_index (r : Q) (n : nat) : Z :=
  Qfloor (r * inject_Z (Z.of_nat n)).

(** [alphabet.charAt(Math.floor(Math.random() * alphabet.length))]. *)
Definition pick (alphabet : string) (r : Q) : string :=
  charAt alphabet (random_index r (String.length alphabet)).

(** [for (i = 0; i < n; i++) acc += alphabet.charAt(...)], on its own
    accumulator. *)
Fixpoint draw (alphabet : string) (n : nat) (rnd : Rng) : string :=
  match n with
  | O => ""
  | S n' => pick alphabet (rnd O) ++ draw alphabet n' (shift rnd 1)
  end.

(** The digit of [toString(36)] for a value below 36. *)
Definition digit36 (d : Z) : ascii :=
  if d <? 10 then ascii_of_nat (48 + Z.to_nat d)
  else ascii_of_nat (87 + Z.to_nat d).

Fixpoint toString36_pos (fuel : nat) (n : Z) : string :=
  match fuel with
  | O => ""
  | S fuel' =>
      if n <? 36 then String (digit36 n) ""
      else toString36_pos fuel' (n / 36) ++ String (digit36 (n mod 36)) ""
  end.

(** [n.toString(36)] for an integer [n]. *)
Definition toString36 (n : Z) : string :=
  if n <? 0 then "-" ++ toString36_pos (S (Z.to_nat (Z.log2 (- n)))) (- n)
  else toString36_pos (S (Z.to_nat (Z.log2 n))) n.

(** [s.substr(-k)]: the last [k] characters, the whole of a shorter [s]. *)
Definition substr_last (k : nat) (s : string) : string :=
  substring (String.length s - k) k s.

Definition upper_char (c : ascii) : ascii :=
  let n := nat_of_ascii c in
  if ((97 <=? n) && (n <=? 122))%nat then ascii_of_nat (n - 32) else c.

Fixpoint toUpperCase (s : string) : string :=
  match s with
  | EmptyString => EmptyString
  | String c s' => String (upper_char c) (toUpperCase s')
  end.

(** String concatenation of an integer: ['' + n]. *)
Definition of_int (n : Z) : string := NilZero.string_of_int (Z.to_int n).

Definition is_digit (c : ascii) : bool :=
  let n := nat_of_ascii c in ((48 <=? n) && (n <=? 57))%nat.

Definition is_upper (c : ascii) : bool :=
  let n := nat_of_ascii c in ((65 <=? n) && (n <=? 90))%nat.

(** [s.replace(/[^0-9]/g, '')]. *)
Fixpoint keep_digits (s : string) : string :=
  match s with
  | EmptyString => EmptyString
  | String c s' =>
      if is_digit c then String c (keep_digits s') else keep_digits s'
  end.

(** Text is held in UTF-8.  [s.length] counts UTF-16 code units: one for a
    character of one to three bytes, two for a character of four bytes. *)
Definition units_of_byte (c : ascii) : nat :=
  let n := nat_of_ascii c in
  if (n <? 128)%nat then 1%nat
  else if (n <? 192)%nat then 0%nat
  else if (n <? 240)%nat then 1%nat
  else 2%nat.

Fixpoint length16 (s : string) : nat :=
  match s with
  | EmptyString => 0%nat
  | String c s' => (units_of_byte c + length16 s')%nat
  end.

(** The characters [trim] removes, by their UTF-8 bytes: TAB, LF, VT, FF,
    CR and SP; U+00A0; U+1680, U+2000 to U+200A, U+2028, U+2029, U+202F,
    U+205F, U+3000 and U+FEFF. *)
Definition space1 (a : ascii) : bool :=
  let n := nat_of_ascii a in
  (((9 <=? n) && (n <=? 13)) || (n =? 32))%nat.

Definition space2 (a b : ascii) : bool :=
  ((nat_of_ascii a =? 194) && (nat_of_ascii b =? 160))%nat.

Definition space3 (a b c : ascii) : bool :=
  let x := nat_of_ascii a in
  let y := nat_of_ascii b in
  let z := nat_of_ascii c in
  (((x =? 225) && (y =? 154) && (z =? 128))
   || ((x =? 226) && (y =? 128)
       && (((128 <=? z) && (z <=? 138)) || (z =? 168) || (z =? 169) || (z =? 175)))
   || ((x =? 226) && (y =? 129) && (z =? 159))
   || ((x =? 227) && (y =? 128) && (z =? 128))
   || ((x =? 239) && (y =? 187) && (z =? 191)))%nat.

Fixpoint trimStart (s : string) : string :=
  match s with
  | EmptyString => EmptyString
  | String a r1 =>
      if space1 a then trimStart r1
      else
        match r1 with
        | EmptyString => s
        | String b r2 =>
            if space2 a b then trimStart r2
            else
              match r2 with
              | EmptyString => s
              | String c r3 => if space3 a b c then trimStart r3 else s
              end
        end
  end.

Fixpoint reverse_onto (s acc : string) : string :=
  match s with
  | EmptyString => acc
  | String c s' => reverse_onto s' (String c acc)
  end.

Definition reverse (s : string) : string := reverse_onto s EmptyString.

(** [trimStart] on the reversed text: the bytes of a character come last
    byte first. *)
Fixpoint trimStart_reversed (s : string) : string :=
  match s with
  | EmptyString => EmptyString
  | String c r1 =>
      if space1 c then trimStart_reversed r1
      else
        match r1 with
        | EmptyString => s
        | String b r2 =>
            if space2 b c then trimStart_reversed r2
            else
              match r2 with
              | EmptyString => s
              | String a r3 => if space3 a b c then trimStart_reversed r3 else s
              end
        end
  end.

Definition trimEnd (s : string) : string := reverse (trimStart_reversed (reverse s)).

(** [s.trim()]. *)
Definition trim (s : string) : string := trimEnd (trimStart s).

(** [Math.round(a / n)] for integers [a] and [n > 0]: the nearest integer,
    a half rounding up. *)
Definition round_div (a n : Z) : Z := (2 * a + n) / (2 * n).

(** [new Date(text)] for the text of a TIMESTAMP column, which names a day
    and a time and no zone: the text is read as local time.  [written] is
    the instant the text would name in UTC, [zone] what the local clock is
    ahead of UTC; the result is the instant read. *)
Definition local_date (zone written : Z) : Z := written - zone.

End Js.

(** ** Column types of the store *)

Module Pg.

(** A byte that continues a character in UTF-8. *)
Definition continuation (c : ascii) : bool :=
  let n := nat_of_ascii c in ((128 <=? n) && (n <? 192))%nat.

(** The number of characters of a text. *)
Fixpoint char_length (s : string) : nat :=
  match s with
  | EmptyString => 0%nat
  | String c r => if continuation c then char_length r else S (char_length r)
  end.

(** The first [n] characters of a text, and what follows them. *)
Fixpoint first_chars (n : nat) (s : string) : string :=
  match s with
  | EmptyString => EmptyString
  | String c r =>
      if continuation c then String c (first_chars n r)
      else match n with
           | O => EmptyString
           | S n' => String c (first_chars n' r)
           end
  end.

Fixpoint after_chars (n : nat) (s : string) : string :=
  match s with
  | EmptyString => EmptyString
  | String c r =>
      if continuation c then after_chars n r
      else match n with
           | O => s
           | S n' => after_chars n' r
           end
  end.

Fixpoint spaces_only (s : string) : bool :=
  match s with
  | EmptyString => true
  | String c r => (nat_of_ascii c =? 32)%nat && spaces_only r
  end.

(** The character U+0000, which no text of the store holds. *)
Fixpoint has_nul (s : string) : bool :=
  match s with
  | EmptyString => false
  | String c r => (nat_of_ascii c =? 0)%nat || has_nul r
  end.

(** A value for a TEXT column: the value stored, or no value when the
    store refuses it. *)
Definition text (s : string) : option string :=
  if has_nul s then None else Some s.

(** A value for a VARCHAR(n) column: a text of at most [n] characters is
    stored as it is; of a longer one the first [n] characters are stored
    when all that follows is spaces, and it is refused otherwise (value too
    long for type character varying). *)
Definition varchar (n : nat) (s : string) : option string :=
  if has_nul s then None
  else if (char_length s <=? n)%nat then Some s
  else if spaces_only (after_chars n s) then Some (first_chars n s)
  else None.

(** The same for a value that may be null. *)
Definition nullable (column : string -> option string) (v : option string)
  : option (option string) :=
  match v with
  | None => Some None
  | Some s => option_map Some (column s)
  end.

(** A value that a VARCHAR(n) column stores as it is, and one that a TEXT
    column does. *)
Definition fits (n : nat) (v : option string) : bool :=
  match v with
  | None => true
  | Some s => negb (has_nul s) && (char_length s <=? n)%nat
  end.

Definition clean (v : option string) : bool :=
  match v with
  | None => true
  | Some s => negb (has_nul s)
  end.

(** [a / n] for [n > 0] as a NUMERIC rounded to an integer: a half rounds
    away from zero. *)
Definition round_half_away (a n : Z) : Z :=
  Z.sgn a * ((2 * Z.abs a + n) / (2 * n)).

(** A value for a DECIMAL(5,2) column, in hundredths: refused from 1000.00
    on (numeric field overflow). *)
Definition decimal_5_2 (hundredths : Z) : option Z :=
  if Z.abs hundredths <? 100000 then Some hundredths else None.

(** A time that [toISOString] writes with a four-digit year, from
    0001-01-01 to 9999-12-31: outside of these [toISOString] throws or
    writes a year with a sign, which a TIMESTAMP column does not read. *)
Definition timestamp (t : Z) : bool :=
  (-62135596800000 <=? t) && (t <=? 253402300799999).

End Pg.

(** ** Tables of the store *)

Record Booth := mkBooth {
  b_id : Z;
  b_name : string;
  b_booth_code : option string;
  b_code_expires_at : option Z;
  b_is_active : option bool;
  b_max_operators : option Z
}.

Record BoothOperation := mkOperation {
  op_id : Z;
  op_booth_id : Z;
  op_operator_name : string;
  op_operator_phone : option string;
  op_operator_email : option string;
  op_operator_organization : option string;
  op_started_at : Z;
  op_ended_at : option Z;
  op_is_active : bool;
  op_total_participants : Z;
  op_notes : option string
}.

Record OperatorSession := mkSession {
  s_id : Z;
  s_session_token : string;
  s_booth_operation_id : Z;
  s_expires_at : Z;
  s_last_activity : Z;
  s_ip_address : option string
}.

Record CodeAttempt := mkAttempt {
  ca_attempted_code : string;
  ca_ip_address : string;
  ca_attempted_at : Z;
  ca_success : bool;
  ca_booth_id : option Z;
  ca_error_message : option string
}.

Record Participant := mkParticipant {
  p_id : Z;
  p_booth_id : Z;
  p_created_at : Z
}.

(** booth_daily_stats, with the columns the trigger writes: the day as the
    number of days since the epoch, the hours in hundredths. *)
Record DailyStat := mkDailyStat {
  ds_booth_id : Z;
  ds_stat_date : Z;
  ds_operator_count : Z;
  ds_operation_hours : Z
}.

Record Database := mkDatabase {
  booths : list Booth;
  booth_operations : list BoothOperation;
  operator_sessions : list OperatorSession;
  code_attempts : list CodeAttempt;
  participants : list Participant;
  next_operation_id : Z;
  next_session_id : Z;
  booth_daily_stats : list DailyStat
}.

Inductive PgError :=
| NoSingleRow          (* .single() on zero or several rows *)
| ForeignKeyViolation
| NotNullViolation
| UniqueViolation
| TextRefused          (* a text that its column does not take: value too long
                          for the type, or the character U+0000 *)
| NumericOverflow      (* a number that its column does not take *)
| InvalidDate          (* a time that cannot be written as a TIMESTAMP *)
| ClientMissing.       (* a method called on the null client *)

Module Store.

Definition with_operations (d : Database) (ops : list BoothOperation) : Database :=
  mkDatabase (booths d) ops (operator_sessions d) (code_attempts d)
             (participants d) (next_operation_id d) (next_session_id d)
             (booth_daily_stats d).

Definition with_sessions (d : Database) (ss : list OperatorSession) : Database :=
  mkDatabase (booths d) (booth_operations d) ss (code_attempts d)
             (participants d) (next_operation_id d) (next_session_id d)
             (booth_daily_stats d).

Definition with_attempts (d : Database) (cs : list CodeAttempt) : Database :=
  mkDatabase (booths d) (booth_operations d) (operator_sessions d) cs
             (participants d) (next_operation_id d) (next_session_id d)
             (booth_daily_stats d).

Definition with_booths (d : Database) (bs : list Booth) : Database :=
  mkDatabase bs (booth_operations d) (operator_sessions d) (code_attempts d)
             (participants d) (next_operation_id d) (next_session_id d)
             (booth_daily_stats d).

Definition with_daily_stats (d : Database) (stats : list DailyStat) : Database :=
  mkDatabase (booths d) (booth_operations d) (operator_sessions d) (code_attempts d)
             (participants d) (next_operation_id d) (next_session_id d) stats.

(** [nextval] of the two id sequences: a value taken is not given back
    when the statement that took it fails. *)
Definition take_operation_id (d : Database) : Database :=
  mkDatabase (booths d) (booth_operations d) (operator_sessions d) (code_attempts d)
             (participants d) (next_operation_id d + 1) (next_session_id d)
             (booth_daily_stats d).

Definition take_session_id (d : Database) : Database :=
  mkDatabase (booths d) (booth_operations d) (operator_sessions d) (code_attempts d)
             (participants d) (next_operation_id d) (next_session_id d + 1)
             (booth_daily_stats d).

(** [.single()]: the row when exactly one matches, an error otherwise. *)
Definition single {A} (rows : list A) : option A :=
  match rows with
  | [r] => Some r
  | _ => None
  end.

Definition has_code (code : string) (b : Booth) : bool :=
  match b_booth_code b with
  | Some c => (c =? code)%string
  | None => false
  end.

Definition booths_by_code (d : Database) (code : string) : list Booth :=
  filter (has_code code) (booths d).

Definition booths_by_id (d : Database) (id : Z) : list Booth :=
  filter (fun b => b_id b =? id) (booths d).

(** [.eq('booth_id', boothId).eq('is_active', true)] on booth_operations. *)
Definition is_active_of (boothId : Z) (o : BoothOperation) : bool :=
  (op_booth_id o =? boothId) && op_is_active o.

Definition active_operations (d : Database) (boothId : Z) : list BoothOperation :=
  filter (is_active_of boothId) (booth_operations d).

Definition sessions_by_token (d : Database) (token : string) : list OperatorSession :=
  filter (fun s => (s_session_token s =? token)%string) (operator_sessions d).

(** INSERT INTO booth_operations.  The values of the request are first
    converted to the types of their columns (operator_name, operator_email
    and operator_organization are VARCHAR(100), operator_phone is
    VARCHAR(20), notes is TEXT); then the row takes the next id of the
    sequence; then operator_name NOT NULL and the reference of booth_id to
    booths(id) are checked.  ended_at defaults to NULL and
    total_participants to 0.  The answer is the store the statement leaves
    and the row inserted or the error. *)
Definition insert_operation (d : Database) (boothId : Z) (name phone email org notes : option string)
           (started : Z) : Database * (PgError + BoothOperation) :=
  match Pg.nullable (Pg.varchar 100) name, Pg.nullable (Pg.varchar 20) phone,
        Pg.nullable (Pg.varchar 100) email, Pg.nullable (Pg.varchar 100) org,
        Pg.nullable Pg.text notes with
  | Some name', Some phone', Some email', Some org', Some notes' =>
      let d1 := take_operation_id d in
      match name' with
      | None => (d1, inl NotNullViolation)
      | Some nm =>
          if existsb (fun b => b_id b =? boothId) (booths d) then
            let row := mkOperation (next_operation_id d) boothId nm phone' email' org'
                                   started None true 0 notes' in
            (with_operations d1 (booth_operations d ++ [row]), inr row)
          else (d1, inl ForeignKeyViolation)
      end
  | _, _, _, _, _ => (d, inl TextRefused)
  end.

(** INSERT INTO operator_sessions: session_token is VARCHAR(64) and UNIQUE,
    ip_address is VARCHAR(45), booth_operation_id references
    booth_operations(id), last_activity defaults to NOW().  The answer is
    the store the statement leaves and the error, if any. *)
Definition insert_session (d : Database) (now : Z) (token : string) (operationId expires : Z)
           (ip : option string) : Database * option PgError :=
  match Pg.varchar 64 token, Pg.nullable (Pg.varchar 45) ip with
  | Some token', Some ip' =>
      let d1 := take_session_id d in
      if existsb (fun s => (s_session_token s =? token')%string) (operator_sessions d) then
        (d1, Some UniqueViolation)
      else if existsb (fun o => op_id o =? operationId) (booth_operations d) then
        let row := mkSession (next_session_id d) token' operationId expires now ip' in
        (with_sessions d1 (operator_sessions d ++ [row]), None)
      else (d1, Some ForeignKeyViolation)
  | _, _ => (d, Some TextRefused)
  end.

(** The hours of an operation as the trigger computes them,
    [EXTRACT(EPOCH FROM (ended_at - started_at)) / 3600], rounded to the
    hundredths of the column operation_hours. *)
Definition hours_of (started ended : Z) : Z :=
  Pg.round_half_away (ended - started) 36000.

(** [DATE(started_at)]. *)
Definition date_of (t : Z) : Z := t / 86400000.

Definition same_day (booth date : Z) (r : DailyStat) : bool :=
  (ds_booth_id r =? booth) && (ds_stat_date r =? date).

(** INSERT INTO booth_daily_stats ... ON CONFLICT (booth_id, stat_date) DO
    UPDATE of the trigger: the hours proposed, and their sum with the
    hours of the day's row when there is one, must fit DECIMAL(5,2). *)
Definition add_daily_stats (stats : list DailyStat) (booth date hours : Z)
  : option (list DailyStat) :=
  match Pg.decimal_5_2 hours with
  | None => None
  | Some h =>
      if existsb (same_day booth date) stats then
        if forallb (fun r => negb (same_day booth date r)
                             || match Pg.decimal_5_2 (ds_operation_hours r + h) with
                                | Some _ => true
                                | None => false
                                end) stats
        then Some (map (fun r => if same_day booth date r
                                 then mkDailyStat (ds_booth_id r) (ds_stat_date r)
                                                  (ds_operator_count r + 1)
                                                  (ds_operation_hours r + h)
                                 else r) stats)
        else None
      else Some (stats ++ [mkDailyStat booth date 1 h])%list
  end.

(** update_daily_stats_on_operation_end for one updated row: it acts when
    the update has set ended_at on a row that had none. *)
Definition update_daily_stats_on_operation_end (stats : list DailyStat)
           (old new : BoothOperation) : option (list DailyStat) :=
  match op_ended_at new, op_ended_at old with
  | Some ended, None =>
      add_daily_stats stats (op_booth_id new) (date_of (op_started_at new))
                      (hours_of (op_started_at new) ended)
  | _, _ => Some stats
  end.

(** The trigger AFTER UPDATE ON booth_operations FOR EACH ROW, run for the
    rows in the order of the table. *)
Fixpoint after_update (stats : list DailyStat) (rows : list BoothOperation)
         (set : BoothOperation -> BoothOperation) : option (list DailyStat) :=
  match rows with
  | [] => Some stats
  | old :: rest =>
      match update_daily_stats_on_operation_end stats old (set old) with
      | Some stats' => after_update stats' rest set
      | None => None
      end
  end.

(** UPDATE booth_operations SET ... WHERE ...: [set] rewrites the rows of
    the WHERE clause and leaves the others as they are.  When the trigger
    fails for one row the statement is aborted and nothing is written. *)
Definition update_operations (d : Database) (set : BoothOperation -> BoothOperation)
  : PgError + Database :=
  match after_update (booth_daily_stats d) (booth_operations d) set with
  | Some stats =>
      inr (with_daily_stats (with_operations d (map set (booth_operations d))) stats)
  | None => inl NumericOverflow
  end.

Definition delete_sessions (d : Database) (token : string) : Database :=
  with_sessions d
    (filter (fun s => negb (s_session_token s =? token)%string) (operator_sessions d)).

Definition touch_session (now : Z) (token : string) (s : OperatorSession) : OperatorSession :=
  if (s_session_token s =? token)%string then
    mkSession (s_id s) (s_session_token s) (s_booth_operation_id s) (s_expires_at s)
              now (s_ip_address s)
  else s.

End Store.

(** ** The migration's SQL functions *)

Module Sql.

Definition one_hour : Z := 3600000.

(** The WHERE clause of check_ip_attempts. *)
Definition counts_against (now : Z) (check_ip : string) (a : CodeAttempt) : bool :=
  (ca_ip_address a =? check_ip)%string
  && (now - one_hour <? ca_attempted_at a)
  && negb (ca_success a).

Definition check_ip_attempts (d : Database) (now : Z) (check_ip : string) : Z :=
  Z.of_nat (List.length (filter (counts_against now check_ip) (code_attempts d))).

Record Validation := mkValidation {
  is_valid : bool;
  booth_id : option Z;
  booth_name : option string;
  message : string
}.

Definition record_attempt (d : Database) (a : CodeAttempt) : Database :=
  Store.with_attempts d (code_attempts d ++ [a]).

(** [v_expires_at IS NOT NULL AND v_expires_at < NOW()]. *)
Definition expired (now : Z) (expires : option Z) : bool :=
  match expires with
  | Some e => e <? now
  | None => false
  end.

(** [IF NOT v_is_active]: taken only when the flag is false, not when it
    is NULL. *)
Definition not_active (flag : option bool) : bool :=
  match flag with
  | Some f => negb f
  | None => false
  end.

(** INSERT INTO code_attempts: attempted_code is VARCHAR(6) and ip_address
    VARCHAR(45) (the lengths written on the parameters of the function do
    not bind); attempted_at defaults to NOW(). *)
Definition log_attempt (d : Database) (code ip : string) (now : Z) (success : bool)
           (booth : option Z) (error_message : option string) : PgError + Database :=
  match Pg.varchar 6 code, Pg.varchar 45 ip with
  | Some code', Some ip' =>
      inr (record_attempt d (mkAttempt code' ip' now success booth error_message))
  | _, _ => inl TextRefused
  end.

(** [RETURN QUERY SELECT ...] after the INSERT: when the INSERT raises, the
    function ends with that error, answers no row and writes nothing. *)
Definition returning (written : PgError + Database) (answer : Validation)
  : PgError + (Database * Validation) :=
  match written with
  | inl e => inl e
  | inr d => inr (d, answer)
  end.

Definition validate_booth_code (d : Database) (now : Z) (input_code input_ip : string)
  : PgError + (Database * Validation) :=
  let v_attempt_count := check_ip_attempts d now input_ip in
  if 5 <=? v_attempt_count then
    returning (log_attempt d input_code input_ip now false None (Some "시도 횟수 초과"))
      (mkValidation false None None "너무 많은 시도입니다. 잠시 후 다시 시도해주세요.")
  else
    match Store.booths_by_code d input_code with
    | [] =>
        returning (log_attempt d input_code input_ip now false None (Some "잘못된 코드"))
          (mkValidation false None None "잘못된 부스 코드입니다.")
    | b :: _ =>
        if expired now (b_code_expires_at b) then
          returning
            (log_attempt d input_code input_ip now false (Some (b_id b)) (Some "만료된 코드"))
            (mkValidation false None None "만료된 부스 코드입니다.")
        else if not_active (b_is_active b) then
          returning
            (log_attempt d input_code input_ip now false (Some (b_id b)) (Some "비활성 부스"))
            (mkValidation false None None "비활성화된 부스입니다.")
        else
          returning (log_attempt d input_code input_ip now true (Some (b_id b)) None)
            (mkValidation true (Some (b_id b)) (Some (b_name b)) "부스 코드 확인 완료")
    end.

Definition seven_days : Z := 7 * 86400000.

(** cleanup_expired_sessions: DELETE FROM operator_sessions WHERE expires_at
    < NOW(), DELETE FROM code_attempts WHERE attempted_at < NOW() - 7 days. *)
Definition cleanup_expired_sessions (d : Database) (now : Z) : Database :=
  mkDatabase (booths d) (booth_operations d)
             (filter (fun s => negb (s_expires_at s <? now)) (operator_sessions d))
             (filter (fun a => negb (ca_attempted_at a <? now - seven_days)) (code_attempts d))
             (participants d) (next_operation_id d) (next_session_id d)
             (booth_daily_stats d).

(** The calls of validate_booth_code that one address makes one after the
    other, given by their times and codes: the store they leave and what
    each call answers, a row or an error, in order. *)
Fixpoint calls_from (d : Database) (input_ip : string) (calls : list (Z * string))
  : Database * list (PgError + Validation) :=
  match calls with
  | [] => (d, [])
  | (now, input_code) :: rest =>
      match validate_booth_code d now input_code input_ip with
      | inr (d1, answer) =>
          let (d2, answers) := calls_from d1 input_ip rest in
          (d2, inr answer :: answers)
      | inl e =>
          let (d2, answers) := calls_from d input_ip rest in
          (d2, inl e :: answers)
      end
  end.

(** What a call answers, without the store it leaves. *)
Definition answered (r : PgError + (Database * Validation)) : PgError + Validation :=
  match r with
  | inr (_, answer) => inr answer
  | inl e => inl e
  end.

End Sql.

(** ** The browser side: the Supabase client and localStorage *)

Record OperatorInfo := mkInfo {
  name : option string;
  phone : option string;
  email : option string;
  organization : option string;
  notes : option string;
  ipAddress : option string
}.

(** The object operator-auth keeps under the key operator_session. *)
Record SessionData := mkSessionData {
  operationId : Z;
  boothId : Z;
  boothName : string;
  operatorName : string;
  role : string;
  startedAt : Z;
  expiresAt : option Z
}.

(** What [JSON.parse] makes of a stored string: it throws, or yields the
    session object. *)
Inductive Stored :=
| Malformed
| SessionJson (s : SessionData).

Record LocalStorage := mkLocal {
  ls_useMockMode : option string;
  ls_session_token : option string;
  ls_current_operation : option BoothOperation;
  ls_operator_session : option Stored
}.

(** [client] tells whether [window.supabase] was loaded, so that the
    exported [supabase] is a client and not null.  [zone] is what the
    clock of the browser is ahead of UTC, in milliseconds (32400000 in
    Asia/Seoul, negative west of Greenwich). *)
Record World := mkWorld {
  client : bool;
  db : Database;
  local : LocalStorage;
  zone : Z
}.

Definition set_db (w : World) (d : Database) : World :=
  mkWorld (client w) d (local w) (zone w).

Definition set_local (w : World) (l : LocalStorage) : World :=
  mkWorld (client w) (db w) l (zone w).

(** ** supabase-client.js *)

Module SupabaseClient.

Definition isInMockMode (w : World) : bool :=
  match ls_useMockMode (local w) with
  | Some v => (v =? "true")%string
  | None => false
  end.

Definition getSupabase (w : World) : option Database :=
  if isInMockMode w then None
  else if client w then Some (db w)
  else None.

Definition setMockMode (w : World) (enabled : bool) : World :=
  set_local w (mkLocal (Some (if enabled then "true" else "false"))
                       (ls_session_token (local w)) (ls_current_operation (local w))
                       (ls_operator_session (local w))).

End SupabaseClient.

(** ** booth-code.js *)

Module BoothCode.

Definition letters : string := "ABCDEFGHIJKLMNOPQRSTUVWXYZ".
Definition numbers : string := "0123456789".

Definition generateBoothCode (rnd : Js.Rng) : string :=
  "" ++ Js.draw letters 3 rnd ++ Js.draw numbers 3 (Js.shift rnd 3).

(** [!data] after [.single()]; a call on the null client throws and the
    catch answers false. *)
Definition isCodeUnique (w : World) (code : string) : bool :=
  if client w then
    match Store.single (Store.booths_by_code (db w) code) with
    | Some _ => false
    | None => true
    end
  else false.

Definition fallbackCode (now : Z) (rnd : Js.Rng) : string :=
  let timestamp := Js.toUpperCase (Js.substr_last 3 (Js.toString36 now)) in
  "XX" ++ timestamp ++ Js.of_int (Js.random_index (rnd O) 10).

Fixpoint generateUniqueBoothCode (w : World) (now : Z) (rnd : Js.Rng) (maxAttempts : nat)
  : string :=
  match maxAttempts with
  | O => fallbackCode now rnd
  | S n =>
      let code := generateBoothCode rnd in
      if isCodeUnique w code then code
      else generateUniqueBoothCode w now (Js.shift rnd 6) n
  end.

(** UPDATE booths SET booth_code, code_expires_at WHERE id = boothId, under
    the UNIQUE constraint of booth_code.  The column is VARCHAR(6); the
    codes written are generated ones, which it stores as they are (lemma
    [generated_code_fits], for draws in the unit interval and a clock past
    the first 1296 milliseconds). *)
Definition update_code (d : Database) (boothId : Z) (code : string) (expires : Z)
  : PgError + Database :=
  if existsb (fun b => Store.has_code code b && negb (b_id b =? boothId)) (booths d)
     && existsb (fun b => b_id b =? boothId) (booths d)
  then inl UniqueViolation
  else inr (Store.with_booths d
              (map (fun b => if b_id b =? boothId
                             then mkBooth (b_id b) (b_name b) (Some code) (Some expires)
                                          (b_is_active b) (b_max_operators b)
                             else b) (booths d))).

Inductive AssignResult :=
| Assigned (code : string) (expiresAt : Z)
| AssignFailed (e : PgError).

Definition day : Z := 86400000.

(** [expiresAt.toISOString()] is evaluated for the request: a time that
    cannot be written fails the call before the store is asked. *)
Definition assignCodeToBooth (w : World) (now : Z) (rnd : Js.Rng) (boothId : Z)
           (expiryDays : Z) : World * AssignResult :=
  let code := generateUniqueBoothCode w now rnd 10 in
  let expiresAt := now + expiryDays * day in
  if client w then
    if Pg.timestamp expiresAt then
      match update_code (db w) boothId code expiresAt with
      | inl e => (w, AssignFailed e)
      | inr d => (set_db w d, Assigned code expiresAt)
      end
    else (w, AssignFailed InvalidDate)
  else (w, AssignFailed ClientMissing).

Inductive Validation :=
| Valid (boothId : Z) (boothName : string)   (* '유효한 부스 코드입니다.' *)
| WrongCode                                  (* '잘못된 부스 코드입니다.' *)
| ExpiredCode                                (* '만료된 부스 코드입니다.' *)
| InactiveBooth                              (* '비활성화된 부스입니다.' *)
| ValidationError.                           (* '코드 검증 중 오류가 발생했습니다.' *)

(** [data.code_expires_at && new Date(data.code_expires_at) < new Date()]:
    the text of the column is read as local time. *)
Definition expired (zone now : Z) (expires : option Z) : bool :=
  match expires with
  | Some e => Js.local_date zone e <? now
  | None => false
  end.

(** [!data.is_active]: null is falsy. *)
Definition not_active (flag : option bool) : bool :=
  match flag with
  | Some f => negb f
  | None => true
  end.

(** The function only reads: the world it leaves is the one it found. *)
Definition validateBoothCode (w : World) (now : Z) (code : string) : World * Validation :=
  if client w then
    match Store.single (Store.booths_by_code (db w) code) with
    | None => (w, WrongCode)
    | Some data =>
        if expired (zone w) now (b_code_expires_at data) then (w, ExpiredCode)
        else if not_active (b_is_active data) then (w, InactiveBooth)
        else (w, Valid (b_id data) (b_name data))
    end
  else (w, ValidationError).

Inductive StartResult :=
| Started (operationId boothId : Z) (boothName : string)
| Refused (v : Validation)        (* message: validation.message *)
| StartFailed (e : PgError).      (* '운영 시작 중 오류가 발생했습니다.' *)

(** Step 2 of startBoothOperation: UPDATE booth_operations SET is_active =
    false, ended_at = now WHERE booth_id = boothId AND is_active. *)
Definition close_row (now boothId : Z) (o : BoothOperation) : BoothOperation :=
  if Store.is_active_of boothId o then
    mkOperation (op_id o) (op_booth_id o) (op_operator_name o) (op_operator_phone o)
                (op_operator_email o) (op_operator_organization o) (op_started_at o)
                (Some now) false (op_total_participants o) (op_notes o)
  else o.

(** The values of a start that the columns of booth_operations store as
    they are: operator_name VARCHAR(100), operator_phone VARCHAR(20). *)
Definition storable (operatorInfo : OperatorInfo) : bool :=
  Pg.fits 100 (name operatorInfo) && Pg.fits 20 (Js.or_null (phone operatorInfo)).

Definition close_active (d : Database) (now boothId : Z) : PgError + Database :=
  Store.update_operations d (close_row now boothId).

(** The store after step 2: the answer of the update is not read, so that
    an update the trigger has aborted goes unnoticed. *)
Definition after_closing (d : Database) (now boothId : Z) : Database :=
  match close_active d now boothId with
  | inr d1 => d1
  | inl _ => d
  end.

Definition startBoothOperation (w : World) (now : Z) (boothCode : string)
           (operatorInfo : OperatorInfo) : World * StartResult :=
  match snd (validateBoothCode w now boothCode) with
  | Valid boothId boothName =>
      let d1 := after_closing (db w) now boothId in
      match Store.insert_operation d1 boothId (name operatorInfo)
              (Js.or_null (phone operatorInfo)) None None None now with
      | (d2, inl e) => (set_db w d2, StartFailed e)
      | (d2, inr data) => (set_db w d2, Started (op_id data) boothId boothName)
      end
  | v => (w, Refused v)
  end.

Inductive EndResult :=
| Ended            (* '부스 운영을 종료했습니다.' *)
| EndFailed.       (* '운영 종료 중 오류가 발생했습니다.' *)

Definition end_row (now operationId : Z) (o : BoothOperation) : BoothOperation :=
  if op_id o =? operationId then
    mkOperation (op_id o) (op_booth_id o) (op_operator_name o) (op_operator_phone o)
                (op_operator_email o) (op_operator_organization o) (op_started_at o)
                (Some now) false (op_total_participants o) (op_notes o)
  else o.

Definition endBoothOperation (w : World) (now : Z) (operationId : Z) : World * EndResult :=
  if client w then
    match Store.update_operations (db w) (end_row now operationId) with
    | inr d => (set_db w d, Ended)
    | inl _ => (w, EndFailed)
    end
  else (w, EndFailed).

(** UPDATE booths SET booth_code = null, code_expires_at = null WHERE id =
    boothId; its answer is not read. *)
Definition clear_code (d : Database) (boothId : Z) : Database :=
  Store.with_booths d
    (map (fun b => if b_id b =? boothId
                   then mkBooth (b_id b) (b_name b) None None
                                (b_is_active b) (b_max_operators b)
                   else b) (booths d)).

Definition regenerateBoothCode (w : World) (now : Z) (rnd : Js.Rng) (boothId : Z)
           (expiryDays : Z) : World * AssignResult :=
  if client w then
    assignCodeToBooth (set_db w (clear_code (db w) boothId)) now rnd boothId expiryDays
  else (w, AssignFailed ClientMissing).

(** [data] of the select with [.single()]: the row when the booth has
    exactly one active operation, null otherwise and on the null client. *)
Definition getActiveOperation (w : World) (boothId : Z) : option BoothOperation :=
  if client w then Store.single (Store.active_operations (db w) boothId)
  else None.

End BoothCode.

(** ** booth-operation.js *)

Module BoothOperationJs.

Definition chars : string :=
  "ABCDEFGHIJKLMNOPQRSTUVWXYZabcdefghijklmnopqrstuvwxyz0123456789".

Definition generateSessionToken (rnd : Js.Rng) : string :=
  "" ++ Js.draw chars 64 rnd.

Inductive StartError :=
| RequiredMissing        (* '이름과 연락처는 필수 입력 항목입니다.' *)
| BadPhone               (* '올바른 전화번호를 입력해주세요.' *)
| AtCapacity (limit : Z) (* '이 부스는 최대 <limit>명까지 동시 운영 가능합니다.' *)
| StartThrown (e : PgError).

Inductive StartResult :=
| Started (operation : BoothOperation) (session_token : string)
| StartFailed (e : StartError).

Definition eight_hours : Z := 8 * 3600000.

(** [booth.max_operators || 3]. *)
Definition limit (booth : Booth) : Z := Js.or_default (b_max_operators booth) 3.

(** [booth && activeOperations && activeOperations.length >= limit]: the
    limit when the condition holds.  The list of active operations is never
    null here, the booth is null when no row has the id. *)
Definition at_capacity (d : Database) (boothId : Z) : option Z :=
  let activeOperations := Store.active_operations d boothId in
  match Store.single (Store.booths_by_id d boothId) with
  | Some booth =>
      if limit booth <=? Z.of_nat (List.length activeOperations)
      then Some (limit booth) else None
  | None => None
  end.

(** The values of a start that the columns of booth_operations and
    operator_sessions store as they are: VARCHAR(100) for the name, the
    e-mail and the organization, VARCHAR(20) for the phone, TEXT for the
    notes, VARCHAR(45) for the address. *)
Definition storable (operatorInfo : OperatorInfo) (phone : string) : bool :=
  Pg.fits 100 (name operatorInfo)
  && Pg.fits 20 (Some phone)
  && Pg.fits 100 (Js.or_null (email operatorInfo))
  && Pg.fits 100 (Js.or_null (organization operatorInfo))
  && Pg.clean (Js.or_null (notes operatorInfo))
  && Pg.fits 45 (Js.or_null (ipAddress operatorInfo)).

(** The rest of startBoothOperation once its two selects have answered
    [full]: the rejection, or the two inserts on the store [d] and the
    localStorage writes. *)
Definition gate_and_insert (full : option Z) (w : World) (d : Database) (now : Z)
           (rnd : Js.Rng) (boothId : Z) (operatorInfo : OperatorInfo) (phone : string)
  : World * StartResult :=
  match full with
  | Some l => (w, StartFailed (AtCapacity l))
  | None =>
      match Store.insert_operation d boothId (name operatorInfo) (Some phone)
              (Js.or_null (email operatorInfo))
              (Js.or_null (organization operatorInfo))
              (Js.or_null (notes operatorInfo)) now with
      | (d1, inl e) => (set_db w d1, StartFailed (StartThrown e))
      | (d1, inr operation) =>
          let sessionToken := generateSessionToken rnd in
          match Store.insert_session d1 now sessionToken (op_id operation)
                  (now + eight_hours) (Js.or_null (ipAddress operatorInfo)) with
          | (d2, Some e) => (set_db w d2, StartFailed (StartThrown e))
          | (d2, None) =>
              (mkWorld (client w) d2
                       (mkLocal (ls_useMockMode (local w)) (Some sessionToken)
                                (Some operation) (ls_operator_session (local w)))
                       (zone w),
               Started operation sessionToken)
          end
      end
  end.

Definition startBoothOperation (w : World) (now : Z) (rnd : Js.Rng) (boothId : Z)
           (operatorInfo : OperatorInfo) : World * StartResult :=
  if negb (Js.truthy (name operatorInfo)) || negb (Js.truthy (phone operatorInfo)) then
    (w, StartFailed RequiredMissing)
  else
    let phone :=
      match phone operatorInfo with
      | Some p => Js.keep_digits p
      | None => ""
      end in
    if (String.length phone <? 10)%nat then (w, StartFailed BadPhone)
    else
      match SupabaseClient.getSupabase w with
      | None =>
          let mockOperation :=
            mkOperation now boothId
              match name operatorInfo with Some n => n | None => "" end
              (Some phone) (Js.or_null (email operatorInfo))
              (Js.or_null (organization operatorInfo)) now None true 0 None in
          let token := generateSessionToken rnd in
          (set_local w (mkLocal (ls_useMockMode (local w)) (Some token)
                                (Some mockOperation) (ls_operator_session (local w))),
           Started mockOperation token)
      | Some d =>
          gate_and_insert (at_capacity d boothId) w d now rnd boothId operatorInfo phone
      end.

(** Two calls of startBoothOperation for one booth whose awaits interleave:
    both calls have passed their input checks and run their selects on the
    store before either of them inserts; then the first inserts, then the
    second, on the store the first has left. *)
Definition interleaved_starts (w : World) (now : Z) (rndA rndB : Js.Rng) (boothId : Z)
           (infoA infoB : OperatorInfo) (phoneA phoneB : string)
  : World * (StartResult * StartResult) :=
  let fullA := at_capacity (db w) boothId in
  let fullB := at_capacity (db w) boothId in
  let (w1, resultA) := gate_and_insert fullA w (db w) now rndA boothId infoA phoneA in
  let (w2, resultB) := gate_and_insert fullB w1 (db w1) now rndB boothId infoB phoneB in
  (w2, (resultA, resultB)).

Record Duration := mkDuration {
  hours : Z;
  minutes : Z;
  totalMinutes : Z
}.

(** [Math.floor] of a quotient is the floored division, [%] the remainder
    that takes the sign of the dividend.  The two times are texts of
    TIMESTAMP columns, both read as local time, which leaves their
    difference as it is. *)
Definition calculateDuration (startTime endTime : Z) : Duration :=
  let diffMs := endTime - startTime in
  mkDuration (diffMs / (1000 * 60 * 60))
             (Z.rem diffMs (1000 * 60 * 60) / (1000 * 60))
             (diffMs / (1000 * 60)).

Inductive EndError :=
| InvalidSession     (* '세션이 유효하지 않습니다.' *)
| EndThrown (e : PgError).

Inductive EndResult :=
| MockEnded                                      (* '운영이 종료되었습니다.' *)
| Ended (operation : BoothOperation) (duration : Duration) (participants : Z)
| EndFailed (e : EndError).

(** The session check of endBoothOperation, made only for a truthy token. *)
Definition session_allows (d : Database) (operationId : Z) (sessionToken : option string)
  : bool :=
  match sessionToken with
  | Some t =>
      if Js.truthy sessionToken then
        match Store.single (Store.sessions_by_token d t) with
        | Some session => s_booth_operation_id session =? operationId
        | None => false
        end
      else true
  | None => true
  end.

(** The participant count as the query states it: rows of participants
    whose booth_id equals the operation id given to the call. *)
Definition participantCount (d : Database) (operationId : Z) : Z :=
  Z.of_nat (List.length (filter (fun p => p_booth_id p =? operationId) (participants d))).

(** The update of endBoothOperation: ended_at, is_active and
    total_participants are written, the other columns kept. *)
Definition ended (now count : Z) (o : BoothOperation) : BoothOperation :=
  mkOperation (op_id o) (op_booth_id o) (op_operator_name o) (op_operator_phone o)
              (op_operator_email o) (op_operator_organization o) (op_started_at o)
              (Some now) false count (op_notes o).

Definition end_row (now operationId count : Z) (o : BoothOperation) : BoothOperation :=
  if op_id o =? operationId then ended now count o else o.

Definition clear_local (l : LocalStorage) : LocalStorage :=
  mkLocal (ls_useMockMode l) None None (ls_operator_session l).

(** The update asks for [.single()]: when no row has the id nothing is
    written and the error is thrown (the primary key excludes several);
    the error of an update that the trigger aborts is thrown as well. *)
Definition endBoothOperation (w : World) (now : Z) (operationId : Z)
           (sessionToken : option string) : World * EndResult :=
  match SupabaseClient.getSupabase w with
  | None => (set_local w (clear_local (local w)), MockEnded)
  | Some d =>
      if negb (session_allows d operationId sessionToken) then
        (w, EndFailed InvalidSession)
      else
        let count := participantCount d operationId in
        match Store.update_operations d (end_row now operationId count) with
        | inl e => (w, EndFailed (EndThrown e))
        | inr d1 =>
            match Store.single (filter (fun o => op_id o =? operationId)
                                  (booth_operations d1)) with
            | None => (w, EndFailed (EndThrown NoSingleRow))
            | Some data =>
                let d2 :=
                  match sessionToken with
                  | Some t => if Js.truthy sessionToken then Store.delete_sessions d1 t else d1
                  | None => d1
                  end in
                (mkWorld (client w) d2 (clear_local (local w)) (zone w),
                 Ended data
                       (calculateDuration (op_started_at data)
                          match op_ended_at data with Some e => e | None => now end)
                       count)
            end
        end
  end.

Inductive CurrentError :=
| NoSession            (* '세션이 없습니다.' *)
| NoMockOperation      (* '운영 중인 부스가 없습니다.' *)
| UnknownSession       (* '유효하지 않은 세션입니다.' *)
| ExpiredSession.      (* '세션이 만료되었습니다.' *)

Inductive CurrentResult :=
| MockCurrent (operation : BoothOperation)
| Current (operation : option BoothOperation) (session : OperatorSession)
| CurrentFailed (e : CurrentError).

(** The booth_operations row embedded in the selected session. *)
Definition joined_operation (d : Database) (s : OperatorSession) : option BoothOperation :=
  find (fun o => op_id o =? s_booth_operation_id s) (booth_operations d).

(** [new Date(session.expires_at) < new Date()]: the text of the column,
    which the start wrote with [toISOString], is read as local time. *)
Definition getCurrentOperation (w : World) (now : Z) (sessionToken : option string)
  : World * CurrentResult :=
  let sessionToken :=
    if Js.truthy sessionToken then sessionToken else ls_session_token (local w) in
  match sessionToken with
  | None => (w, CurrentFailed NoSession)
  | Some token =>
      if negb (Js.truthy sessionToken) then (w, CurrentFailed NoSession)
      else
        match SupabaseClient.getSupabase w with
        | None =>
            match ls_current_operation (local w) with
            | Some operation => (w, MockCurrent operation)
            | None => (w, CurrentFailed NoMockOperation)
            end
        | Some d =>
            match Store.single (Store.sessions_by_token d token) with
            | None => (w, CurrentFailed UnknownSession)
            | Some session =>
                if Js.local_date (zone w) (s_expires_at session) <? now then
                  (mkWorld (client w) (Store.delete_sessions d token)
                           (clear_local (local w)) (zone w),
                   CurrentFailed ExpiredSession)
                else
                  (set_db w (Store.with_sessions d
                               (map (Store.touch_session now token) (operator_sessions d))),
                   Current (joined_operation d session) session)
            end
        end
  end.

Record Stats := mkStats {
  totalOperations : Z;
  activeOperations : Z;
  totalOperators : Z;
  averageDuration : Z;
  totalParticipants : Z
}.

Definition phone_eq_dec (a b : option string) : {a = b} + {a <> b}.
Proof. decide equality. apply string_dec. Defined.

(** [if (boothId)]: null and 0 ask for every booth. *)
Definition stats_rows (d : Database) (boothId : option Z) : list BoothOperation :=
  match boothId with
  | Some b => if b =? 0 then booth_operations d
              else filter (fun o => op_booth_id o =? b) (booth_operations d)
  | None => booth_operations d
  end.

Definition minutes_of (o : BoothOperation) : Z :=
  match op_ended_at o with
  | Some e => totalMinutes (calculateDuration (op_started_at o) e)
  | None => 0
  end.

Definition completed (o : BoothOperation) : bool :=
  match op_ended_at o with Some _ => true | None => false end.

(** [op.total_participants || 0] is the column itself. *)
Definition getOperationStats (w : World) (boothId : option Z) : Stats :=
  match SupabaseClient.getSupabase w with
  | None => mkStats 0 0 0 0 0
  | Some d =>
      let operations := stats_rows d boothId in
      let completedOps := filter completed operations in
      mkStats
        (Z.of_nat (List.length operations))
        (Z.of_nat (List.length (filter op_is_active operations)))
        (Z.of_nat (List.length (nodup phone_eq_dec (map op_operator_phone operations))))
        (match completedOps with
         | [] => 0
         | _ :: _ =>
             Js.round_div (fold_left (fun sum o => sum + minutes_of o) completedOps 0)
                          (Z.of_nat (List.length completedOps))
         end)
        (fold_left (fun sum o => sum + op_total_participants o) operations 0)
  end.

End BoothOperationJs.

(** ** operator-auth.js *)

Module OperatorAuth.

Definition clearOperatorSession (w : World) : World :=
  set_local w (mkLocal (ls_useMockMode (local w)) (ls_session_token (local w))
                       (ls_current_operation (local w)) None).

(** [session.expiresAt && new Date(session.expiresAt) < new Date()]. *)
Definition expired (now : Z) (session : SessionData) : bool :=
  match expiresAt session with
  | Some e => e <? now
  | None => false
  end.

Definition getOperatorSession (w : World) (now : Z) : World * option SessionData :=
  match ls_operator_session (local w) with
  | None => (w, None)
  | Some Malformed => (w, None)
  | Some (SessionJson session) =>
      if expired now session then (clearOperatorSession w, None)
      else (w, Some session)
  end.

Definition twenty_four_hours : Z := 24 * 3600000.

(** The stored string is the JSON of the object, which [JSON.parse] gives
    back; operatorPhone, which no function reads, is not kept. *)
Definition saveOperatorSession (w : World) (sessionData : SessionData) : World :=
  set_local w (mkLocal (ls_useMockMode (local w)) (ls_session_token (local w))
                       (ls_current_operation (local w)) (Some (SessionJson sessionData))).

Inductive LoginError :=
| BadCode                              (* '올바른 부스 코드를 입력해주세요. (6자리)' *)
| NoName                               (* '운영자 이름을 입력해주세요.' *)
| Refused (v : BoothCode.Validation)   (* the message of the validation *)
| StartFailed (e : PgError).           (* '운영 시작 중 오류가 발생했습니다.' *)

Inductive LoginResult :=
| LoggedIn (session : SessionData)
| LoginFailed (e : LoginError).

(** [operatorInfo.phone?.trim() || null]. *)
Definition trimmed_phone (operatorInfo : OperatorInfo) : option string :=
  match phone operatorInfo with
  | Some p => Js.or_null (Some (Js.trim p))
  | None => None
  end.

Definition operatorLogin (w : World) (now : Z) (boothCode : string)
           (operatorInfo : OperatorInfo) : World * LoginResult :=
  if (boothCode =? "")%string || negb (Js.length16 boothCode =? 6)%nat then
    (w, LoginFailed BadCode)
  else
    match name operatorInfo with
    | None => (w, LoginFailed NoName)
    | Some nm =>
        if (nm =? "")%string || (Js.trim nm =? "")%string then (w, LoginFailed NoName)
        else
          match BoothCode.startBoothOperation w now boothCode
                  (mkInfo (Some (Js.trim nm)) (trimmed_phone operatorInfo)
                          None None None None) with
          | (w1, BoothCode.Started operationId boothId boothName) =>
              let session :=
                mkSessionData operationId boothId boothName nm "operator" now
                              (Some (now + twenty_four_hours)) in
              (saveOperatorSession w1 session, LoggedIn session)
          | (w1, BoothCode.Refused v) => (w1, LoginFailed (Refused v))
          | (w1, BoothCode.StartFailed e) => (w1, LoginFailed (StartFailed e))
          end
    end.

(** The awaited [endBoothOperation] catches its own errors, so the call
    always answers success; the world it leaves is what is returned. *)
Definition operatorLogout (w : World) (now : Z) : World :=
  let (w1, session) := getOperatorSession w now in
  let w2 :=
    match session with
    | Some s =>
        if operationId s =? 0 then w1
        else fst (BoothCode.endBoothOperation w1 now (operationId s))
    | None => w1
    end in
  clearOperatorSession w2.

Definition hasBoothAccess (w : World) (now : Z) (booth : Z) : World * bool :=
  match getOperatorSession w now with
  | (w1, Some session) => (w1, boothId session =? booth)
  | (w1, None) => (w1, false)
  end.

Definition isOperator (w : World) (now : Z) : World * bool :=
  match getOperatorSession w now with
  | (w1, Some session) => (w1, (role session =? "operator")%string)
  | (w1, None) => (w1, false)
  end.

Definition refreshSession (w : World) (now : Z) : World * bool :=
  match getOperatorSession w now with
  | (w1, Some session) =>
      (saveOperatorSession w1
         (mkSessionData (operationId session) (boothId session) (boothName session)
                        (operatorName session) (role session) (startedAt session)
                        (Some (now + twenty_four_hours))),
       true)
  | (w1, None) => (w1, false)
  end.

(** The name is the template literal [운영자_${Date.now().toString(36)
    .toUpperCase()}]; the phone is null. *)
Definition quickOperatorStart (w : World) (now : Z) (boothCode : string)
  : World * LoginResult :=
  let tempName := "운영자_" ++ Js.toUpperCase (Js.toString36 now) in
  operatorLogin w now boothCode (mkInfo (Some tempName) None None None None None).

End OperatorAuth.

(** ** auth-manager.js *)

(** The string under the key admin_session: the empty string, a string of
    which reading a field after [JSON.parse] throws, or one that parses to
    a value whose role and username are read. *)
Inductive AdminStored :=
| AdminEmpty
| AdminMalformed
| AdminJson (role username : option string).

(** The page keeps the admin session beside the operator's world. *)
Record Page := mkPage {
  page_world : World;
  admin_session : option AdminStored
}.

Definition set_world (p : Page) (w : World) : Page := mkPage w (admin_session p).

Inductive Role := ADMIN | OPERATOR | GUEST.

Module AuthManager.

(** USER_ROLES. *)
Definition role_name (r : Role) : string :=
  match r with
  | ADMIN => "admin"
  | OPERATOR => "operator"
  | GUEST => "guest"
  end.

(** PERMISSIONS. *)
Definition MANAGE_BOOTHS : string := "manage_booths".
Definition MANAGE_CODES : string := "manage_codes".
Definition VIEW_ALL_STATS : string := "view_all_stats".
Definition EXPORT_DATA : string := "export_data".
Definition OPERATE_BOOTH : string := "operate_booth".
Definition VIEW_BOOTH_STATS : string := "view_booth_stats".
Definition ADD_PARTICIPANT : string := "add_participant".
Definition VIEW_PUBLIC : string := "view_public".

Definition ROLE_PERMISSIONS (r : Role) : list string :=
  match r with
  | ADMIN =>
      [MANAGE_BOOTHS; MANAGE_CODES; VIEW_ALL_STATS; EXPORT_DATA;
       OPERATE_BOOTH; VIEW_BOOTH_STATS; ADD_PARTICIPANT; VIEW_PUBLIC]
  | OPERATOR => [OPERATE_BOOTH; VIEW_BOOTH_STATS; ADD_PARTICIPANT; VIEW_PUBLIC]
  | GUEST => [VIEW_PUBLIC]
  end.

(** [array.includes(x)] on strings. *)
Definition includes (l : list string) (x : string) : bool :=
  existsb (fun y => (y =? x)%string) l.

(** The admin session counts when it is not empty, parses and its role is
    'admin'; a parse error is caught and the operator session is looked
    at. *)
Definition admin_role_is_admin (p : Page) : bool :=
  match admin_session p with
  | Some (AdminJson (Some r) _) => (r =? "admin")%string
  | _ => false
  end.

Definition getCurrentUserRole (p : Page) (now : Z) : Page * Role :=
  if admin_role_is_admin p then (p, ADMIN)
  else
    match OperatorAuth.getOperatorSession (page_world p) now with
    | (w1, Some operatorSession) =>
        (set_world p w1,
         if (role operatorSession =? "operator")%string then OPERATOR else GUEST)
    | (w1, None) => (set_world p w1, GUEST)
    end.

Record User := mkUser {
  u_role : Role;
  u_username : option string;
  u_name : string;
  u_boothId : option Z;
  u_boothName : option string;
  u_permissions : list string
}.

Definition guest_user : User :=
  mkUser GUEST (Some "guest") "방문자" None None (ROLE_PERMISSIONS GUEST).

(** For an operator the session is read a second time; it is the one the
    role was read from (lemma [operator_session_is_read_again]), so the
    last branch, a TypeError in the source, is not reached. *)
Definition getCurrentUser (p : Page) (now : Z) : Page * User :=
  match getCurrentUserRole p now with
  | (p1, ADMIN) =>
      (p1, mkUser ADMIN
                  match admin_session p1 with
                  | Some (AdminJson _ u) => u
                  | _ => None
                  end
                  "관리자" None None (ROLE_PERMISSIONS ADMIN))
  | (p1, OPERATOR) =>
      match OperatorAuth.getOperatorSession (page_world p1) now with
      | (w2, Some operatorSession) =>
          (set_world p1 w2,
           mkUser OPERATOR (Some (operatorName operatorSession))
                  (operatorName operatorSession) (Some (boothId operatorSession))
                  (Some (boothName operatorSession)) (ROLE_PERMISSIONS OPERATOR))
      | (w2, None) => (set_world p1 w2, guest_user)
      end
  | (p1, GUEST) => (p1, guest_user)
  end.

Definition hasPermission (p : Page) (now : Z) (permission : string) : Page * bool :=
  let (p1, user) := getCurrentUser p now in
  (p1, includes (u_permissions user) permission).

Definition hasAnyPermission (p : Page) (now : Z) (permissions : list string) : Page * bool :=
  let (p1, user) := getCurrentUser p now in
  (p1, existsb (includes (u_permissions user)) permissions).

Definition hasAllPermissions (p : Page) (now : Z) (permissions : list string) : Page * bool :=
  let (p1, user) := getCurrentUser p now in
  (p1, forallb (includes (u_permissions user)) permissions).

Definition canAccessBooth (p : Page) (now : Z) (booth : Z) : Page * bool :=
  let (p1, user) := getCurrentUser p now in
  (p1,
   match u_role user with
   | ADMIN => true
   | OPERATOR =>
       match u_boothId user with
       | Some b => b =? booth
       | None => false
       end
   | GUEST => false
   end).

Definition isLoggedIn (p : Page) (now : Z) : Page * bool :=
  let (p1, r) := getCurrentUserRole p now in
  (p1, match r with GUEST => false | _ => true end).

(** roleLevel; a name that is no role has no level. *)
Definition roleLevel (r : string) : option Z :=
  if (r =? "admin")%string then Some 3
  else if (r =? "operator")%string then Some 2
  else if (r =? "guest")%string then Some 1
  else None.

(** [roleLevel[currentRole] < roleLevel[requiredRole]]: false when the
    right side is undefined. *)
Definition below (current : Role) (requiredRole : string) : bool :=
  match roleLevel (role_name current), roleLevel requiredRole with
  | Some c, Some r => c <? r
  | _, _ => false
  end.

(** The answer, and the page the browser is sent to when access is
    refused. *)
Definition checkPageAccess (p : Page) (now : Z) (requiredRole : string)
  : Page * (bool * option string) :=
  let (p1, currentRole) := getCurrentUserRole p now in
  if below currentRole requiredRole then
    (p1, (false,
          match currentRole with
          | GUEST => Some "operator-login.html"
          | _ => Some "index.html"
          end))
  else (p1, (true, None)).

End AuthManager.

(** ** access-control.js *)

Module AccessControl.

(** [JSON.parse(localStorage.getItem('admin_session') || '{}')], outside any
    try: [None] when it throws. *)
Definition admin_username (p : Page) : option (option string) :=
  match admin_session p with
  | None => Some None
  | Some AdminEmpty => Some None
  | Some AdminMalformed => None
  | Some (AdminJson _ u) => Some u
  end.

Definition getCurrentUserRole (p : Page) (now : Z) : Page * option Role :=
  match admin_username p with
  | None => (p, None)
  | Some u =>
      if match u with Some n => (n =? "admin")%string | None => false end
      then (p, Some ADMIN)
      else
        let (w1, operator) := OperatorAuth.isOperator (page_world p) now in
        (set_world p w1, Some (if operator then OPERATOR else GUEST))
  end.

Definition isAdmin (p : Page) (now : Z) : Page * option bool :=
  match getCurrentUserRole p now with
  | (p1, Some ADMIN) => (p1, Some true)
  | (p1, Some _) => (p1, Some false)
  | (p1, None) => (p1, None)
  end.

Definition canAccessBooth (p : Page) (now : Z) (booth : Z) : Page * option bool :=
  match getCurrentUserRole p now with
  | (p1, Some ADMIN) => (p1, Some true)
  | (p1, Some OPERATOR) =>
      let (w2, access) := OperatorAuth.hasBoothAccess (page_world p1) now booth in
      (set_world p1 w2, Some access)
  | (p1, Some GUEST) => (p1, Some false)
  | (p1, None) => (p1, None)
  end.

(** The answer, and the page the browser is sent to when access is
    refused; [None] when reading the role throws. *)
Definition checkPageAccess (p : Page) (now : Z) (requiredRole : string)
  : Page * option (bool * option string) :=
  match getCurrentUserRole p now with
  | (p1, None) => (p1, None)
  | (p1, Some currentRole) =>
      if (requiredRole =? "admin")%string
         && negb match currentRole with ADMIN => true | _ => false end
      then (p1, Some (false, Some "admin-login.html"))
      else if (requiredRole =? "operator")%string
              && match currentRole with GUEST => true | _ => false end
      then (p1, Some (false, Some "operator-login.html"))
      else (p1, Some (true, None))
  end.

(** logout: the admin session is removed, or the operator is logged out;
    a guest is left as found.  [None] when reading the role throws. *)
Definition logout (p : Page) (now : Z) : option Page :=
  match getCurrentUserRole p now with
  | (p1, None) => None
  | (p1, Some ADMIN) => Some (mkPage (page_world p1) None)
  | (p1, Some OPERATOR) => Some (set_world p1 (OperatorAuth.operatorLogout (page_world p1) now))
  | (p1, Some GUEST) => Some p1
  end.

End AccessControl.

(** ** Shapes of booth codes *)

Module CodeFormat.

(** Three uppercase ASCII letters followed by three decimal digits. *)
Definition is_code_format (s : string) : bool :=
  match s with
  | String a (String b (String c (String d (String e (String f EmptyString))))) =>
      Js.is_upper a && Js.is_upper b && Js.is_upper c
      && Js.is_digit d && Js.is_digit e && Js.is_digit f
  | _ => false
  end.

Definition is_alnum (c : ascii) : bool := Js.is_digit c || Js.is_upper c.

(** The letters XX, three characters that are each a digit or an uppercase
    letter, and one decimal digit. *)
Definition is_fallback_format (s : string) : bool :=
  match s with
  | String a (String b (String c (String d (String e (String f EmptyString))))) =>
      (a =? "X")%char && (b =? "X")%char
      && is_alnum c && is_alnum d && is_alnum e && Js.is_digit f
  | _ => false
  end.

Definition unit_interval (rnd : Js.Rng) : Prop :=
  forall i : nat, (0 <= rnd i)%Q /\ (rnd i < 1)%Q.

End CodeFormat.

(** ** Sample states *)

(** The browsers of the sample worlds keep UTC, unless their zone is
    given. *)
Module Examples.

(** Two booths of the setup script; the first admits one operator. *)
Definition sample_booths : list Booth :=
  [ mkBooth 1 "청소년 상담 부스" (Some "ABC123") None (Some true) (Some 1);
    mkBooth 2 "진로 체험 부스" (Some "DEF456") None (Some true) None ].

Definition empty_local : LocalStorage := mkLocal None None None None.

Definition running : BoothOperation :=
  mkOperation 7 1 "Kim" (Some "01012345678") None None 1000 None true 0 None.

Definition closed : BoothOperation :=
  mkOperation 7 1 "Kim" (Some "01012345678") None None 1000 (Some 5000) false 4 None.

(** Three visitors of booth 1 registered while operation 7 was running. *)
Definition visitors : list Participant :=
  [ mkParticipant 1 1 2000; mkParticipant 2 1 3000; mkParticipant 3 1 4000 ].

Definition session_of_7 : OperatorSession :=
  mkSession 1 "tok" 7 99999 1000 None.

(** Booth 1 with operation 7 running and its session stored. *)
Definition busy_world : World :=
  mkWorld true
    (mkDatabase sample_booths [running] [session_of_7] [] visitors 8 2 [])
    empty_local 0.

(** The same booth after operation 7 was ended at 5000 without its token. *)
Definition closed_world : World :=
  mkWorld true
    (mkDatabase sample_booths [closed] [session_of_7] [] visitors 8 2 [])
    empty_local 0.

Definition mock_world : World :=
  mkWorld true
    (mkDatabase sample_booths [running] [session_of_7] [] visitors 8 2 [])
    (mkLocal (Some "true") None None None) 0.

Definition operator : OperatorInfo :=
  mkInfo (Some "Lee") (Some "010-9876-5432") None None None None.

Definition failure (at_ : Z) : CodeAttempt :=
  mkAttempt "QQQ111" "203.0.113.7" at_ false None (Some "잘못된 코드").

(** Five failed attempts of one address between 10:00 and 10:40, read at
    10:50 (in milliseconds of the day). *)
Definition five_failures : list CodeAttempt :=
  [ failure 36000000; failure 36600000; failure 37200000;
    failure 37800000; failure 38400000 ].

Definition probed_world : World :=
  mkWorld true (mkDatabase sample_booths [] [] five_failures [] 1 1 []) empty_local 0.

Definition ten_fifty : Z := 39000000.

Definition zero_rng : Js.Rng := fun _ => 0%Q.

(** 2025-08-29T00:00:00Z, in base 36 mew2gao0. *)
Definition migration_day : Z := 1756425600000.

(** Every candidate drawn from [zero_rng] is AAA000, and the fallback code
    of [migration_day] is taken as well. *)
Definition crowded_world : World :=
  mkWorld true
    (mkDatabase
       [ mkBooth 1 "청소년 상담 부스" (Some "AAA000") None (Some true) None;
         mkBooth 2 "진로 체험 부스" (Some "XXAO00") None (Some true) None ]
       [] [] [] [] 1 1 [])
    empty_local 0.

Definition stored_session (expires : Z) : SessionData :=
  mkSessionData 7 1 "청소년 상담 부스" "Kim" "operator" 1000 (Some expires).

(** Booth 1, which admits one operator, with nobody operating it. *)
Definition free_world : World :=
  mkWorld true (mkDatabase sample_booths [] [] [] [] 1 1 []) empty_local 0.

Definition half_rng : Js.Rng := fun _ => (1 # 2)%Q.

Definition operator_a : OperatorInfo :=
  mkInfo (Some "A") (Some "010-1111-2222") None None None None.

Definition operator_b : OperatorInfo :=
  mkInfo (Some "B") (Some "010-3333-4444") None None None None.

(** 10:00:00 and 11:45:30 of one day, in milliseconds. *)
Definition ten_o_clock : Z := 36000000.
Definition quarter_to_twelve_30 : Z := 42330000.

End Examples.

(** ** Shape of a session token *)

Module TokenFormat.

Definition is_lower (c : ascii) : bool :=
  let n := nat_of_ascii c in ((97 <=? n) && (n <=? 122))%nat.

Definition is_token_char (c : ascii) : bool :=
  Js.is_upper c || is_lower c || Js.is_digit c.

Fixpoint all_chars (f : ascii -> bool) (s : string) : bool :=
  match s with
  | EmptyString => true
  | String c s' => f c && all_chars f s'
  end.

End TokenFormat.

(** ** Invariants of the store *)

Module Invariants.

(** The ids of booth_operations come from one sequence: they are pairwise
    distinct and below the next value. *)
Definition ids_sequenced (d : Database) : Prop :=
  (forall o, In o (booth_operations d) -> op_id o < next_operation_id d)
  /\ NoDup (map op_id (booth_operations d)).

(** At most one booth holds a code (UNIQUE on booth_code). *)
Definition codes_unique (d : Database) : Prop :=
  forall c, (List.length (Store.booths_by_code d c) <= 1)%nat.

(** At most one session holds a token (UNIQUE on session_token). *)
Definition tokens_unique (d : Database) : Prop :=
  forall t, (List.length (Store.sessions_by_token d t) <= 1)%nat.

(** Every booth has at most one active operation. *)
Definition one_operator_per_booth (d : Database) : Prop :=
  forall b, (List.length (Store.active_operations d b) <= 1)%nat.

End Invariants.

(** ** More sample states *)

Module Cases.

(** Asia/Seoul, nine hours ahead of UTC. *)
Definition seoul : Z := 32400000.

Definition in_zone (w : World) (z : Z) : World :=
  mkWorld (client w) (db w) (local w) z.

Definition visitor : OperatorInfo :=
  mkInfo (Some "  Lee  ") (Some " 010-9876-5432 ") None None None None.

(** An operator session saved at 1000 by a login on booth 1. *)
Definition logged_in_world : World :=
  mkWorld true
    (mkDatabase Examples.sample_booths [Examples.running] [] [] [] 8 1 [])
    (mkLocal None None None (Some (SessionJson (Examples.stored_session 86401000)))) 0.

Definition admin_page : Page :=
  mkPage logged_in_world (Some (AdminJson (Some "admin") (Some "admin"))).

Definition guest_page : Page := mkPage Examples.free_world None.

Definition broken_page : Page := mkPage logged_in_world (Some AdminMalformed).

(** A booth whose is_active column is NULL. *)
Definition null_active_world : World :=
  mkWorld true
    (mkDatabase [mkBooth 3 "Booth 3" (Some "GHI789") None None None] [] [] [] [] 1 1 [])
    Examples.empty_local 0.

(** Operator A's start on the free booth 1 at 9000, with the draws of
    [Examples.zero_rng]. *)
Definition started_a : World * BoothOperationJs.StartResult :=
  BoothOperationJs.startBoothOperation Examples.free_world 9000 Examples.zero_rng 1
    Examples.operator_a.

Definition operation_a : BoothOperation :=
  mkOperation 1 1 "A" (Some "01011112222") None None 9000 None true 0 None.

Definition token_a : string := BoothOperationJs.generateSessionToken Examples.zero_rng.

(** The same start in a browser in Asia/Seoul. *)
Definition started_in_seoul : World * BoothOperationJs.StartResult :=
  BoothOperationJs.startBoothOperation (in_zone Examples.free_world seoul) 9000
    Examples.zero_rng 1 Examples.operator_a.

(** The login of [visitor] on the free booth 1 at 9000. *)
Definition logged_in : World * OperatorAuth.LoginResult :=
  OperatorAuth.operatorLogin Examples.free_world 9000 "ABC123" visitor.

Definition session_lee : SessionData :=
  mkSessionData 1 1 "청소년 상담 부스" "  Lee  " "operator" 9000 (Some 86409000).

(** Booths 1 and 2 hold the candidate and the fallback code of the draws of
    [Examples.zero_rng] at [Examples.migration_day]; booth 3 holds a third
    code. *)
Definition three_codes_world : World :=
  mkWorld true
    (mkDatabase
       [ mkBooth 1 "Booth 1" (Some "AAA000") None (Some true) None;
         mkBooth 2 "Booth 2" (Some "XXAO00") None (Some true) None;
         mkBooth 3 "Booth 3" (Some "ZZZ999") None (Some true) None ]
       [] [] [] [] 1 1 [])
    Examples.empty_local 0.

(** An admin session whose role is admin and whose username is not. *)
Definition renamed_admin_page : Page :=
  mkPage Examples.free_world (Some (AdminJson (Some "admin") (Some "root"))).

(** A phone field of 30 characters, 22 of them digits. *)
Definition two_phones : OperatorInfo :=
  mkInfo (Some "Lee") (Some "010-9876-5432 / 02-345-6789-00") None None None None.

End Cases.

(** ** Rows that the starts write *)

Module Rows.

(** The row that booth-operation's start inserts for values the columns
    store as they are. *)
Definition started (d : Database) (now boothId : Z) (info : OperatorInfo)
           (nm ph : string) : BoothOperation :=
  mkOperation (next_operation_id d) boothId nm (Some ph) (Js.or_null (email info))
              (Js.or_null (organization info)) now None true 0 (Js.or_null (notes info)).

(** The row that booth-code's start inserts. *)
Definition code_started (d : Database) (now boothId : Z) (nm : string)
           (ph : option string) : BoothOperation :=
  mkOperation (next_operation_id d) boothId nm ph None None now None true 0 None.

End Rows.

(** * Properties *)

(** ** Random draws and characters *)

Section Draws.

Lemma random_index_range (r : Q) (n : nat) :
  (0 <= r)%Q -> (r < 1)%Q -> (0 < n)%nat ->
  0 <= Js.random_index r n < Z.of_nat n.
Proof.
  intros H0 H1 Hn. unfold Js.random_index.
  set (q := inject_Z (Z.of_nat n)).
  assert (Hq : (0 < q)%Q) by (unfold q, Qlt; simpl; lia).
  split.
  - change 0 with (Qfloor 0). apply Qfloor_resp_le.
    apply Qmult_le_0_compat; [assumption | apply Qlt_le_weak; assumption].
  - assert (Hlt : (r * q < q)%Q).
    { setoid_replace q with (1 * q)%Q at 2 by ring.
      apply Qmult_lt_compat_r; assumption. }
    assert (Hfl : (inject_Z (Qfloor (r * q)) < q)%Q).
    { eapply Qle_lt_trans; [apply Qfloor_le | exact Hlt]. }
    unfold q in Hfl. rewrite <- Zlt_Qlt in Hfl. exact Hfl.
Qed.

Lemma charAt_letters (i : Z) :
  0 <= i < 26 ->
  exists c, Js.charAt BoothCode.letters i = String c "" /\ Js.is_upper c = true.
Proof.
  intros Hi. rewrite <- (Z2Nat.id i) by lia.
  assert (Hk : (Z.to_nat i < 26)%nat) by lia.
  set (k := Z.to_nat i) in *. clearbody k. clear Hi.
  do 26 (destruct k as [|k]; [eexists; split; reflexivity |]).
  lia.
Qed.

Lemma charAt_numbers (i : Z) :
  0 <= i < 10 ->
  exists c, Js.charAt BoothCode.numbers i = String c "" /\ Js.is_digit c = true.
Proof.
  intros Hi. rewrite <- (Z2Nat.id i) by lia.
  assert (Hk : (Z.to_nat i < 10)%nat) by lia.
  set (k := Z.to_nat i) in *. clearbody k. clear Hi.
  do 10 (destruct k as [|k]; [eexists; split; reflexivity |]).
  lia.
Qed.

Lemma pick_letters (r : Q) :
  (0 <= r)%Q -> (r < 1)%Q ->
  exists c, Js.pick BoothCode.letters r = String c "" /\ Js.is_upper c = true.
Proof.
  intros H0 H1. unfold Js.pick. apply charAt_letters.
  apply (random_index_range r 26 H0 H1). lia.
Qed.

Lemma pick_numbers (r : Q) :
  (0 <= r)%Q -> (r < 1)%Q ->
  exists c, Js.pick BoothCode.numbers r = String c "" /\ Js.is_digit c = true.
Proof.
  intros H0 H1. unfold Js.pick. apply charAt_numbers.
  apply (random_index_range r 10 H0 H1). lia.
Qed.

Lemma generateBoothCode_format (rnd : Js.Rng) :
  CodeFormat.unit_interval rnd ->
  CodeFormat.is_code_format (BoothCode.generateBoothCode rnd) = true.
Proof.
  intros U. unfold BoothCode.generateBoothCode. cbn [Js.draw].
  unfold Js.shift. cbn [Nat.add].
  destruct (pick_letters (rnd 0%nat)) as (a & -> & Ha); try apply U.
  destruct (pick_letters (rnd 1%nat)) as (b & -> & Hb); try apply U.
  destruct (pick_letters (rnd 2%nat)) as (c & -> & Hc); try apply U.
  destruct (pick_numbers (rnd 3%nat)) as (d & -> & Hd); try apply U.
  destruct (pick_numbers (rnd 4%nat)) as (e & -> & He); try apply U.
  destruct (pick_numbers (rnd 5%nat)) as (f & -> & Hf); try apply U.
  cbn. rewrite Ha, Hb, Hc, Hd, He, Hf. reflexivity.
Qed.

End Draws.

(** ** Base-36 timestamps *)

Section Base36.

Lemma append_assoc (s t u : string) : ((s ++ t) ++ u = s ++ (t ++ u))%string.
Proof. induction s as [|c s IH]; cbn; [reflexivity | now rewrite IH]. Qed.

Lemma length_append (s t : string) :
  String.length (s ++ t) = (String.length s + String.length t)%nat.
Proof. induction s as [|c s IH]; cbn; [reflexivity | now rewrite IH]. Qed.

Lemma substring_all (t : string) : substring 0 (String.length t) t = t.
Proof. induction t as [|c t IH]; cbn; [reflexivity | now rewrite IH]. Qed.

Lemma substring_after (s t : string) :
  substring (String.length s) (String.length t) (s ++ t) = t.
Proof. induction s as [|c s IH]; cbn; [apply substring_all | exact IH]. Qed.

Lemma substr_last_append (s t : string) :
  Js.substr_last (String.length t) (s ++ t) = t.
Proof.
  unfold Js.substr_last. rewrite length_append.
  replace (String.length s + String.length t - String.length t)%nat
    with (String.length s) by lia.
  apply substring_after.
Qed.

(** The fuel of [toString36] never runs out: more fuel gives the same
    digits. *)
Lemma toString36_pos_enough (fuel : nat) :
  forall n fuel', 0 <= n -> Z.log2 n < Z.of_nat fuel -> (fuel <= fuel')%nat ->
    Js.toString36_pos fuel n = Js.toString36_pos fuel' n.
Proof.
  induction fuel as [|fuel IH]; intros n fuel' Hn Hlog Hle.
  - pose proof (Z.log2_nonneg n). lia.
  - destruct fuel' as [|fuel']; [lia |]. cbn [Js.toString36_pos].
    destruct (n <? 36) eqn:Hsmall; [reflexivity |].
    apply Z.ltb_ge in Hsmall.
    rewrite (IH (n / 36) fuel'); [reflexivity | | | lia].
    + apply Z.div_pos; lia.
    + assert (Hhalf : Z.log2 (n / 36) <= Z.log2 (n / 2)).
      { apply Z.log2_le_mono.
        assert (36 * (n / 36) <= n) by (apply Z.mul_div_le; lia).
        assert (0 <= n / 36) by (apply Z.div_pos; lia).
        apply Z.div_le_lower_bound; lia. }
      assert (Hdiv2 : Z.log2 (n / 2) = Z.log2 n - 1).
      { change 2 with (2 ^ 1). rewrite <- Z.shiftr_div_pow2 by lia.
        rewrite Z.log2_shiftr by lia.
        assert (1 <= Z.log2 n).
        { change 1 with (Z.log2 2). apply Z.log2_le_mono. lia. }
        lia. }
      lia.
Qed.

Lemma toString36_pos_tail (fuel : nat) (n : Z) :
  (3 <= fuel)%nat -> 1296 <= n ->
  exists s,
    Js.toString36_pos fuel n
    = (s ++ String (Js.digit36 (n / 1296 mod 36))
              (String (Js.digit36 (n / 36 mod 36))
                 (String (Js.digit36 (n mod 36)) "")))%string.
Proof.
  intros Hf Hn.
  destruct fuel as [|[|[|fuel]]]; try lia.
  assert (H36 : 36 <= n / 36) by (apply Z.div_le_lower_bound; lia).
  assert (Hdd : n / 36 / 36 = n / 1296) by (rewrite Z.div_div by lia; reflexivity).
  assert (H1 : 1 <= n / 1296) by (apply Z.div_le_lower_bound; lia).
  cbn [Js.toString36_pos].
  replace (n <? 36) with false by (symmetry; apply Z.ltb_ge; lia).
  replace (n / 36 <? 36) with false by (symmetry; apply Z.ltb_ge; lia).
  rewrite Hdd.
  destruct (n / 1296 <? 36) eqn:Htop.
  - apply Z.ltb_lt in Htop. exists ""%string.
    rewrite (Z.mod_small (n / 1296)) by lia. reflexivity.
  - exists (Js.toString36_pos fuel (n / 1296 / 36)).
    rewrite !append_assoc. reflexivity.
Qed.

Lemma digit36_upper (k : Z) :
  0 <= k < 36 -> CodeFormat.is_alnum (Js.upper_char (Js.digit36 k)) = true.
Proof.
  intros Hk. rewrite <- (Z2Nat.id k) by lia.
  assert (Hj : (Z.to_nat k < 36)%nat) by lia.
  set (j := Z.to_nat k) in *. clearbody j. clear Hk.
  do 36 (destruct j as [|j]; [reflexivity |]).
  lia.
Qed.

Lemma of_int_digit (z : Z) :
  0 <= z < 10 -> exists c, Js.of_int z = String c "" /\ Js.is_digit c = true.
Proof.
  intros Hz. rewrite <- (Z2Nat.id z) by lia.
  assert (Hj : (Z.to_nat z < 10)%nat) by lia.
  set (j := Z.to_nat z) in *. clearbody j. clear Hz.
  do 10 (destruct j as [|j]; [eexists; split; reflexivity |]).
  lia.
Qed.

Lemma fallbackCode_shape (now : Z) (rnd : Js.Rng) :
  1296 <= now -> (0 <= rnd O)%Q -> (rnd O < 1)%Q ->
  exists c,
    Js.is_digit c = true /\
    BoothCode.fallbackCode now rnd
    = String "X" (String "X"
        (String (Js.upper_char (Js.digit36 (now / 1296 mod 36)))
           (String (Js.upper_char (Js.digit36 (now / 36 mod 36)))
              (String (Js.upper_char (Js.digit36 (now mod 36)))
                 (String c ""))))).
Proof.
  intros Hn H0 H1. unfold BoothCode.fallbackCode, Js.toString36.
  replace (now <? 0) with false by (symmetry; apply Z.ltb_ge; lia).
  destruct (toString36_pos_tail (S (Z.to_nat (Z.log2 now))) now) as [s ->].
  - assert (Z.log2 1296 <= Z.log2 now) by (apply Z.log2_le_mono; lia).
    change (Z.log2 1296) with 10 in *. lia.
  - exact Hn.
  - set (t := String (Js.digit36 (now / 1296 mod 36))
                (String (Js.digit36 (now / 36 mod 36))
                   (String (Js.digit36 (now mod 36)) ""))).
    change (Js.substr_last 3) with (Js.substr_last (String.length t)).
    rewrite substr_last_append. unfold t.
    destruct (of_int_digit (Js.random_index (rnd O) 10)) as (c & -> & Hc).
    { apply (random_index_range (rnd O) 10 H0 H1). lia. }
    exists c. split; [exact Hc | reflexivity].
Qed.

Lemma fallbackCode_format (now : Z) (rnd : Js.Rng) :
  1296 <= now -> (0 <= rnd O)%Q -> (rnd O < 1)%Q ->
  CodeFormat.is_fallback_format (BoothCode.fallbackCode now rnd) = true.
Proof.
  intros Hn H0 H1.
  destruct (fallbackCode_shape now rnd Hn H0 H1) as (c & Hc & ->).
  cbn. rewrite !digit36_upper, Hc; try reflexivity.
  all: apply Z.mod_pos_bound; lia.
Qed.

End Base36.

(** ** Unique code generation *)

Section UniqueCodes.

Lemma unit_interval_shift (rnd : Js.Rng) (n : nat) :
  CodeFormat.unit_interval rnd -> CodeFormat.unit_interval (Js.shift rnd n).
Proof. intros U i. apply U. Qed.

(** The code comes from the loop, where it was found unique, or it is the
    fallback, which is returned as it is. *)
Lemma generateUnique_cases (w : World) (now : Z) (n : nat) :
  forall rnd,
    let code := BoothCode.generateUniqueBoothCode w now rnd n in
    (BoothCode.isCodeUnique w code = true /\
     exists k, code = BoothCode.generateBoothCode (Nat.iter k (fun r => Js.shift r 6) rnd))
    \/ code = BoothCode.fallbackCode now (Nat.iter n (fun r => Js.shift r 6) rnd).
Proof.
  induction n as [|n IH]; intros rnd; cbn [BoothCode.generateUniqueBoothCode].
  - right. reflexivity.
  - destruct (BoothCode.isCodeUnique w (BoothCode.generateBoothCode rnd)) eqn:Hu.
    + left. split; [exact Hu | exists O; reflexivity].
    + destruct (IH (Js.shift rnd 6)) as [[Hk [k Hc]] | Hf].
      * left. split; [exact Hk |]. exists (S k).
        rewrite Hc, Nat.iter_succ_r. reflexivity.
      * right. rewrite Hf, Nat.iter_succ_r. reflexivity.
Qed.

Lemma unit_interval_iter (rnd : Js.Rng) (k : nat) :
  CodeFormat.unit_interval rnd ->
  CodeFormat.unit_interval (Nat.iter k (fun r => Js.shift r 6) rnd).
Proof.
  intros U. induction k as [|k IH]; cbn; [exact U | apply unit_interval_shift, IH].
Qed.

(** With at most one booth per code, [isCodeUnique] answers true exactly
    for the codes no booth holds. *)
Lemma isCodeUnique_sound (w : World) (code : string) :
  (List.length (Store.booths_by_code (db w) code) <= 1)%nat ->
  BoothCode.isCodeUnique w code = true ->
  forall b, In b (booths (db w)) -> b_booth_code b <> Some code.
Proof.
  unfold BoothCode.isCodeUnique. intros Hone Hu b Hin Hb.
  destruct (client w); [| discriminate].
  assert (Hf : In b (Store.booths_by_code (db w) code)).
  { apply filter_In. split; [exact Hin |].
    unfold Store.has_code. rewrite Hb. apply String.eqb_refl. }
  destruct (Store.booths_by_code (db w) code) as [|x [|y l]]; cbn in *;
    [contradiction | discriminate | lia].
Qed.

End UniqueCodes.

(** ** The rate limiter and the attempt log *)

Section Attempts.

Lemma check_ip_attempts_record (d : Database) (now : Z) (ip : string) (a : CodeAttempt) :
  Sql.check_ip_attempts (Sql.record_attempt d a) now ip
  = Sql.check_ip_attempts d now ip
    + (if Sql.counts_against now ip a then 1 else 0).
Proof.
  unfold Sql.check_ip_attempts, Sql.record_attempt. cbn.
  rewrite filter_app, length_app. cbn.
  destruct (Sql.counts_against now ip a); cbn; lia.
Qed.

(** A text within the length of its column is stored as it is. *)
Lemma varchar_fits (n : nat) (s : string) :
  Pg.has_nul s = false -> (Pg.char_length s <= n)%nat -> Pg.varchar n s = Some s.
Proof.
  intros Hnul Hlen. unfold Pg.varchar. rewrite Hnul.
  apply Nat.leb_le in Hlen. rewrite Hlen. reflexivity.
Qed.

Lemma log_attempt_accepted (d : Database) (code ip code' ip' : string) (now : Z)
      (success : bool) (booth : option Z) (reason : option string) :
  Pg.varchar 6 code = Some code' ->
  Pg.varchar 45 ip = Some ip' ->
  Sql.log_attempt d code ip now success booth reason
  = inr (Sql.record_attempt d (mkAttempt code' ip' now success booth reason)).
Proof. intros Hc Hi. unfold Sql.log_attempt. rewrite Hc, Hi. reflexivity. Qed.

Lemma log_attempt_refused (d : Database) (code ip : string) (now : Z)
      (success : bool) (booth : option Z) (reason : option string) :
  Pg.varchar 6 code = None \/ Pg.varchar 45 ip = None ->
  Sql.log_attempt d code ip now success booth reason = inl TextRefused.
Proof.
  intros [H | H]; unfold Sql.log_attempt; rewrite H; [reflexivity |].
  destruct (Pg.varchar 6 code); reflexivity.
Qed.

(** Whatever branch it takes, the function ends in one INSERT into
    code_attempts. *)
Lemma validate_cases (d : Database) (now : Z) (code ip : string) :
  exists success booth reason answer,
    Sql.validate_booth_code d now code ip
    = Sql.returning (Sql.log_attempt d code ip now success booth reason) answer
    /\ Sql.is_valid answer = success
    /\ ((5 <= Sql.check_ip_attempts d now ip
         /\ success = false /\ booth = None /\ reason = Some "시도 횟수 초과"
         /\ answer = Sql.mkValidation false None None
                       "너무 많은 시도입니다. 잠시 후 다시 시도해주세요.")
        \/ (Sql.check_ip_attempts d now ip < 5
            /\ Store.booths_by_code d code = []
            /\ success = false /\ booth = None /\ reason = Some "잘못된 코드"
            /\ answer = Sql.mkValidation false None None "잘못된 부스 코드입니다.")
        \/ (Sql.check_ip_attempts d now ip < 5
            /\ exists b rest,
                Store.booths_by_code d code = b :: rest
                /\ booth = Some (b_id b)
                /\ ((Sql.expired now (b_code_expires_at b) = true
                     /\ success = false /\ reason = Some "만료된 코드"
                     /\ answer = Sql.mkValidation false None None "만료된 부스 코드입니다.")
                    \/ (Sql.expired now (b_code_expires_at b) = false
                        /\ Sql.not_active (b_is_active b) = true
                        /\ success = false /\ reason = Some "비활성 부스"
                        /\ answer = Sql.mkValidation false None None
                                      "비활성화된 부스입니다.")
                    \/ (Sql.expired now (b_code_expires_at b) = false
                        /\ Sql.not_active (b_is_active b) = false
                        /\ success = true /\ reason = None
                        /\ answer = Sql.mkValidation true (Some (b_id b)) (Some (b_name b))
                                      "부스 코드 확인 완료")))).
Proof.
  unfold Sql.validate_booth_code.
  destruct (5 <=? Sql.check_ip_attempts d now ip) eqn:Hfull.
  { apply Z.leb_le in Hfull. do 4 eexists. split; [reflexivity |].
    split; [reflexivity |]. left. split; [exact Hfull | repeat split]. }
  apply Z.leb_gt in Hfull.
  destruct (Store.booths_by_code d code) as [|b rest] eqn:Hb.
  { do 4 eexists. split; [reflexivity |]. split; [reflexivity |].
    right. left. split; [exact Hfull | repeat split]. }
  destruct (Sql.expired now (b_code_expires_at b)) eqn:He.
  { do 4 eexists. split; [reflexivity |]. split; [reflexivity |].
    right. right. split; [exact Hfull |]. exists b, rest.
    split; [reflexivity |]. split; [reflexivity |]. left. repeat split; assumption. }
  destruct (Sql.not_active (b_is_active b)) eqn:Ha.
  { do 4 eexists. split; [reflexivity |]. split; [reflexivity |].
    right. right. split; [exact Hfull |]. exists b, rest.
    split; [reflexivity |]. split; [reflexivity |]. right. left. repeat split; assumption. }
  do 4 eexists. split; [reflexivity |]. split; [reflexivity |].
  right. right. split; [exact Hfull |]. exists b, rest.
  split; [reflexivity |]. split; [reflexivity |]. right. right. repeat split; assumption.
Qed.

Lemma validate_when_blocked (d : Database) (now : Z) (code ip : string) :
  5 <= Sql.check_ip_attempts d now ip ->
  Sql.validate_booth_code d now code ip
  = Sql.returning (Sql.log_attempt d code ip now false None (Some "시도 횟수 초과"))
      (Sql.mkValidation false None None
         "너무 많은 시도입니다. 잠시 후 다시 시도해주세요.").
Proof.
  intros H. unfold Sql.validate_booth_code.
  apply Z.leb_le in H. rewrite H. reflexivity.
Qed.

(** A value the columns refuse makes every branch raise. *)
Lemma validate_raises (d : Database) (now : Z) (code ip : string) :
  Pg.varchar 6 code = None \/ Pg.varchar 45 ip = None ->
  Sql.validate_booth_code d now code ip = inl TextRefused.
Proof.
  intros H. destruct (validate_cases d now code ip) as (s & b & r & a & -> & _).
  rewrite (log_attempt_refused d code ip now s b r H). reflexivity.
Qed.

Lemma validateBoothCode_reads_only (w : World) (now : Z) (code : string) :
  fst (BoothCode.validateBoothCode w now code) = w.
Proof.
  unfold BoothCode.validateBoothCode.
  destruct (client w); [| reflexivity].
  destruct (Store.single _); [| reflexivity].
  destruct (BoothCode.expired _ _ _); [reflexivity |].
  destruct (BoothCode.not_active _); reflexivity.
Qed.

Lemma validateBoothCode_ignores_attempts (w : World) (now : Z) (code : string)
      (cs : list CodeAttempt) :
  snd (BoothCode.validateBoothCode (set_db w (Store.with_attempts (db w) cs)) now code)
  = snd (BoothCode.validateBoothCode w now code).
Proof.
  unfold BoothCode.validateBoothCode, Store.booths_by_code. cbn.
  destruct (client w); [| reflexivity].
  destruct (Store.single _); [| reflexivity].
  destruct (BoothCode.expired _ _ _); [reflexivity |].
  destruct (BoothCode.not_active _); reflexivity.
Qed.

End Attempts.


(** ** Statements of the store *)

Section StoreFacts.

Lemma getSupabase_Some (w : World) (d : Database) :
  SupabaseClient.getSupabase w = Some d -> d = db w /\ client w = true.
Proof.
  unfold SupabaseClient.getSupabase.
  destruct (SupabaseClient.isInMockMode w); [discriminate |].
  destruct (client w); [| discriminate].
  intros [= <-]. split; reflexivity.
Qed.

Lemma single_Some {A} (rows : list A) (r : A) :
  Store.single rows = Some r -> rows = [r].
Proof.
  destruct rows as [|x [|y l]]; cbn; intros [= ->]. reflexivity.
Qed.

Lemma filter_nonempty_existsb {A} (f : A -> bool) (l : list A) (x : A) (rest : list A) :
  filter f l = x :: rest -> existsb f l = true.
Proof.
  intros H. apply existsb_exists. exists x.
  apply filter_In. rewrite H. left. reflexivity.
Qed.

Lemma filter_none {A} (f : A -> bool) (l : list A) :
  existsb f l = false -> filter f l = [].
Proof.
  induction l as [|x l IH]; cbn; [reflexivity |].
  destruct (f x); cbn; [discriminate | exact IH].
Qed.

Lemma fits_varchar (n : nat) (s : string) :
  Pg.fits n (Some s) = true -> Pg.varchar n s = Some s.
Proof.
  cbn. intros H. apply andb_true_iff in H. destruct H as [Hn Hl].
  apply varchar_fits; [apply negb_true_iff; exact Hn | apply Nat.leb_le; exact Hl].
Qed.

Lemma fits_nullable (n : nat) (v : option string) :
  Pg.fits n v = true -> Pg.nullable (Pg.varchar n) v = Some v.
Proof.
  destruct v as [s|]; [| reflexivity].
  intros H. cbn [Pg.nullable]. rewrite (fits_varchar n s H). reflexivity.
Qed.

Lemma clean_nullable (v : option string) :
  Pg.clean v = true -> Pg.nullable Pg.text v = Some v.
Proof.
  destruct v as [s|]; [| reflexivity].
  cbn. intros H. apply negb_true_iff in H. unfold Pg.text. rewrite H. reflexivity.
Qed.

(** A row whose values their columns store as they are, for a booth of the
    store, is inserted. *)
Lemma insert_operation_stored (d : Database) (booth : Z) (nm : string)
      (ph em org nt : option string) (started : Z) :
  Pg.fits 100 (Some nm) = true ->
  Pg.fits 20 ph = true ->
  Pg.fits 100 em = true ->
  Pg.fits 100 org = true ->
  Pg.clean nt = true ->
  existsb (fun b => b_id b =? booth) (booths d) = true ->
  Store.insert_operation d booth (Some nm) ph em org nt started
  = (Store.with_operations (Store.take_operation_id d)
       (booth_operations d
        ++ [mkOperation (next_operation_id d) booth nm ph em org started None true 0 nt]),
     inr (mkOperation (next_operation_id d) booth nm ph em org started None true 0 nt)).
Proof.
  intros Hn Hp He Ho Ht Hb. unfold Store.insert_operation.
  rewrite (fits_nullable 100 (Some nm) Hn), (fits_nullable 20 ph Hp),
    (fits_nullable 100 em He), (fits_nullable 100 org Ho), (clean_nullable nt Ht), Hb.
  reflexivity.
Qed.

(** What an INSERT INTO booth_operations leaves: on an error the tables
    as they were, on success one more row with the next id. *)
Lemma insert_operation_cases (d d1 : Database) (booth : Z)
      (nm ph em org nt : option string) (started : Z) (r : PgError + BoothOperation) :
  Store.insert_operation d booth nm ph em org nt started = (d1, r) ->
  match r with
  | inl e => (d1 = d /\ e = TextRefused)
             \/ (d1 = Store.take_operation_id d
                 /\ (e = NotNullViolation \/ e = ForeignKeyViolation))
  | inr row =>
      d1 = Store.with_operations (Store.take_operation_id d) (booth_operations d ++ [row])
      /\ op_id row = next_operation_id d
      /\ op_booth_id row = booth
      /\ op_started_at row = started
      /\ op_ended_at row = None
      /\ op_is_active row = true
      /\ op_total_participants row = 0
      /\ Pg.nullable (Pg.varchar 100) nm = Some (Some (op_operator_name row))
      /\ Pg.nullable (Pg.varchar 20) ph = Some (op_operator_phone row)
      /\ existsb (fun b => b_id b =? booth) (booths d) = true
  end.
Proof.
  unfold Store.insert_operation.
  destruct (Pg.nullable (Pg.varchar 100) nm) as [nm'|];
    [| intros [= <- <-]; left; split; reflexivity].
  destruct (Pg.nullable (Pg.varchar 20) ph) as [ph'|];
    [| intros [= <- <-]; left; split; reflexivity].
  destruct (Pg.nullable (Pg.varchar 100) em) as [em'|];
    [| intros [= <- <-]; left; split; reflexivity].
  destruct (Pg.nullable (Pg.varchar 100) org) as [org'|];
    [| intros [= <- <-]; left; split; reflexivity].
  destruct (Pg.nullable Pg.text nt) as [nt'|];
    [| intros [= <- <-]; left; split; reflexivity].
  destruct nm' as [n|]; [| intros [= <- <-]; right; split; [reflexivity | now left]].
  destruct (existsb _ (booths d)) eqn:Hb;
    [| intros [= <- <-]; right; split; [reflexivity | now right]].
  intros [= <- <-]. repeat split; reflexivity.
Qed.

(** What an INSERT INTO operator_sessions leaves. *)
Lemma insert_session_cases (d d1 : Database) (now : Z) (token : string) (id expires : Z)
      (ip : option string) (r : option PgError) :
  Store.insert_session d now token id expires ip = (d1, r) ->
  match r with
  | Some e => (d1 = d /\ e = TextRefused)
              \/ (d1 = Store.take_session_id d
                  /\ (e = UniqueViolation \/ e = ForeignKeyViolation))
  | None =>
      exists token' ip',
        Pg.varchar 64 token = Some token'
        /\ Pg.nullable (Pg.varchar 45) ip = Some ip'
        /\ existsb (fun s => (s_session_token s =? token')%string) (operator_sessions d)
           = false
        /\ existsb (fun o => op_id o =? id) (booth_operations d) = true
        /\ d1 = Store.with_sessions (Store.take_session_id d)
                  (operator_sessions d
                   ++ [mkSession (next_session_id d) token' id expires now ip'])
  end.
Proof.
  unfold Store.insert_session.
  destruct (Pg.varchar 64 token) as [token'|];
    [| intros [= <- <-]; left; split; reflexivity].
  destruct (Pg.nullable (Pg.varchar 45) ip) as [ip'|];
    [| intros [= <- <-]; left; split; reflexivity].
  destruct (existsb _ (operator_sessions d)) eqn:Hu;
    [intros [= <- <-]; right; split; [reflexivity | now left] |].
  destruct (existsb _ (booth_operations d)) eqn:Hf;
    [| intros [= <- <-]; right; split; [reflexivity | now right]].
  intros [= <- <-]. exists token', ip'. repeat split; assumption.
Qed.

(** *** The update of booth_operations and its trigger *)

(** The trigger does nothing for an update that closes no open row. *)
Lemma after_update_idle (set : BoothOperation -> BoothOperation)
      (rows : list BoothOperation) (stats : list DailyStat) :
  (forall o, In o rows -> op_ended_at o = None -> op_ended_at (set o) = None) ->
  Store.after_update stats rows set = Some stats.
Proof.
  induction rows as [|o rows IH]; intros H; cbn; [reflexivity |].
  unfold Store.update_daily_stats_on_operation_end.
  destruct (op_ended_at (set o)) as [e|] eqn:He.
  - destruct (op_ended_at o) eqn:Ho.
    + apply IH. intros o' Hin. apply H. now right.
    + rewrite (H o (or_introl eq_refl) Ho) in He. discriminate.
  - apply IH. intros o' Hin. apply H. now right.
Qed.

Lemma update_operations_idle (d : Database) (set : BoothOperation -> BoothOperation) :
  (forall o, In o (booth_operations d) -> op_ended_at o = None ->
             op_ended_at (set o) = None) ->
  Store.update_operations d set
  = inr (Store.with_operations d (map set (booth_operations d))).
Proof.
  intros H. unfold Store.update_operations.
  rewrite (after_update_idle set _ _ H).
  destruct d; reflexivity.
Qed.

(** An update that is not aborted rewrites the rows and touches, besides,
    the daily statistics only. *)
Lemma update_operations_done (d d1 : Database) (set : BoothOperation -> BoothOperation) :
  Store.update_operations d set = inr d1 ->
  exists stats,
    d1 = Store.with_daily_stats (Store.with_operations d (map set (booth_operations d)))
           stats.
Proof.
  unfold Store.update_operations.
  destruct (Store.after_update _ _ _) as [stats|]; [| discriminate].
  intros [= <-]. exists stats. reflexivity.
Qed.

(** Closing a row that has been open for 1000 hours or more overflows
    operation_hours, whatever the statistics hold: the update is aborted. *)
Lemma hours_overflow (started ended : Z) :
  3599982000 <= ended - started ->
  Pg.decimal_5_2 (Store.hours_of started ended) = None.
Proof.
  intros H. unfold Pg.decimal_5_2, Store.hours_of, Pg.round_half_away.
  set (a := ended - started) in *.
  rewrite Z.sgn_pos by lia. rewrite (Z.abs_eq a) by lia. rewrite Z.mul_1_l.
  assert (Hq : 100000 <= (2 * a + 36000) / (2 * 36000)).
  { apply Z.div_le_lower_bound; lia. }
  rewrite Z.abs_eq by lia.
  replace (_ <? 100000) with false; [reflexivity |].
  symmetry. apply Z.ltb_ge. exact Hq.
Qed.

Lemma hours_fit (started ended : Z) :
  0 <= ended - started < 3599982000 ->
  Pg.decimal_5_2 (Store.hours_of started ended) = Some (Store.hours_of started ended)
  /\ 0 <= Store.hours_of started ended < 100000.
Proof.
  intros H. unfold Pg.decimal_5_2, Store.hours_of, Pg.round_half_away.
  set (a := ended - started) in *.
  assert (Hq : 0 <= (2 * Z.abs a + 36000) / (2 * 36000) < 100000).
  { rewrite (Z.abs_eq a) by lia. split.
    - apply Z.div_pos; lia.
    - apply Z.div_lt_upper_bound; lia. }
  assert (Hs : Z.sgn a = 0 \/ Z.sgn a = 1).
  { destruct (Z.eq_dec a 0) as [-> | Hne]; [left; reflexivity |].
    right. apply Z.sgn_pos. lia. }
  assert (Hr : 0 <= Z.sgn a * ((2 * Z.abs a + 36000) / (2 * 36000)) < 100000)
    by (destruct Hs as [-> | ->]; lia).
  rewrite (Z.abs_eq (Z.sgn a * _)) by lia.
  replace (_ <? 100000) with true by (symmetry; apply Z.ltb_lt; lia).
  split; [reflexivity | exact Hr].
Qed.


End StoreFacts.

(** ** Codes and their column *)

Section CodeColumn.

Lemma plain_char (c : ascii) :
  Js.is_upper c || Js.is_digit c = true ->
  (nat_of_ascii c =? 0)%nat = false /\ Pg.continuation c = false.
Proof.
  unfold Js.is_upper, Js.is_digit, Pg.continuation. cbn zeta.
  set (n := nat_of_ascii c). clearbody n. intros H.
  assert (Hr : (48 <= n <= 90)%nat).
  { apply orb_true_iff in H. destruct H as [H | H];
      apply andb_true_iff in H; destruct H as [H1 H2];
      apply Nat.leb_le in H1; apply Nat.leb_le in H2; lia. }
  replace (n =? 0)%nat with false by (symmetry; apply Nat.eqb_neq; lia).
  replace (128 <=? n)%nat with false by (symmetry; apply Nat.leb_gt; lia).
  split; reflexivity.
Qed.

Lemma plain_six (a b c d e f : ascii) :
  Js.is_upper a || Js.is_digit a = true ->
  Js.is_upper b || Js.is_digit b = true ->
  Js.is_upper c || Js.is_digit c = true ->
  Js.is_upper d || Js.is_digit d = true ->
  Js.is_upper e || Js.is_digit e = true ->
  Js.is_upper f || Js.is_digit f = true ->
  Pg.fits 6 (Some (String a (String b (String c (String d (String e (String f "")))))))
  = true.
Proof.
  intros Ha Hb Hc Hd He Hf.
  destruct (plain_char a Ha) as [A1 A2]. destruct (plain_char b Hb) as [B1 B2].
  destruct (plain_char c Hc) as [C1 C2]. destruct (plain_char d Hd) as [D1 D2].
  destruct (plain_char e He) as [E1 E2]. destruct (plain_char f Hf) as [F1 F2].
  cbn [Pg.fits Pg.has_nul Pg.char_length].
  rewrite A1, A2, B1, B2, C1, C2, D1, D2, E1, E2, F1, F2. reflexivity.
Qed.

(** The column booth_code, VARCHAR(6), stores every generated code as it
    is. *)
Lemma generated_code_fits (w : World) (now : Z) (rnd : Js.Rng) (maxAttempts : nat) :
  CodeFormat.unit_interval rnd ->
  1296 <= now ->
  Pg.fits 6 (Some (BoothCode.generateUniqueBoothCode w now rnd maxAttempts)) = true.
Proof.
  intros U Hnow.
  assert (Hfmt : CodeFormat.is_code_format
                   (BoothCode.generateUniqueBoothCode w now rnd maxAttempts) = true
                 \/ CodeFormat.is_fallback_format
                      (BoothCode.generateUniqueBoothCode w now rnd maxAttempts) = true).
  { destruct (generateUnique_cases w now maxAttempts rnd) as [[_ [k Hk]] | Hf].
    - left. rewrite Hk. apply generateBoothCode_format, unit_interval_iter, U.
    - right. rewrite Hf. apply fallbackCode_format; [exact Hnow | |];
        apply (unit_interval_iter rnd maxAttempts U). }
  destruct (BoothCode.generateUniqueBoothCode w now rnd maxAttempts)
    as [|a [|b [|c [|d [|e [|f [|g s]]]]]]]; cbn in Hfmt;
    try (destruct Hfmt; discriminate).
  destruct Hfmt as [H | H];
    do 5 (apply andb_true_iff in H; destruct H as [H ?]).
  - apply plain_six;
      repeat match goal with
             | Hx : ?p = true |- ?p || _ = true => rewrite Hx; reflexivity
             | Hx : ?p = true |- _ || ?p = true => rewrite Hx; apply orb_true_r
             end.
  - apply Ascii.eqb_eq in H. subst a.
    match goal with Hx : (b =? _)%char = true |- _ => apply Ascii.eqb_eq in Hx; subst b end.
    unfold CodeFormat.is_alnum in *.
    apply plain_six;
      repeat match goal with
             | |- Js.is_upper "X" || _ = true => reflexivity
             | Hx : ?p || ?q = true |- ?q || ?p = true => rewrite orb_comm; exact Hx
             | Hx : ?p = true |- _ || ?p = true => rewrite Hx; apply orb_true_r
             end.
Qed.

End CodeColumn.

(** ** Session tokens *)

Section Tokens.

Lemma all_chars_append (f : ascii -> bool) (s t : string) :
  TokenFormat.all_chars f (s ++ t)
  = TokenFormat.all_chars f s && TokenFormat.all_chars f t.
Proof.
  induction s as [|c s IH]; cbn; [reflexivity |].
  rewrite IH. apply andb_assoc.
Qed.

(** Whatever is drawn, a pick from the alphabet of the tokens is one of
    its characters or nothing. *)
Lemma pick_chars (r : Q) :
  TokenFormat.all_chars TokenFormat.is_token_char (Js.pick BoothOperationJs.chars r) = true
  /\ (String.length (Js.pick BoothOperationJs.chars r) <= 1)%nat.
Proof.
  unfold Js.pick, Js.charAt.
  destruct (_ <? 0); [split; cbn; [reflexivity | lia] |].
  set (k := Z.to_nat _). clearbody k.
  do 62 (destruct k as [|k]; [split; [reflexivity | cbn; lia] |]).
  split; [reflexivity | cbn; lia].
Qed.

Lemma draw_chars_alphabet (n : nat) (rnd : Js.Rng) :
  TokenFormat.all_chars TokenFormat.is_token_char (Js.draw BoothOperationJs.chars n rnd)
  = true
  /\ (String.length (Js.draw BoothOperationJs.chars n rnd) <= n)%nat.
Proof.
  revert rnd. induction n as [|n IH]; intros rnd; [split; cbn; [reflexivity | lia] |].
  cbn [Js.draw]. rewrite all_chars_append, length_append.
  destruct (pick_chars (rnd O)) as [Ha Hl].
  destruct (IH (Js.shift rnd 1)) as [Ha' Hl'].
  rewrite Ha, Ha'. split; [reflexivity | lia].
Qed.

Lemma draw_chars_length (n : nat) :
  forall rnd, CodeFormat.unit_interval rnd ->
              String.length (Js.draw BoothOperationJs.chars n rnd) = n.
Proof.
  induction n as [|n IH]; intros rnd U; [reflexivity |].
  cbn [Js.draw]. rewrite length_append, (IH _ (unit_interval_shift rnd 1 U)).
  assert (Hi : 0 <= Js.random_index (rnd O) 62 < 62).
  { destruct (U O) as [H0 H1]. apply (random_index_range (rnd O) 62 H0 H1). lia. }
  unfold Js.pick. change (String.length BoothOperationJs.chars) with 62%nat.
  set (i := Js.random_index (rnd O) 62) in *.
  rewrite <- (Z2Nat.id i) by lia.
  assert (Hk : (Z.to_nat i < 62)%nat) by lia.
  set (k := Z.to_nat i) in *. clearbody k. clear Hi i.
  do 62 (destruct k as [|k]; [reflexivity |]).
  lia.
Qed.

(** A text of ASCII letters and digits has one byte for each character
    and no NUL. *)
Lemma token_chars_plain (s : string) :
  TokenFormat.all_chars TokenFormat.is_token_char s = true ->
  Pg.has_nul s = false /\ Pg.char_length s = String.length s.
Proof.
  induction s as [|c s IH]; cbn; [split; reflexivity |].
  intros H. apply andb_true_iff in H. destruct H as [Hc Hs].
  destruct (IH Hs) as [Hn Hl]. rewrite Hn, Hl.
  unfold TokenFormat.is_token_char, Js.is_upper, TokenFormat.is_lower, Js.is_digit in Hc.
  unfold Pg.continuation. cbn zeta in *.
  set (n := nat_of_ascii c) in *. clearbody n.
  assert (Hr : (48 <= n <= 122)%nat).
  { apply orb_true_iff in Hc. destruct Hc as [Hc | Hc];
      [apply orb_true_iff in Hc; destruct Hc as [Hc | Hc] |];
      apply andb_true_iff in Hc; destruct Hc as [H1 H2];
      apply Nat.leb_le in H1; apply Nat.leb_le in H2; lia. }
  replace (n =? 0)%nat with false by (symmetry; apply Nat.eqb_neq; lia).
  replace (128 <=? n)%nat with false by (symmetry; apply Nat.leb_gt; lia).
  split; reflexivity.
Qed.

(** The column session_token, VARCHAR(64), stores every token as it is. *)
Lemma token_fits (rnd : Js.Rng) :
  Pg.fits 64 (Some (BoothOperationJs.generateSessionToken rnd)) = true.
Proof.
  unfold BoothOperationJs.generateSessionToken. cbn [append].
  destruct (draw_chars_alphabet 64 rnd) as [Ha Hl].
  destruct (token_chars_plain _ Ha) as [Hn Hc].
  cbn [Pg.fits]. rewrite Hn, Hc. cbn [negb andb]. apply Nat.leb_le. exact Hl.
Qed.

(** A session token is never the empty string, so the checks
    [if (sessionToken)] see it. *)
Lemma token_truthy (rnd : Js.Rng) :
  CodeFormat.unit_interval rnd -> BoothOperationJs.generateSessionToken rnd <> "".
Proof.
  intros U Hempty.
  assert (Hlen : String.length (BoothOperationJs.generateSessionToken rnd) = 64%nat)
    by (apply (draw_chars_length 64 rnd U)).
  rewrite Hempty in Hlen. discriminate.
Qed.

Lemma session_token_shape_truthy (rnd : Js.Rng) :
  CodeFormat.unit_interval rnd ->
  Js.truthy (Some (BoothOperationJs.generateSessionToken rnd)) = true.
Proof.
  intros U. unfold Js.truthy. apply negb_true_iff, String.eqb_neq, token_truthy, U.
Qed.

End Tokens.

(** ** Starting and ending operations *)

Section Lifecycle.

Lemma keep_digits_truthy (p : string) :
  (10 <= String.length (Js.keep_digits p))%nat -> Js.truthy (Some p) = true.
Proof. destruct p; cbn; [lia | reflexivity]. Qed.

Lemma active_after_close (now boothId : Z) (ops : list BoothOperation) :
  filter (Store.is_active_of boothId) (map (BoothCode.close_row now boothId) ops) = [].
Proof.
  induction ops as [|o ops IH]; cbn; [reflexivity |].
  unfold BoothCode.close_row at 1.
  destruct (Store.is_active_of boothId o) eqn:Ha.
  - unfold Store.is_active_of at 1. cbn. rewrite andb_false_r. exact IH.
  - rewrite Ha. exact IH.
Qed.


(** Closing the active operations of a booth that has none changes no
    row and is not aborted. *)
Lemma close_rows_idle (now boothId : Z) (ops : list BoothOperation) :
  filter (Store.is_active_of boothId) ops = [] ->
  map (BoothCode.close_row now boothId) ops = ops.
Proof.
  induction ops as [|o ops IH]; cbn; [reflexivity |].
  destruct (Store.is_active_of boothId o) eqn:Ha; [discriminate |].
  intros H. rewrite (IH H). unfold BoothCode.close_row. rewrite Ha. reflexivity.
Qed.

Lemma close_active_idle (d : Database) (now boothId : Z) :
  Store.active_operations d boothId = [] ->
  BoothCode.close_active d now boothId = inr d.
Proof.
  intros H. unfold BoothCode.close_active.
  rewrite update_operations_idle.
  - rewrite (close_rows_idle now boothId _ H). destruct d; reflexivity.
  - intros o Hin Ho. unfold BoothCode.close_row.
    destruct (Store.is_active_of boothId o) eqn:Ha; [| exact Ho].
    assert (Hf : In o (Store.active_operations d boothId))
      by (apply filter_In; split; assumption).
    rewrite H in Hf. destruct Hf.
Qed.


(** The rows after step 2 of booth-code's start: closed when the update
    was carried out, as they were when it was aborted. *)
Lemma after_closing_rows (d : Database) (now boothId : Z) :
  match BoothCode.close_active d now boothId with
  | inr _ =>
      booth_operations (BoothCode.after_closing d now boothId)
      = map (BoothCode.close_row now boothId) (booth_operations d)
  | inl _ => BoothCode.after_closing d now boothId = d
  end
  /\ booths (BoothCode.after_closing d now boothId) = booths d
  /\ operator_sessions (BoothCode.after_closing d now boothId) = operator_sessions d
  /\ code_attempts (BoothCode.after_closing d now boothId) = code_attempts d
  /\ participants (BoothCode.after_closing d now boothId) = participants d
  /\ next_operation_id (BoothCode.after_closing d now boothId) = next_operation_id d
  /\ next_session_id (BoothCode.after_closing d now boothId) = next_session_id d.
Proof.
  unfold BoothCode.after_closing.
  destruct (BoothCode.close_active d now boothId) as [e|d1] eqn:Hc;
    [repeat split; reflexivity |].
  apply update_operations_done in Hc. destruct Hc as (stats & ->).
  repeat split; reflexivity.
Qed.

(** Past its input checks and with a store, booth-operation's start is
    decided by [at_capacity] and the two inserts. *)
Lemma start_with_store (w : World) (now : Z) (rnd : Js.Rng) (boothId : Z)
      (info : OperatorInfo) (d : Database) (p : string) :
  SupabaseClient.getSupabase w = Some d ->
  Js.truthy (name info) = true ->
  phone info = Some p ->
  (10 <= String.length (Js.keep_digits p))%nat ->
  BoothOperationJs.startBoothOperation w now rnd boothId info
  = BoothOperationJs.gate_and_insert (BoothOperationJs.at_capacity d boothId) w d now rnd
      boothId info (Js.keep_digits p).
Proof.
  intros Hs Hn Hp Hlen. unfold BoothOperationJs.startBoothOperation.
  rewrite Hn, Hp, (keep_digits_truthy p Hlen), Hs. cbn [negb orb].
  replace (String.length (Js.keep_digits p) <? 10)%nat with false
    by (symmetry; apply Nat.ltb_ge; exact Hlen).
  reflexivity.
Qed.

Lemma storable_insert (d : Database) (now boothId : Z) (info : OperatorInfo)
      (nm ph : string) :
  BoothOperationJs.storable info ph = true ->
  name info = Some nm ->
  existsb (fun b => b_id b =? boothId) (booths d) = true ->
  Store.insert_operation d boothId (name info) (Some ph) (Js.or_null (email info))
    (Js.or_null (organization info)) (Js.or_null (notes info)) now
  = (Store.with_operations (Store.take_operation_id d)
       (booth_operations d ++ [Rows.started d now boothId info nm ph]),
     inr (Rows.started d now boothId info nm ph)).
Proof.
  unfold BoothOperationJs.storable. intros H Hn Hb. rewrite Hn in *.
  do 5 (apply andb_true_iff in H; destruct H as [H ?]).
  apply insert_operation_stored; assumption.
Qed.

Lemma at_capacity_found (d : Database) (boothId : Z) (booth : Booth) :
  Store.single (Store.booths_by_id d boothId) = Some booth ->
  BoothOperationJs.at_capacity d boothId
  = if BoothOperationJs.limit booth
       <=? Z.of_nat (List.length (Store.active_operations d boothId))
    then Some (BoothOperationJs.limit booth) else None.
Proof. intros H. unfold BoothOperationJs.at_capacity. rewrite H. reflexivity. Qed.

(** The two inserts of a start leave the rows of booth_operations as they
    were and add at most one. *)
Lemma gate_keeps_rows (full : option Z) (w : World) (d : Database) (now : Z) (rnd : Js.Rng)
      (boothId : Z) (info : OperatorInfo) (ph : string) :
  db w = d ->
  exists added,
    booth_operations
      (db (fst (BoothOperationJs.gate_and_insert full w d now rnd boothId info ph)))
    = (booth_operations d ++ added)%list
    /\ (List.length added <= 1)%nat
    /\ (forall o, In o added ->
                  op_id o = next_operation_id d /\ op_booth_id o = boothId
                  /\ op_is_active o = true).
Proof.
  intros Hd. unfold BoothOperationJs.gate_and_insert.
  destruct full as [l|].
  { exists []. cbn. rewrite Hd, app_nil_r. split; [reflexivity |]. split; [cbn; lia | intros o' []]. }
  destruct (Store.insert_operation _ _ _ _ _ _ _ _) as [d1 [e|row]] eqn:Hi;
    apply insert_operation_cases in Hi.
  { exists []. cbn. rewrite app_nil_r.
    split; [destruct Hi as [[-> _] | [-> _]]; reflexivity |].
    split; [cbn; lia | intros o' []]. }
  destruct Hi as (-> & Hid & Hb & _ & _ & Ha & _).
  exists [row].
  assert (Hin : forall o, In o [row] ->
                          op_id o = next_operation_id d /\ op_booth_id o = boothId
                          /\ op_is_active o = true)
    by (intros o' [<- | []]; repeat split; assumption).
  destruct (Store.insert_session _ _ _ _ _ _) as [d2 [e|]] eqn:Hs;
    apply insert_session_cases in Hs.
  - cbn. split; [destruct Hs as [[-> _] | [-> _]]; reflexivity |].
    split; [cbn; lia | exact Hin].
  - destruct Hs as (t' & ip' & _ & _ & _ & _ & ->). cbn.
    split; [reflexivity |]. split; [cbn; lia | exact Hin].
Qed.


End Lifecycle.

(** * The claims *)

(** ** Rate limiting (C3) *)

(** C3, as stated, fails on the client-side validator: an address with five
    failed attempts inside the last hour is on record, and
    [validateBoothCode] still looks the code up in booths and accepts it. *)
Lemma js_validation_not_rate_limited :
  Sql.check_ip_attempts (db Examples.probed_world) Examples.ten_fifty "203.0.113.7" = 5
  /\ BoothCode.validateBoothCode Examples.probed_world Examples.ten_fifty "ABC123"
     = (Examples.probed_world, BoothCode.Valid 1 "청소년 상담 부스").
Proof. split; reflexivity. Qed.

(** C3, amended.  The storage function validate_booth_code, called from an
    address that check_ip_attempts counts at least five times, does not look
    at what the booths table holds.  When the columns attempted_code
    (VARCHAR(6)) and ip_address (VARCHAR(45)) take the code and the address,
    it answers the rate-limit row and logs one failure; when one of them is
    refused, its INSERT raises, no row is answered and nothing is logged.
    Below five it is not the rate limiter that answers.  A logged attempt
    counts exactly when it is from that address, failed, and strictly
    younger than one hour.  The client-side [validateBoothCode] takes no
    address and its answer does not depend on the attempt log. *)
Theorem rate_limit_blocks_sql_validation :
  (forall d now code ip code' ip',
      5 <= Sql.check_ip_attempts d now ip ->
      Pg.varchar 6 code = Some code' ->
      Pg.varchar 45 ip = Some ip' ->
      Sql.validate_booth_code d now code ip
      = inr (Sql.record_attempt d
               (mkAttempt code' ip' now false None (Some "시도 횟수 초과")),
             Sql.mkValidation false None None
               "너무 많은 시도입니다. 잠시 후 다시 시도해주세요."))
  /\ (forall d now code ip,
         5 <= Sql.check_ip_attempts d now ip ->
         Pg.varchar 6 code = None \/ Pg.varchar 45 ip = None ->
         Sql.validate_booth_code d now code ip = inl TextRefused)
  /\ (forall n s, Pg.fits n (Some s) = true -> Pg.varchar n s = Some s)
  /\ (forall d now code ip bs,
         5 <= Sql.check_ip_attempts d now ip ->
         Sql.validate_booth_code (Store.with_booths d bs) now code ip
         = match Sql.validate_booth_code d now code ip with
           | inr (d1, answer) => inr (Store.with_booths d1 bs, answer)
           | inl e => inl e
           end)
  /\ (forall d now code ip,
         Sql.check_ip_attempts d now ip < 5 ->
         match Sql.validate_booth_code d now code ip with
         | inr (_, answer) =>
             Sql.message answer <> "너무 많은 시도입니다. 잠시 후 다시 시도해주세요."
         | inl e => e = TextRefused
         end)
  /\ (forall d now ip a,
         Sql.check_ip_attempts (Sql.record_attempt d a) now ip
         = Sql.check_ip_attempts d now ip
           + (if (ca_ip_address a =? ip)%string
                 && (now - 3600000 <? ca_attempted_at a)
                 && negb (ca_success a)
              then 1 else 0))
  /\ (forall d now ip a,
         ca_success a = true \/ ca_attempted_at a <= now - 3600000 ->
         Sql.check_ip_attempts (Sql.record_attempt d a) now ip
         = Sql.check_ip_attempts d now ip)
  /\ (forall w now code cs,
         snd (BoothCode.validateBoothCode
                (set_db w (Store.with_attempts (db w) cs)) now code)
         = snd (BoothCode.validateBoothCode w now code)).
Proof.
  split.
  { intros d now code ip code' ip' H Hc Hi.
    rewrite (validate_when_blocked d now code ip H).
    rewrite (log_attempt_accepted d code ip code' ip' now _ _ _ Hc Hi). reflexivity. }
  split.
  { intros d now code ip _ H. apply validate_raises. exact H. }
  split; [exact fits_varchar |].
  split.
  { intros d now code ip bs H.
    rewrite (validate_when_blocked d now code ip H).
    rewrite (validate_when_blocked (Store.with_booths d bs) now code ip H).
    unfold Sql.log_attempt.
    destruct (Pg.varchar 6 code); [| reflexivity].
    destruct (Pg.varchar 45 ip); reflexivity. }
  split.
  { intros d now code ip H.
    destruct (validate_cases d now code ip) as (s & b & r & a & -> & _ & Hcase).
    unfold Sql.log_attempt.
    destruct (Pg.varchar 6 code); [| reflexivity].
    destruct (Pg.varchar 45 ip); [| reflexivity].
    cbn [Sql.returning].
    destruct Hcase as [(Hfull & _) | [(_ & _ & _ & _ & _ & ->) | (_ & b0 & rest & _ & _ & Hb)]];
      [lia | cbn; discriminate |].
    destruct Hb as [(_ & _ & _ & ->) | [(_ & _ & _ & _ & ->) | (_ & _ & _ & _ & ->)]];
      cbn; discriminate. }
  split; [exact check_ip_attempts_record |].
  split; [| exact validateBoothCode_ignores_attempts].
  intros d now ip a H. rewrite check_ip_attempts_record.
  unfold Sql.counts_against, Sql.one_hour.
  destruct H as [H | H].
  - rewrite H. cbn. rewrite andb_false_r. lia.
  - replace (now - 3600000 <? ca_attempted_at a) with false
      by (symmetry; apply Z.ltb_ge; exact H).
    rewrite andb_false_r. cbn. lia.
Qed.

Lemma rate_limit_blocks_sql_validation_witness :
  5 <= Sql.check_ip_attempts (db Examples.probed_world) Examples.ten_fifty "203.0.113.7"
  /\ Sql.validate_booth_code (db Examples.probed_world) Examples.ten_fifty
       "ABC123" "203.0.113.7"
     = inr (Sql.record_attempt (db Examples.probed_world)
              (mkAttempt "ABC123" "203.0.113.7" Examples.ten_fifty false None
                 (Some "시도 횟수 초과")),
            Sql.mkValidation false None None
              "너무 많은 시도입니다. 잠시 후 다시 시도해주세요.")
  /\ Sql.validate_booth_code (db Examples.probed_world) Examples.ten_fifty
       "ABC1234" "203.0.113.7"
     = inl TextRefused.
Proof.
  split; [apply Z.leb_le; reflexivity |].
  split.
  - apply (proj1 rate_limit_blocks_sql_validation);
      [apply Z.leb_le; reflexivity | reflexivity | reflexivity].
  - apply (proj1 (proj2 rate_limit_blocks_sql_validation));
      [apply Z.leb_le; reflexivity | left; reflexivity].
Defined.

(** ** The attempt log (C4) *)

(** C4, as stated, fails on the client-side validator: validating the code
    XYZ999, which no booth holds, answers "wrong code" and leaves the attempt
    log as it was, here empty. *)
Lemma js_validation_records_nothing :
  snd (BoothCode.validateBoothCode Examples.busy_world 1000 "XYZ999") = BoothCode.WrongCode
  /\ code_attempts (db Examples.busy_world) = []
  /\ code_attempts (db (fst (BoothCode.validateBoothCode Examples.busy_world 1000 "XYZ999")))
     = [].
Proof. repeat split; reflexivity. Qed.

(** C4, amended.  A call of the storage function validate_booth_code whose
    code and address the columns attempted_code (VARCHAR(6)) and ip_address
    (VARCHAR(45)) take appends, whatever branch it takes, exactly one
    code_attempts row and changes nothing else.  The row holds the code and
    the address as stored, the time, the success flag of the answer, and
    the booth and reason of the branch taken: no booth and "too many
    attempts" for a blocked address; no booth and "wrong code" when no booth
    holds the code; the booth found and "expired code" when its code has
    expired; the booth found and "inactive booth" when its is_active is
    false; the booth found and no reason on success.  A call whose code or
    address a column refuses raises on its INSERT: it answers no row and
    appends nothing.  The client-side [validateBoothCode] writes nothing. *)
Theorem sql_validation_logs_one_attempt :
  (forall d now code ip code' ip',
      Pg.varchar 6 code = Some code' ->
      Pg.varchar 45 ip = Some ip' ->
      exists a answer,
        Sql.validate_booth_code d now code ip = inr (Sql.record_attempt d a, answer)
        /\ code_attempts (Sql.record_attempt d a) = (code_attempts d ++ [a])%list
        /\ ca_attempted_code a = code'
        /\ ca_ip_address a = ip'
        /\ ca_attempted_at a = now
        /\ ca_success a = Sql.is_valid answer
        /\ ((5 <= Sql.check_ip_attempts d now ip
             /\ ca_success a = false /\ ca_booth_id a = None
             /\ ca_error_message a = Some "시도 횟수 초과")
            \/ (Sql.check_ip_attempts d now ip < 5
                /\ Store.booths_by_code d code = []
                /\ ca_success a = false /\ ca_booth_id a = None
                /\ ca_error_message a = Some "잘못된 코드")
            \/ (Sql.check_ip_attempts d now ip < 5
                /\ exists b rest,
                    Store.booths_by_code d code = b :: rest
                    /\ ca_booth_id a = Some (b_id b)
                    /\ ((Sql.expired now (b_code_expires_at b) = true
                         /\ ca_success a = false
                         /\ ca_error_message a = Some "만료된 코드")
                        \/ (Sql.expired now (b_code_expires_at b) = false
                            /\ Sql.not_active (b_is_active b) = true
                            /\ ca_success a = false
                            /\ ca_error_message a = Some "비활성 부스")
                        \/ (Sql.expired now (b_code_expires_at b) = false
                            /\ Sql.not_active (b_is_active b) = false
                            /\ ca_success a = true
                            /\ ca_error_message a = None
                            /\ Sql.booth_id answer = Some (b_id b))))))
  /\ (forall d now code ip,
         Pg.varchar 6 code = None \/ Pg.varchar 45 ip = None ->
         Sql.validate_booth_code d now code ip = inl TextRefused)
  /\ (forall n s, Pg.fits n (Some s) = true -> Pg.varchar n s = Some s)
  /\ (forall d now code ip code' ip',
         Pg.varchar 6 code = Some code' ->
         Pg.varchar 45 ip = Some ip' ->
         Sql.check_ip_attempts d now ip < 5 ->
         Store.booths_by_code d code = [] ->
         Sql.validate_booth_code d now code ip
         = inr (Sql.record_attempt d
                  (mkAttempt code' ip' now false None (Some "잘못된 코드")),
                Sql.mkValidation false None None "잘못된 부스 코드입니다."))
  /\ (forall w now code, fst (BoothCode.validateBoothCode w now code) = w).
Proof.
  split.
  { intros d now code ip code' ip' Hc Hi.
    destruct (validate_cases d now code ip) as (s & b & r & v & Heq & Hv & Hcase).
    rewrite (log_attempt_accepted d code ip code' ip' now s b r Hc Hi) in Heq.
    exists (mkAttempt code' ip' now s b r), v.
    split; [exact Heq |]. split; [reflexivity |].
    split; [reflexivity |]. split; [reflexivity |]. split; [reflexivity |].
    split; [symmetry; exact Hv |]. cbn [ca_success ca_booth_id ca_error_message].
    destruct Hcase as [(Hfull & Hs & Hb & Hr & _)
                      | [(Hlow & Hnone & Hs & Hb & Hr & _) | (Hlow & b0 & rest & Hrows & Hb & Hin)]].
    - left. repeat split; assumption.
    - right. left. repeat split; assumption.
    - right. right. split; [exact Hlow |]. exists b0, rest.
      split; [exact Hrows |]. split; [exact Hb |].
      destruct Hin as [(He & Hs & Hr & _) | [(He & Ha & Hs & Hr & _) | (He & Ha & Hs & Hr & Hans)]].
      + left. repeat split; assumption.
      + right. left. repeat split; assumption.
      + right. right. repeat split; try assumption. rewrite Hans. reflexivity. }
  split; [exact validate_raises |].
  split; [exact fits_varchar |].
  split; [| exact validateBoothCode_reads_only].
  intros d now code ip code' ip' Hc Hi Hlow Hnone. unfold Sql.validate_booth_code.
  replace (5 <=? Sql.check_ip_attempts d now ip) with false
    by (symmetry; apply Z.leb_gt; exact Hlow).
  rewrite Hnone. rewrite (log_attempt_accepted d code ip code' ip' now _ _ _ Hc Hi).
  reflexivity.
Qed.

Lemma sql_validation_logs_one_attempt_witness :
  Sql.validate_booth_code (db Examples.busy_world) 1000 "XYZ999" "203.0.113.7"
  = inr (Sql.record_attempt (db Examples.busy_world)
           (mkAttempt "XYZ999" "203.0.113.7" 1000 false None (Some "잘못된 코드")),
         Sql.mkValidation false None None "잘못된 부스 코드입니다.")
  /\ Sql.validate_booth_code (db Examples.busy_world) 1000 "XYZ9999" "203.0.113.7"
     = inl TextRefused.
Proof.
  split.
  - apply (proj1 (proj2 (proj2 (proj2 sql_validation_logs_one_attempt))));
      [reflexivity | reflexivity | apply Z.ltb_lt; reflexivity | reflexivity].
  - apply (proj1 (proj2 sql_validation_logs_one_attempt)). left. reflexivity.
Defined.
(** ** Code generation (C8, C9) *)

(** C8: the code contradicts the claim.  With every candidate of the ten
    attempts taken, [generateUniqueBoothCode] returns the fallback code
    without checking it, although booth 2 holds that very code; the storage
    constraint then refuses the assignment to booth 1. *)
Theorem fallback_code_is_returned_unchecked :
  BoothCode.generateUniqueBoothCode Examples.crowded_world Examples.migration_day
    Examples.zero_rng 10 = "XXAO00"
  /\ BoothCode.isCodeUnique Examples.crowded_world "XXAO00" = false
  /\ In (mkBooth 2 "진로 체험 부스" (Some "XXAO00") None (Some true) None)
        (booths (db Examples.crowded_world))
  /\ snd (BoothCode.assignCodeToBooth Examples.crowded_world Examples.migration_day
            Examples.zero_rng 1 30)
     = BoothCode.AssignFailed UniqueViolation.
Proof.
  split; [vm_compute; reflexivity |].
  split; [vm_compute; reflexivity |].
  split; [right; left; reflexivity | vm_compute; reflexivity].
Qed.

(** C9, as stated, fails on the fallback path: the code returned after ten
    collisions is XXAO00, whose fourth character is a letter. *)
Lemma fallback_code_is_not_letters_then_digits :
  BoothCode.generateUniqueBoothCode Examples.crowded_world Examples.migration_day
    Examples.zero_rng 10 = "XXAO00"
  /\ CodeFormat.is_code_format "XXAO00" = false.
Proof. split; vm_compute; reflexivity. Qed.

(** C9, amended.  The plain generator always returns three uppercase ASCII
    letters followed by three decimal digits, and so does
    [generateUniqueBoothCode] when one of its candidates is found unique.
    Otherwise it returns the fallback code: six characters, XX, then the
    last three base-36 digits of the clock in upper case (each a digit or a
    letter), then one decimal digit. *)
Theorem generated_code_shapes :
  (forall rnd,
      CodeFormat.unit_interval rnd ->
      CodeFormat.is_code_format (BoothCode.generateBoothCode rnd) = true)
  /\ (forall w now rnd maxAttempts,
         CodeFormat.unit_interval rnd ->
         1296 <= now ->
         let code := BoothCode.generateUniqueBoothCode w now rnd maxAttempts in
         String.length code = 6%nat
         /\ ((CodeFormat.is_code_format code = true
              /\ BoothCode.isCodeUnique w code = true)
             \/ (code = BoothCode.fallbackCode now
                          (Nat.iter maxAttempts (fun r => Js.shift r 6) rnd)
                 /\ CodeFormat.is_fallback_format code = true))).
Proof.
  split; [exact generateBoothCode_format |].
  intros w now rnd n U Hnow. cbv zeta.
  assert (Hlen : forall s, CodeFormat.is_code_format s = true
                           \/ CodeFormat.is_fallback_format s = true ->
                           String.length s = 6%nat).
  { intros s Hs.
    destruct s as [|a [|b [|c [|d [|e [|f [|g s]]]]]]]; cbn in Hs;
      try (destruct Hs; discriminate); reflexivity. }
  destruct (generateUnique_cases w now n rnd) as [[Hu [k Hk]] | Hf].
  - assert (Hfmt : CodeFormat.is_code_format
                     (BoothCode.generateUniqueBoothCode w now rnd n) = true).
    { rewrite Hk. apply generateBoothCode_format, unit_interval_iter, U. }
    split; [apply Hlen; left; exact Hfmt |]. left. split; assumption.
  - assert (Hfmt : CodeFormat.is_fallback_format
                     (BoothCode.generateUniqueBoothCode w now rnd n) = true).
    { rewrite Hf. apply fallbackCode_format; [exact Hnow | |];
        apply (unit_interval_iter rnd n U). }
    split; [apply Hlen; right; exact Hfmt |]. right. split; assumption.
Qed.

Lemma generated_code_shapes_witness :
  CodeFormat.unit_interval Examples.zero_rng
  /\ CodeFormat.is_code_format (BoothCode.generateBoothCode Examples.zero_rng) = true.
Proof.
  assert (U : CodeFormat.unit_interval Examples.zero_rng).
  { intros i. split; [apply Qle_refl | reflexivity]. }
  split; [exact U | apply (proj1 generated_code_shapes); exact U].
Defined.


(** ** Admission and the frame of a start (C1, C6) *)

Section Admission.

Lemma validate_Valid_inv (w : World) (now : Z) (code : string) (id : Z) (nm : string) :
  snd (BoothCode.validateBoothCode w now code) = BoothCode.Valid id nm ->
  client w = true
  /\ exists data,
      Store.booths_by_code (db w) code = [data]
      /\ b_id data = id /\ b_name data = nm
      /\ BoothCode.expired (zone w) now (b_code_expires_at data) = false
      /\ BoothCode.not_active (b_is_active data) = false.
Proof.
  unfold BoothCode.validateBoothCode.
  destruct (client w); [| discriminate].
  destruct (Store.single _) as [data|] eqn:Hs; [| discriminate].
  destruct (BoothCode.expired _ _ _) eqn:He; [discriminate |].
  destruct (BoothCode.not_active _) eqn:Ha; [discriminate |].
  cbn. intros [= <- <-]. split; [reflexivity |].
  exists data. split; [apply single_Some; exact Hs | repeat split; assumption].
Qed.

Lemma valid_booth_exists (w : World) (now : Z) (code : string) (id : Z) (nm : string) :
  snd (BoothCode.validateBoothCode w now code) = BoothCode.Valid id nm ->
  existsb (fun b => b_id b =? id) (booths (db w)) = true.
Proof.
  intros Hv. destruct (validate_Valid_inv w now code id nm Hv)
    as (_ & data & Hdata & Hid & _).
  apply existsb_exists. exists data. split.
  - assert (Hin : In data (Store.booths_by_code (db w) code)) by (rewrite Hdata; now left).
    apply filter_In in Hin. apply Hin.
  - rewrite Hid. apply Z.eqb_refl.
Qed.

(** booth-code's start on a valid code, with a name and values that the
    columns store as they are. *)
Lemma code_start_valid (w : World) (now : Z) (code : string) (info : OperatorInfo)
      (boothId : Z) (boothName nm : string) :
  snd (BoothCode.validateBoothCode w now code) = BoothCode.Valid boothId boothName ->
  name info = Some nm ->
  BoothCode.storable info = true ->
  BoothCode.startBoothOperation w now code info
  = (set_db w
       (Store.with_operations
          (Store.take_operation_id (BoothCode.after_closing (db w) now boothId))
          (booth_operations (BoothCode.after_closing (db w) now boothId)
           ++ [Rows.code_started (db w) now boothId nm (Js.or_null (phone info))])),
     BoothCode.Started (next_operation_id (db w)) boothId boothName).
Proof.
  intros Hv Hn Hst. unfold BoothCode.startBoothOperation. rewrite Hv.
  unfold BoothCode.storable in Hst. rewrite Hn in *.
  apply andb_true_iff in Hst. destruct Hst as [Hfn Hfp].
  destruct (after_closing_rows (db w) now boothId) as (_ & Hb & _ & _ & _ & Hnext & _).
  rewrite insert_operation_stored;
    [| assumption | assumption | reflexivity | reflexivity | reflexivity
     | rewrite Hb; exact (valid_booth_exists w now code boothId boothName Hv)].
  rewrite Hnext. reflexivity.
Qed.

(** The same start with values that a column refuses: the insert fails
    after step 2 has run. *)
Lemma code_start_refused (w : World) (now : Z) (code : string) (info : OperatorInfo)
      (boothId : Z) (boothName : string) :
  snd (BoothCode.validateBoothCode w now code) = BoothCode.Valid boothId boothName ->
  Pg.nullable (Pg.varchar 100) (name info) = None
  \/ Pg.nullable (Pg.varchar 20) (Js.or_null (phone info)) = None ->
  BoothCode.startBoothOperation w now code info
  = (set_db w (BoothCode.after_closing (db w) now boothId),
     BoothCode.StartFailed TextRefused).
Proof.
  intros Hv H. unfold BoothCode.startBoothOperation. rewrite Hv.
  unfold Store.insert_operation.
  destruct H as [H | H]; rewrite H; [reflexivity |].
  destruct (Pg.nullable (Pg.varchar 100) (name info)); reflexivity.
Qed.

Lemma code_start_nameless (w : World) (now : Z) (code : string) (info : OperatorInfo)
      (boothId : Z) (boothName : string) :
  snd (BoothCode.validateBoothCode w now code) = BoothCode.Valid boothId boothName ->
  name info = None ->
  exists e, snd (BoothCode.startBoothOperation w now code info) = BoothCode.StartFailed e
            /\ booth_operations (db (fst (BoothCode.startBoothOperation w now code info)))
               = booth_operations (BoothCode.after_closing (db w) now boothId).
Proof.
  intros Hv Hn. unfold BoothCode.startBoothOperation. rewrite Hv.
  unfold Store.insert_operation. rewrite Hn. cbn [Pg.nullable].
  destruct (Pg.nullable (Pg.varchar 20) (Js.or_null (phone info)));
    eexists; split; reflexivity.
Qed.

Lemma active_append (ops : list BoothOperation) (row : BoothOperation) (boothId : Z) :
  op_booth_id row = boothId ->
  op_is_active row = true ->
  filter (Store.is_active_of boothId) (ops ++ [row])
  = (filter (Store.is_active_of boothId) ops ++ [row])%list.
Proof.
  intros Hb Ha. rewrite filter_app. cbn.
  unfold Store.is_active_of at 2. rewrite Hb, Z.eqb_refl, Ha. reflexivity.
Qed.

(** The second insert of booth-operation's start, after a first that has
    appended [row]. *)
Lemma session_insert_after (d : Database) (row : BoothOperation) (now expires : Z)
      (rnd : Js.Rng) (ip : option string) :
  Pg.fits 45 ip = true ->
  let d1 := Store.with_operations (Store.take_operation_id d) (booth_operations d ++ [row]) in
  let token := BoothOperationJs.generateSessionToken rnd in
  Store.insert_session d1 now token (op_id row) expires ip
  = if existsb (fun s => (s_session_token s =? token)%string) (operator_sessions d)
    then (Store.take_session_id d1, Some UniqueViolation)
    else (Store.with_sessions (Store.take_session_id d1)
            (operator_sessions d
             ++ [mkSession (next_session_id d) token (op_id row) expires now ip]),
          None).
Proof.
  intros Hip d1 token. unfold Store.insert_session.
  rewrite (fits_varchar 64 token (token_fits rnd)), (fits_nullable 45 ip Hip).
  cbn [operator_sessions booth_operations d1 Store.with_operations Store.take_operation_id
       next_session_id].
  destruct (existsb _ (operator_sessions d)); [reflexivity |].
  rewrite existsb_app. cbn [existsb]. rewrite Z.eqb_refl, orb_true_r. reflexivity.
Qed.

Lemma set_db_same (w : World) : set_db w (db w) = w.
Proof. destruct w; reflexivity. Qed.

End Admission.

(** C1, as stated, fails on booth-code's [startBoothOperation]: booth 1
    admits one operator and has one running operation, and a start with its
    code is accepted, not rejected. *)
Lemma code_start_accepted_at_capacity :
  Store.single (Store.booths_by_id (db Examples.busy_world) 1)
  = Some (mkBooth 1 "청소년 상담 부스" (Some "ABC123") None (Some true) (Some 1))
  /\ Store.active_operations (db Examples.busy_world) 1 = [Examples.running]
  /\ snd (BoothCode.startBoothOperation Examples.busy_world 9000 "ABC123" Examples.operator)
     = BoothCode.Started 8 1 "청소년 상담 부스".
Proof. repeat split; reflexivity. Qed.

(** C1, amended.  booth-operation's [startBoothOperation], given a store, a
    name, a phone number of at least ten digits and the booth's row, rejects
    the start with the admission error exactly when the booth's active
    operations number at least [max_operators || 3], leaving the world as it
    was.  Below the limit it adds at most one row, so the count stays within
    the limit; when the columns store the values of the request as they are
    (name, e-mail and organization of at most 100 characters, the digits of
    the phone at most 20, the address at most 45) it inserts one active
    operation for the booth and the count grows by one; a name or phone
    digits that their column refuses fail the start with nothing written.
    booth-code's [startBoothOperation] has no admission check.  On a valid
    code, given a name, with name and phone that the columns store as they
    are (100 and 20 characters), it inserts one active operation; that row
    is the only active operation of the booth when the update closing the
    running ones was carried out, and is added to the running ones when the
    daily-statistics trigger aborted that update.  Without a name, or with a
    name or phone that its column refuses, the start fails. *)
Theorem admission_gate :
  (forall w now rnd boothId info d booth p,
      SupabaseClient.getSupabase w = Some d ->
      Js.truthy (name info) = true ->
      phone info = Some p ->
      (10 <= String.length (Js.keep_digits p))%nat ->
      Store.single (Store.booths_by_id d boothId) = Some booth ->
      let n := Z.of_nat (List.length (Store.active_operations d boothId)) in
      let r := BoothOperationJs.startBoothOperation w now rnd boothId info in
      (BoothOperationJs.limit booth <= n ->
       r = (w, BoothOperationJs.StartFailed
                 (BoothOperationJs.AtCapacity (BoothOperationJs.limit booth))))
      /\ (n < BoothOperationJs.limit booth ->
          (forall l, snd r <> BoothOperationJs.StartFailed (BoothOperationJs.AtCapacity l))
          /\ Z.of_nat (List.length (Store.active_operations (db (fst r)) boothId))
             <= BoothOperationJs.limit booth)
      /\ (n < BoothOperationJs.limit booth ->
          BoothOperationJs.storable info (Js.keep_digits p) = true ->
          exists operation,
            booth_operations (db (fst r)) = (booth_operations d ++ [operation])%list
            /\ op_booth_id operation = boothId
            /\ op_is_active operation = true
            /\ Z.of_nat (List.length (Store.active_operations (db (fst r)) boothId)) = n + 1
            /\ n + 1 <= BoothOperationJs.limit booth
            /\ (snd r = BoothOperationJs.Started operation
                          (BoothOperationJs.generateSessionToken rnd)
                \/ snd r = BoothOperationJs.StartFailed
                             (BoothOperationJs.StartThrown UniqueViolation)))
      /\ (n < BoothOperationJs.limit booth ->
          Pg.nullable (Pg.varchar 100) (name info) = None
          \/ Pg.varchar 20 (Js.keep_digits p) = None ->
          r = (w, BoothOperationJs.StartFailed (BoothOperationJs.StartThrown TextRefused))))
  /\ (forall w now code info boothId boothName nm,
         snd (BoothCode.validateBoothCode w now code) = BoothCode.Valid boothId boothName ->
         name info = Some nm ->
         BoothCode.storable info = true ->
         let r := BoothCode.startBoothOperation w now code info in
         exists operation,
           snd r = BoothCode.Started (op_id operation) boothId boothName
           /\ op_booth_id operation = boothId
           /\ op_is_active operation = true
           /\ match BoothCode.close_active (db w) now boothId with
              | inr _ => Store.active_operations (db (fst r)) boothId = [operation]
              | inl _ =>
                  Store.active_operations (db (fst r)) boothId
                  = (Store.active_operations (db w) boothId ++ [operation])%list
              end)
  /\ (forall w now code info boothId boothName,
         snd (BoothCode.validateBoothCode w now code) = BoothCode.Valid boothId boothName ->
         name info = None
         \/ Pg.nullable (Pg.varchar 100) (name info) = None
         \/ Pg.nullable (Pg.varchar 20) (Js.or_null (phone info)) = None ->
         exists e, snd (BoothCode.startBoothOperation w now code info)
                   = BoothCode.StartFailed e).
Proof.
  split; [| split].
  - intros w now rnd boothId info d booth p Hs Hn Hp Hlen Hb n r.
    destruct (getSupabase_Some w d Hs) as [Hd _].
    assert (Hr : r = BoothOperationJs.gate_and_insert (BoothOperationJs.at_capacity d boothId)
                       w d now rnd boothId info (Js.keep_digits p))
      by (apply start_with_store; assumption).
    rewrite (at_capacity_found d boothId booth Hb) in Hr. fold n in Hr.
    split; [| split; [| split]]; intros Hcmp.
    + apply Z.leb_le in Hcmp. rewrite Hcmp in Hr. exact Hr.
    + replace (BoothOperationJs.limit booth <=? n) with false in Hr
        by (symmetry; apply Z.leb_gt; exact Hcmp).
      split.
      * intros l. rewrite Hr. unfold BoothOperationJs.gate_and_insert.
        destruct (Store.insert_operation _ _ _ _ _ _ _ _) as [d1 [e|row]];
          [cbn; discriminate |].
        destruct (Store.insert_session _ _ _ _ _ _) as [d2 [e|]]; cbn; discriminate.
      * destruct (gate_keeps_rows None w d now rnd boothId info (Js.keep_digits p)
                    (eq_sym Hd)) as (added & Hrows & Hlen1 & _).
        rewrite <- Hr in Hrows. unfold Store.active_operations. rewrite Hrows.
        rewrite filter_app, length_app.
        assert (Hf : (List.length (filter (Store.is_active_of boothId) added)
                      <= List.length added)%nat) by apply filter_length_le.
        unfold n, Store.active_operations in Hcmp. lia.
    + intros Hst.
      replace (BoothOperationJs.limit booth <=? n) with false in Hr
        by (symmetry; apply Z.leb_gt; exact Hcmp).
      destruct (name info) as [nm|] eqn:Hnm; [| discriminate].
      apply single_Some in Hb.
      assert (Hex : existsb (fun b => b_id b =? boothId) (booths d) = true)
        by (exact (filter_nonempty_existsb _ _ _ _ Hb)).
      unfold BoothOperationJs.gate_and_insert in Hr.
      rewrite (storable_insert d now boothId info nm (Js.keep_digits p) Hst Hnm Hex) in Hr.
      set (row := Rows.started d now boothId info nm (Js.keep_digits p)) in *.
      exists row.
      assert (Hact : Z.of_nat (List.length (filter (Store.is_active_of boothId)
                                              (booth_operations d ++ [row]))) = n + 1).
      { rewrite (active_append _ row boothId eq_refl eq_refl), length_app.
        cbn. unfold n, Store.active_operations. lia. }
      assert (Hip : Pg.fits 45 (Js.or_null (ipAddress info)) = true).
      { unfold BoothOperationJs.storable in Hst.
        apply andb_true_iff in Hst. apply Hst. }
      rewrite (session_insert_after d row now (now + BoothOperationJs.eight_hours) rnd
                 (Js.or_null (ipAddress info)) Hip) in Hr.
      destruct (existsb _ (operator_sessions d)); rewrite Hr; cbn [fst snd db set_db];
        cbn [booth_operations Store.with_sessions Store.take_session_id
             Store.with_operations Store.take_operation_id Store.active_operations];
        (split; [reflexivity |]); (split; [reflexivity |]); (split; [reflexivity |]);
        (split; [exact Hact |]); (split; [lia |]); [right | left]; reflexivity.
    + intros Hrefused.
      replace (BoothOperationJs.limit booth <=? n) with false in Hr
        by (symmetry; apply Z.leb_gt; exact Hcmp).
      rewrite Hr. unfold BoothOperationJs.gate_and_insert, Store.insert_operation.
      cbn [Pg.nullable].
      destruct Hrefused as [H | H]; rewrite H; cbn [option_map].
      * rewrite Hd. rewrite set_db_same. reflexivity.
      * destruct (Pg.nullable (Pg.varchar 100) (name info));
          rewrite Hd, set_db_same; reflexivity.
  - intros w now code info boothId boothName nm Hv Hn Hst r.
    unfold r. rewrite (code_start_valid w now code info boothId boothName nm Hv Hn Hst).
    exists (Rows.code_started (db w) now boothId nm (Js.or_null (phone info))).
    split; [reflexivity |]. split; [reflexivity |]. split; [reflexivity |].
    cbn [fst db set_db]. unfold Store.active_operations.
    cbn [booth_operations Store.with_operations].
    rewrite (active_append _ (Rows.code_started (db w) now boothId nm
                                (Js.or_null (phone info))) boothId eq_refl eq_refl).
    pose proof (after_closing_rows (db w) now boothId) as (Hrows & _).
    destruct (BoothCode.close_active (db w) now boothId) as [e|d1].
    + rewrite Hrows. reflexivity.
    + rewrite Hrows, active_after_close. reflexivity.
  - intros w now code info boothId boothName Hv [Hn | H].
    + destruct (code_start_nameless w now code info boothId boothName Hv Hn) as (e & He & _).
      exists e. exact He.
    + rewrite (code_start_refused w now code info boothId boothName Hv H).
      eexists. reflexivity.
Qed.

Lemma admission_gate_witness :
  BoothOperationJs.startBoothOperation Examples.busy_world 9000 Examples.zero_rng 1
    Examples.operator
  = (Examples.busy_world, BoothOperationJs.StartFailed (BoothOperationJs.AtCapacity 1))
  /\ BoothOperationJs.startBoothOperation Examples.free_world 9000 Examples.zero_rng 1
       Cases.two_phones
     = (Examples.free_world,
        BoothOperationJs.StartFailed (BoothOperationJs.StartThrown TextRefused)).
Proof.
  split.
  - apply (proj1 (proj1 admission_gate Examples.busy_world 9000 Examples.zero_rng 1
                    Examples.operator (db Examples.busy_world)
                    (mkBooth 1 "청소년 상담 부스" (Some "ABC123") None (Some true) (Some 1))
                    "010-9876-5432" eq_refl eq_refl eq_refl
                    (proj1 (Nat.leb_le 10 11) eq_refl) eq_refl)).
    apply Z.leb_le. reflexivity.
  - apply (proj2 (proj2 (proj2
             (proj1 admission_gate Examples.free_world 9000 Examples.zero_rng 1
                Cases.two_phones (db Examples.free_world)
                (mkBooth 1 "청소년 상담 부스" (Some "ABC123") None (Some true) (Some 1))
                "010-9876-5432 / 02-345-6789-00" eq_refl eq_refl eq_refl
                (proj1 (Nat.leb_le 10 22) eq_refl) eq_refl)))).
    + apply Z.ltb_lt. reflexivity.
    + right. reflexivity.
Defined.




(** ** Ending an operation (C2, C7, C10) *)

Section Ending.

Lemma filter_end_row (now id count : Z) (ops : list BoothOperation) :
  filter (fun x => op_id x =? id) (map (BoothOperationJs.end_row now id count) ops)
  = map (BoothOperationJs.end_row now id count) (filter (fun x => op_id x =? id) ops).
Proof.
  induction ops as [|o ops IH]; [reflexivity |].
  cbn [map filter]. destruct (op_id o =? id) eqn:Hid.
  - unfold BoothOperationJs.end_row at 1. rewrite Hid. cbn [op_id BoothOperationJs.ended].
    rewrite Hid. cbn [map]. now rewrite IH.
  - unfold BoothOperationJs.end_row at 1. rewrite Hid, Hid. exact IH.
Qed.

(** The update of an end whose rows are all closed already does not fire
    the trigger. *)
Lemma end_update_closed (d : Database) (now id count : Z) :
  (forall o, In o (booth_operations d) -> op_id o = id -> op_ended_at o <> None) ->
  Store.update_operations d (BoothOperationJs.end_row now id count)
  = inr (Store.with_operations d
           (map (BoothOperationJs.end_row now id count) (booth_operations d))).
Proof.
  intros H. apply update_operations_idle. intros o Hin Ho.
  unfold BoothOperationJs.end_row. destruct (op_id o =? id) eqn:Hid; [| exact Ho].
  apply Z.eqb_eq in Hid. destruct (H o Hin Hid Ho).
Qed.

Lemma code_end_update_closed (d : Database) (now id : Z) :
  (forall o, In o (booth_operations d) -> op_id o = id -> op_ended_at o <> None) ->
  Store.update_operations d (BoothCode.end_row now id)
  = inr (Store.with_operations d (map (BoothCode.end_row now id) (booth_operations d))).
Proof.
  intros H. apply update_operations_idle. intros o Hin Ho.
  unfold BoothCode.end_row. destruct (op_id o =? id) eqn:Hid; [| exact Ho].
  apply Z.eqb_eq in Hid. destruct (H o Hin Hid Ho).
Qed.

(** booth-operation's end, with a store, the session check passing, the
    row found and the update carried out. *)
Lemma end_with_store (w : World) (now operationId : Z) (token : option string)
      (d d1 : Database) (o : BoothOperation) :
  SupabaseClient.getSupabase w = Some d ->
  BoothOperationJs.session_allows d operationId token = true ->
  filter (fun x => op_id x =? operationId) (booth_operations d) = [o] ->
  Store.update_operations d
    (BoothOperationJs.end_row now operationId
       (BoothOperationJs.participantCount d operationId)) = inr d1 ->
  let count := BoothOperationJs.participantCount d operationId in
  BoothOperationJs.endBoothOperation w now operationId token
  = (mkWorld (client w)
       match token with
       | Some t => if Js.truthy token then Store.delete_sessions d1 t else d1
       | None => d1
       end
       (BoothOperationJs.clear_local (local w)) (zone w),
     BoothOperationJs.Ended (BoothOperationJs.ended now count o)
       (BoothOperationJs.calculateDuration (op_started_at o) now) count)
  /\ booth_operations d1
     = map (BoothOperationJs.end_row now operationId count) (booth_operations d)
  /\ filter (fun x => op_id x =? operationId) (booth_operations d1)
     = [BoothOperationJs.ended now count o].
Proof.
  intros Hs Hal Hrow Hupd count.
  assert (Hid : (op_id o =? operationId) = true).
  { assert (Hin : In o (filter (fun x => op_id x =? operationId) (booth_operations d)))
      by (rewrite Hrow; now left).
    apply filter_In in Hin. apply Hin. }
  assert (Hrows : booth_operations d1
                  = map (BoothOperationJs.end_row now operationId count)
                        (booth_operations d)).
  { destruct (update_operations_done _ _ _ Hupd) as (stats & ->). reflexivity. }
  assert (Hnew : filter (fun x => op_id x =? operationId) (booth_operations d1)
                 = [BoothOperationJs.ended now count o]).
  { rewrite Hrows, filter_end_row, Hrow. cbn. unfold BoothOperationJs.end_row.
    rewrite Hid. reflexivity. }
  split; [| split; [exact Hrows | exact Hnew]].
  unfold BoothOperationJs.endBoothOperation. rewrite Hs, Hal. cbn [negb].
  fold count. fold count in Hupd. rewrite Hupd, Hnew. reflexivity.
Qed.

(** The same end with the update aborted: the error is thrown and nothing
    is written, the session and localStorage included. *)
Lemma end_aborted (w : World) (now operationId : Z) (token : option string)
      (d : Database) (e : PgError) :
  SupabaseClient.getSupabase w = Some d ->
  BoothOperationJs.session_allows d operationId token = true ->
  Store.update_operations d
    (BoothOperationJs.end_row now operationId
       (BoothOperationJs.participantCount d operationId)) = inl e ->
  BoothOperationJs.endBoothOperation w now operationId token
  = (w, BoothOperationJs.EndFailed (BoothOperationJs.EndThrown e)).
Proof.
  intros Hs Hal Hupd. unfold BoothOperationJs.endBoothOperation.
  rewrite Hs, Hal. cbn [negb]. rewrite Hupd. reflexivity.
Qed.

End Ending.

(** C2, as stated, fails: operation 7 was closed at 5000 with four
    participants; ending it again at 9000 succeeds and rewrites its end time
    and its participant total, and booth-code's [endBoothOperation] rewrites
    the end time as well. *)
Lemma second_end_rewrites_closed_operation :
  booth_operations (db Examples.closed_world)
  = [mkOperation 7 1 "Kim" (Some "01012345678") None None 1000 (Some 5000) false 4 None]
  /\ booth_operations
       (db (fst (BoothOperationJs.endBoothOperation Examples.closed_world 9000 7 None)))
     = [mkOperation 7 1 "Kim" (Some "01012345678") None None 1000 (Some 9000) false 0 None]
  /\ booth_operations (db (fst (BoothCode.endBoothOperation Examples.closed_world 9000 7)))
     = [mkOperation 7 1 "Kim" (Some "01012345678") None None 1000 (Some 9000) false 4 None].
Proof. repeat split; reflexivity. Qed.

(** C2, amended.  Ending an operation that is already closed succeeds and
    leaves it closed, but it is not a no-op.  booth-operation's
    [endBoothOperation] (with a store, the session check passing, the row
    found) sets ended_at to the time of this call and total_participants to
    the count taken by this call; booth-code's [endBoothOperation] sets
    ended_at to the time of this call and keeps total_participants.  (The
    daily-statistics trigger acts only on a row that had no end time, so it
    does not bear on these calls; for any operation id booth-code's end
    either is carried out in this way or fails with nothing written.) *)
Theorem end_of_closed_operation :
  (forall w now operationId token d o previous,
      SupabaseClient.getSupabase w = Some d ->
      BoothOperationJs.session_allows d operationId token = true ->
      filter (fun x => op_id x =? operationId) (booth_operations d) = [o] ->
      op_is_active o = false ->
      op_ended_at o = Some previous ->
      let count := BoothOperationJs.participantCount d operationId in
      let r := BoothOperationJs.endBoothOperation w now operationId token in
      exists o',
        snd r = BoothOperationJs.Ended o'
                  (BoothOperationJs.calculateDuration (op_started_at o) now) count
        /\ filter (fun x => op_id x =? operationId) (booth_operations (db (fst r))) = [o']
        /\ op_is_active o' = false
        /\ op_ended_at o' = Some now
        /\ op_total_participants o' = count)
  /\ (forall w now operationId,
         client w = true ->
         (forall o, In o (booth_operations (db w)) -> op_id o = operationId ->
                    op_ended_at o <> None) ->
         let r := BoothCode.endBoothOperation w now operationId in
         snd r = BoothCode.Ended
         /\ booth_operations (db (fst r))
            = map (BoothCode.end_row now operationId) (booth_operations (db w)))
  /\ (forall w now operationId,
         client w = true ->
         let r := BoothCode.endBoothOperation w now operationId in
         (snd r = BoothCode.Ended
          /\ booth_operations (db (fst r))
             = map (BoothCode.end_row now operationId) (booth_operations (db w)))
         \/ r = (w, BoothCode.EndFailed))
  /\ (forall now operationId o,
         op_id o = operationId ->
         op_is_active (BoothCode.end_row now operationId o) = false
         /\ op_ended_at (BoothCode.end_row now operationId o) = Some now
         /\ op_total_participants (BoothCode.end_row now operationId o)
            = op_total_participants o).
Proof.
  split.
  - intros w now operationId token d o previous Hs Hal Hrow _ Hended count r.
    assert (Hclosed : forall x, In x (booth_operations d) -> op_id x = operationId ->
                                op_ended_at x <> None).
    { intros x Hin Hid.
      assert (Hx : In x (filter (fun y => op_id y =? operationId) (booth_operations d))).
      { apply filter_In. split; [exact Hin | apply Z.eqb_eq; exact Hid]. }
      rewrite Hrow in Hx. destruct Hx as [<- | []]. rewrite Hended. discriminate. }
    destruct (end_with_store w now operationId token d _ o Hs Hal Hrow
                (end_update_closed d now operationId count Hclosed))
      as (Hres & _ & Hnew).
    exists (BoothOperationJs.ended now count o). unfold r. rewrite Hres.
    split; [reflexivity |]. split; [| repeat split].
    cbn [fst db]. cbn [booth_operations Store.with_operations] in Hnew.
    destruct token as [t|]; [destruct (Js.truthy (Some t)) |]; exact Hnew.
  - split; [| split].
    + intros w now operationId Hc Hclosed r. unfold r, BoothCode.endBoothOperation.
      rewrite Hc, (code_end_update_closed (db w) now operationId Hclosed).
      split; reflexivity.
    + intros w now operationId Hc r. unfold r, BoothCode.endBoothOperation.
      rewrite Hc.
      destruct (Store.update_operations _ _) as [e|d1] eqn:Hupd; [right; reflexivity |].
      left. destruct (update_operations_done _ _ _ Hupd) as (stats & ->).
      split; reflexivity.
    + intros now operationId o Hid. unfold BoothCode.end_row.
      apply Z.eqb_eq in Hid. rewrite Hid. repeat split.
Qed.

Lemma end_of_closed_operation_witness :
  exists o',
    snd (BoothOperationJs.endBoothOperation Examples.closed_world 9000 7 None)
    = BoothOperationJs.Ended o' (BoothOperationJs.calculateDuration 1000 9000) 0
    /\ filter (fun x => op_id x =? 7)
         (booth_operations
            (db (fst (BoothOperationJs.endBoothOperation Examples.closed_world 9000 7 None))))
       = [o']
    /\ op_is_active o' = false
    /\ op_ended_at o' = Some 9000
    /\ op_total_participants o' = 0.
Proof.
  exact (proj1 end_of_closed_operation Examples.closed_world 9000 7 None
           (db Examples.closed_world) Examples.closed 5000
           eq_refl eq_refl eq_refl eq_refl eq_refl).
Defined.
(** The end of an operation that is still open is another matter: operation
    7 of the sample booth, open since 1000, cannot be ended at all once 1000
    hours have passed, by either function. *)
Lemma end_of_stale_operation_fails :
  BoothCode.endBoothOperation Examples.busy_world Examples.migration_day 7
  = (Examples.busy_world, BoothCode.EndFailed)
  /\ BoothOperationJs.endBoothOperation Examples.busy_world Examples.migration_day 7
       (Some "tok")
     = (Examples.busy_world,
        BoothOperationJs.EndFailed (BoothOperationJs.EndThrown NumericOverflow)).
Proof. split; reflexivity. Qed.

(** C7: the code contradicts the claim.  Operation 7 runs on booth 1 since
    1000 and three participants registered at booth 1 after that, but
    [endBoothOperation] counts the participants whose booth_id equals the
    operation id 7, with no bound on their time, and writes 0. *)
Theorem end_counts_participants_of_the_operation_id :
  op_booth_id Examples.running = 1
  /\ List.length
       (filter (fun p => (p_booth_id p =? op_booth_id Examples.running)
                         && (op_started_at Examples.running <=? p_created_at p))
               (participants (db Examples.busy_world))) = 3%nat
  /\ BoothOperationJs.participantCount (db Examples.busy_world) 7 = 0
  /\ snd (BoothOperationJs.endBoothOperation Examples.busy_world 5000 7 (Some "tok"))
     = BoothOperationJs.Ended
         (mkOperation 7 1 "Kim" (Some "01012345678") None None 1000 (Some 5000) false 0 None)
         (BoothOperationJs.mkDuration 0 0 0) 0.
Proof. repeat split; reflexivity. Qed.

(** C10, as stated, fails in two ways the code provides for: in mock mode
    the call answers success for a token no session holds, and an empty
    token skips the session check, so that the operation is ended. *)
Lemma end_succeeds_without_matching_session :
  Store.sessions_by_token (db Examples.mock_world) "forged" = []
  /\ snd (BoothOperationJs.endBoothOperation Examples.mock_world 9000 7 (Some "forged"))
     = BoothOperationJs.MockEnded
  /\ Store.sessions_by_token (db Examples.busy_world) "" = []
  /\ booth_operations
       (db (fst (BoothOperationJs.endBoothOperation Examples.busy_world 9000 7 (Some ""))))
     = [mkOperation 7 1 "Kim" (Some "01012345678") None None 1000 (Some 9000) false 0 None].
Proof. repeat split; reflexivity. Qed.

(** C10, amended.  With a store (not in mock mode), for every call of
    [endBoothOperation] with a non-empty session token such that no stored
    session has that token together with the operation id, the call answers
    the invalid-session failure and leaves the whole world, the operation
    row included, as it was. *)
Theorem end_requires_matching_session (w : World) (now operationId : Z) (tok : string)
        (d : Database) :
  SupabaseClient.getSupabase w = Some d ->
  tok <> "" ->
  (forall s, In s (operator_sessions d) ->
             s_session_token s = tok -> s_booth_operation_id s <> operationId) ->
  BoothOperationJs.endBoothOperation w now operationId (Some tok)
  = (w, BoothOperationJs.EndFailed BoothOperationJs.InvalidSession).
Proof.
  intros Hs Htok Hnone. unfold BoothOperationJs.endBoothOperation. rewrite Hs.
  replace (BoothOperationJs.session_allows d operationId (Some tok)) with false;
    [reflexivity |].
  symmetry. unfold BoothOperationJs.session_allows, Js.truthy.
  apply String.eqb_neq in Htok. rewrite Htok. cbn [negb].
  destruct (Store.single (Store.sessions_by_token d tok)) as [s|] eqn:Hsingle;
    [| reflexivity].
  apply single_Some in Hsingle.
  assert (Hin : In s (Store.sessions_by_token d tok)) by (rewrite Hsingle; now left).
  apply filter_In in Hin. destruct Hin as [Hin Heq].
  apply String.eqb_eq in Heq. apply Z.eqb_neq. exact (Hnone s Hin Heq).
Qed.

Lemma end_requires_matching_session_witness :
  BoothOperationJs.endBoothOperation Examples.busy_world 9000 8 (Some "tok")
  = (Examples.busy_world, BoothOperationJs.EndFailed BoothOperationJs.InvalidSession).
Proof.
  apply (end_requires_matching_session Examples.busy_world 9000 8 "tok"
           (db Examples.busy_world) eq_refl).
  - discriminate.
  - intros s [<- | []] _. discriminate.
Defined.


(** ** Resolving a session (C5) *)

Section Sessions.

Lemma current_with_store (w : World) (now : Z) (tok : string) (d : Database)
      (s : OperatorSession) :
  tok <> "" ->
  SupabaseClient.getSupabase w = Some d ->
  Store.single (Store.sessions_by_token d tok) = Some s ->
  BoothOperationJs.getCurrentOperation w now (Some tok)
  = if s_expires_at s - zone w <? now then
      (mkWorld (client w) (Store.delete_sessions d tok)
               (BoothOperationJs.clear_local (local w)) (zone w),
       BoothOperationJs.CurrentFailed BoothOperationJs.ExpiredSession)
    else
      (set_db w (Store.with_sessions d
                   (map (Store.touch_session now tok) (operator_sessions d))),
       BoothOperationJs.Current (BoothOperationJs.joined_operation d s) s).
Proof.
  intros Htok Hs Hsingle. unfold BoothOperationJs.getCurrentOperation.
  assert (Ht : Js.truthy (Some tok) = true).
  { unfold Js.truthy. apply String.eqb_neq in Htok. rewrite Htok. reflexivity. }
  rewrite Ht. cbn [negb]. rewrite Ht. cbn [negb]. rewrite Hs, Hsingle. reflexivity.
Qed.

Lemma deleted_sessions_gone (d : Database) (tok : string) :
  Store.sessions_by_token (Store.delete_sessions d tok) tok = [].
Proof.
  unfold Store.sessions_by_token, Store.delete_sessions. cbn.
  induction (operator_sessions d) as [|s l IH]; cbn; [reflexivity |].
  destruct (s_session_token s =? tok)%string eqn:He; cbn; [exact IH |].
  rewrite He. exact IH.
Qed.

End Sessions.



(** * Further properties *)

(** X3.  The duration of an operation that ends no earlier than it starts: the
    total is in whole minutes, and hours and minutes split it, with the
    minutes below 60. *)
Theorem duration_splits_total_minutes (startTime endTime : Z) :
  startTime <= endTime ->
  let d := BoothOperationJs.calculateDuration startTime endTime in
  BoothOperationJs.totalMinutes d = (endTime - startTime) / 60000
  /\ BoothOperationJs.totalMinutes d
     = BoothOperationJs.hours d * 60 + BoothOperationJs.minutes d
  /\ 0 <= BoothOperationJs.minutes d < 60.
Proof.
  intros Hle d. unfold d, BoothOperationJs.calculateDuration. cbn.
  set (diff := endTime - startTime).
  assert (Hd : 0 <= diff) by (unfold diff; lia).
  rewrite Z.rem_mod_nonneg by lia.
  pose proof (Z.div_mod diff 3600000 ltac:(lia)) as Hdm.
  pose proof (Z.mod_pos_bound diff 3600000 ltac:(lia)) as Hm.
  set (q := diff / 3600000) in *. set (r := diff mod 3600000) in *.
  split; [reflexivity |]. split.
  - rewrite Hdm at 1.
    replace (3600000 * q + r) with (r + (q * 60) * 60000) by lia.
    rewrite Z.div_add by lia. lia.
  - split.
    + apply Z.div_pos; lia.
    + apply Z.div_lt_upper_bound; lia.
Qed.

Lemma duration_splits_total_minutes_witness :
  BoothOperationJs.calculateDuration Examples.ten_o_clock Examples.quarter_to_twelve_30
  = BoothOperationJs.mkDuration 1 45 105
  /\ 105 = 1 * 60 + 45.
Proof.
  split; [reflexivity |].
  exact (proj1 (proj2 (duration_splits_total_minutes Examples.ten_o_clock
                         Examples.quarter_to_twelve_30
                         (proj1 (Z.leb_le Examples.ten_o_clock
                                  Examples.quarter_to_twelve_30) eq_refl)))).
Defined.

(** X4.  A code that [generateUniqueBoothCode] returns from its loop is held by
    no booth, when the store has at most one booth per code. *)
Theorem loop_code_is_free (w : World) (now : Z) (rnd : Js.Rng) (maxAttempts : nat) :
  (forall c, (List.length (Store.booths_by_code (db w) c) <= 1)%nat) ->
  BoothCode.generateUniqueBoothCode w now rnd maxAttempts
  <> BoothCode.fallbackCode now (Nat.iter maxAttempts (fun r => Js.shift r 6) rnd) ->
  forall b, In b (booths (db w)) ->
            b_booth_code b <> Some (BoothCode.generateUniqueBoothCode w now rnd maxAttempts).
Proof.
  intros Hone Hloop.
  destruct (generateUnique_cases w now maxAttempts rnd) as [[Hu _] | Hf].
  - apply isCodeUnique_sound; [apply Hone | exact Hu].
  - contradiction.
Qed.

Lemma loop_code_is_free_witness :
  BoothCode.generateUniqueBoothCode Examples.free_world Examples.migration_day
    Examples.zero_rng 10 = "AAA000"
  /\ b_booth_code (mkBooth 1 "청소년 상담 부스" (Some "ABC123") None (Some true) (Some 1))
     <> Some (BoothCode.generateUniqueBoothCode Examples.free_world
                Examples.migration_day Examples.zero_rng 10).
Proof.
  split; [vm_compute; reflexivity |].
  apply (loop_code_is_free Examples.free_world Examples.migration_day Examples.zero_rng 10).
  - intros c. unfold Store.booths_by_code.
    cbn [db booths Examples.free_world Examples.sample_booths filter Store.has_code
         b_booth_code].
    destruct (("ABC123" =? c)%string) eqn:H1; destruct (("DEF456" =? c)%string) eqn:H2;
      cbn [List.length]; try lia.
    apply String.eqb_eq in H1, H2. subst c. discriminate.
  - vm_compute. discriminate.
  - left. reflexivity.
Defined.


(** ** Sessions of booth-operation.js *)

Section OperationSessions.

Lemma find_fresh_id (ops : list BoothOperation) (row : BoothOperation) :
  (forall o, In o ops -> op_id o <> op_id row) ->
  find (fun o => op_id o =? op_id row) (ops ++ [row]) = Some row
  /\ filter (fun o => op_id o =? op_id row) (ops ++ [row]) = [row].
Proof.
  intros Hfresh. induction ops as [|o ops IH]; cbn.
  - rewrite Z.eqb_refl. split; reflexivity.
  - assert (Ho : (op_id o =? op_id row) = false).
    { apply Z.eqb_neq. apply Hfresh. now left. }
    rewrite Ho. apply IH. intros o' Hin. apply Hfresh. now right.
Qed.

Lemma no_session_existsb (d : Database) (t : string) :
  Store.sessions_by_token d t = [] ->
  existsb (fun s => (s_session_token s =? t)%string) (operator_sessions d) = false.
Proof.
  unfold Store.sessions_by_token. intros Hnone.
  induction (operator_sessions d) as [|s l IH]; [reflexivity |].
  cbn in *. destruct (s_session_token s =? t)%string; [discriminate | apply IH, Hnone].
Qed.

(** What a successful start with a store has done. *)
Lemma start_Started_inv (w w' : World) (now : Z) (rnd : Js.Rng) (booth : Z)
      (info : OperatorInfo) (d : Database) (operation : BoothOperation) (tok : string) :
  SupabaseClient.getSupabase w = Some d ->
  BoothOperationJs.startBoothOperation w now rnd booth info
  = (w', BoothOperationJs.Started operation tok) ->
  tok = BoothOperationJs.generateSessionToken rnd
  /\ op_id operation = next_operation_id d
  /\ op_booth_id operation = booth
  /\ op_is_active operation = true
  /\ op_started_at operation = now
  /\ op_ended_at operation = None
  /\ Store.sessions_by_token d tok = []
  /\ BoothOperationJs.at_capacity d booth = None
  /\ exists ip,
      w' = mkWorld (client w)
             (mkDatabase (booths d) (booth_operations d ++ [operation])
                (operator_sessions d
                 ++ [mkSession (next_session_id d) tok (op_id operation)
                       (now + BoothOperationJs.eight_hours) now ip])
                (code_attempts d) (participants d)
                (next_operation_id d + 1) (next_session_id d + 1) (booth_daily_stats d))
             (mkLocal (ls_useMockMode (local w)) (Some tok) (Some operation)
                      (ls_operator_session (local w)))
             (zone w).
Proof.
  intros Hs. unfold BoothOperationJs.startBoothOperation.
  destruct (negb (Js.truthy (name info)) || negb (Js.truthy (phone info)));
    [discriminate |].
  destruct (String.length _ <? 10)%nat; [discriminate |].
  rewrite Hs. unfold BoothOperationJs.gate_and_insert.
  destruct (BoothOperationJs.at_capacity d booth); [discriminate |].
  destruct (Store.insert_operation _ _ _ _ _ _ _ _) as [d1 [e|row]] eqn:Hi;
    [discriminate |].
  apply insert_operation_cases in Hi.
  destruct Hi as (-> & Hid & Hb & Hst & He & Ha & _).
  destruct (Store.insert_session _ _ _ _ _ _) as [d2 [e|]] eqn:Hj; [discriminate |].
  apply insert_session_cases in Hj.
  destruct Hj as (t' & ip' & Ht & _ & Hu & _ & ->).
  rewrite (fits_varchar 64 _ (token_fits rnd)) in Ht. injection Ht as <-.
  intros [= <- <- <-].
  repeat split; try assumption.
  - apply filter_none. exact Hu.
  - exists ip'. reflexivity.
Qed.

Lemma getSupabase_kept (w w' : World) (d : Database) :
  SupabaseClient.getSupabase w = Some d ->
  client w' = client w ->
  ls_useMockMode (local w') = ls_useMockMode (local w) ->
  SupabaseClient.getSupabase w' = Some (db w').
Proof.
  unfold SupabaseClient.getSupabase, SupabaseClient.isInMockMode.
  intros Hs -> ->.
  destruct (ls_useMockMode (local w)) as [v|].
  - destruct (v =? "true")%string; [discriminate |].
    destruct (client w); [reflexivity | discriminate].
  - destruct (client w); [reflexivity | discriminate].
Qed.

(** Ending the row of a fresh id leaves the older rows as they are. *)
Lemma end_row_older (now count : Z) (ops : list BoothOperation) (row : BoothOperation) :
  (forall o, In o ops -> op_id o <> op_id row) ->
  map (BoothOperationJs.end_row now (op_id row) count) (ops ++ [row])
  = (ops ++ [BoothOperationJs.ended now count row])%list.
Proof.
  intros Hfresh. rewrite map_app. cbn. unfold BoothOperationJs.end_row at 2.
  rewrite Z.eqb_refl. f_equal.
  induction ops as [|o ops IH]; cbn; [reflexivity |].
  unfold BoothOperationJs.end_row at 1.
  replace (op_id o =? op_id row) with false
    by (symmetry; apply Z.eqb_neq; apply Hfresh; now left).
  f_equal. apply IH. intros o' Hin. apply Hfresh. now right.
Qed.

Lemma sequenced_fresh (d : Database) (row : BoothOperation) :
  Invariants.ids_sequenced d ->
  op_id row = next_operation_id d ->
  forall o, In o (booth_operations d) -> op_id o <> op_id row.
Proof.
  intros [Hbelow _] Hid o Hin. specialize (Hbelow o Hin). lia.
Qed.

Lemma after_update_app (set : BoothOperation -> BoothOperation)
      (l1 l2 : list BoothOperation) (stats : list DailyStat) :
  Store.after_update stats (l1 ++ l2) set
  = match Store.after_update stats l1 set with
    | Some stats' => Store.after_update stats' l2 set
    | None => None
    end.
Proof.
  revert stats. induction l1 as [|o l1 IH]; intros stats; cbn; [reflexivity |].
  destruct (Store.update_daily_stats_on_operation_end stats o (set o)); [apply IH |].
  reflexivity.
Qed.

(** The trigger, for the end of an open row of a fresh id: it records the
    hours of that row. *)
Lemma end_update_fresh (now2 count : Z) (ops : list BoothOperation) (row : BoothOperation)
      (stats : list DailyStat) :
  (forall o, In o ops -> op_id o <> op_id row) ->
  op_ended_at row = None ->
  Store.after_update stats (ops ++ [row]) (BoothOperationJs.end_row now2 (op_id row) count)
  = Store.add_daily_stats stats (op_booth_id row) (Store.date_of (op_started_at row))
      (Store.hours_of (op_started_at row) now2).
Proof.
  intros Hfresh Hopen. rewrite after_update_app, after_update_idle.
  - cbn [Store.after_update]. unfold Store.update_daily_stats_on_operation_end.
    unfold BoothOperationJs.end_row. rewrite Z.eqb_refl.
    cbn [op_ended_at BoothOperationJs.ended op_booth_id op_started_at]. rewrite Hopen.
    destruct (Store.add_daily_stats _ _ _ _); reflexivity.
  - intros o Hin Ho. unfold BoothOperationJs.end_row.
    replace (op_id o =? op_id row) with false
      by (symmetry; apply Z.eqb_neq; apply Hfresh; exact Hin).
    exact Ho.
Qed.

(** The first hours of a booth and a day are recorded when they fit the
    column. *)
Lemma add_daily_stats_first (stats : list DailyStat) (booth date started ended : Z) :
  existsb (Store.same_day booth date) stats = false ->
  0 <= ended - started < 3599982000 ->
  Store.add_daily_stats stats booth date (Store.hours_of started ended)
  = Some (stats ++ [mkDailyStat booth date 1 (Store.hours_of started ended)])%list.
Proof.
  intros Hnone Hfit. unfold Store.add_daily_stats.
  rewrite (proj1 (hours_fit started ended Hfit)), Hnone. reflexivity.
Qed.

Lemma active_after_end (now count : Z) (booth : Z) (ops : list BoothOperation)
      (row : BoothOperation) :
  filter (Store.is_active_of booth) (ops ++ [BoothOperationJs.ended now count row])
  = filter (Store.is_active_of booth) ops.
Proof.
  rewrite filter_app. cbn. unfold Store.is_active_of at 2. cbn.
  rewrite andb_false_r. apply app_nil_r.
Qed.

Lemma sessions_kept (d : Database) (tok : string) :
  Store.sessions_by_token d tok = [] ->
  filter (fun s => negb (s_session_token s =? tok)%string) (operator_sessions d)
  = operator_sessions d.
Proof.
  unfold Store.sessions_by_token.
  induction (operator_sessions d) as [|s l IH]; [reflexivity |].
  cbn. destruct (s_session_token s =? tok)%string; [discriminate |].
  cbn. intros H. f_equal. apply IH, H.
Qed.

(** What ending a freshly started operation with its token does: the
    trigger decides. *)
Lemma end_of_started (w w' : World) (now now2 : Z) (rnd : Js.Rng) (booth : Z)
      (info : OperatorInfo) (d : Database) (operation : BoothOperation) (tok : string) :
  SupabaseClient.getSupabase w = Some d ->
  CodeFormat.unit_interval rnd ->
  Invariants.ids_sequenced d ->
  BoothOperationJs.startBoothOperation w now rnd booth info
  = (w', BoothOperationJs.Started operation tok) ->
  let count := BoothOperationJs.participantCount (db w') (op_id operation) in
  BoothOperationJs.endBoothOperation w' now2 (op_id operation) (Some tok)
  = match Store.add_daily_stats (booth_daily_stats d) booth (Store.date_of now)
            (Store.hours_of now now2) with
    | Some stats =>
        (mkWorld (client w)
           (mkDatabase (booths d)
              (booth_operations d ++ [BoothOperationJs.ended now2 count operation])
              (operator_sessions d) (code_attempts d) (participants d)
              (next_operation_id d + 1) (next_session_id d + 1) stats)
           (mkLocal (ls_useMockMode (local w)) None None (ls_operator_session (local w)))
           (zone w),
         BoothOperationJs.Ended (BoothOperationJs.ended now2 count operation)
           (BoothOperationJs.calculateDuration now now2) count)
    | None => (w', BoothOperationJs.EndFailed (BoothOperationJs.EndThrown NumericOverflow))
    end.
Proof.
  intros Hs U Hseq Hstart count.
  destruct (start_Started_inv w w' now rnd booth info d operation tok Hs Hstart)
    as (Htok & Hid & Hbooth & _ & Hat & Hopen & Hnone & _ & ip & Hw').
  assert (Hne : tok <> "") by (rewrite Htok; apply token_truthy, U).
  assert (Ht : Js.truthy (Some tok) = true).
  { unfold Js.truthy. apply String.eqb_neq in Hne. rewrite Hne. reflexivity. }
  assert (Hs' : SupabaseClient.getSupabase w' = Some (db w')).
  { apply (getSupabase_kept w w' d Hs); rewrite Hw'; reflexivity. }
  pose proof (sequenced_fresh d operation Hseq Hid) as Hfresh.
  assert (Hsess : Store.sessions_by_token (db w') tok
                  = [mkSession (next_session_id d) tok (op_id operation)
                       (now + BoothOperationJs.eight_hours) now ip]).
  { rewrite Hw'. unfold Store.sessions_by_token in *. cbn [db operator_sessions].
    rewrite filter_app, Hnone. cbn. rewrite String.eqb_refl. reflexivity. }
  assert (Hallow : BoothOperationJs.session_allows (db w') (op_id operation) (Some tok)
                   = true).
  { unfold BoothOperationJs.session_allows. rewrite Ht, Hsess. cbn. apply Z.eqb_refl. }
  assert (Hrow : filter (fun x => op_id x =? op_id operation) (booth_operations (db w'))
                 = [operation]).
  { rewrite Hw'. cbn [db booth_operations]. apply find_fresh_id. exact Hfresh. }
  assert (Hupd : Store.update_operations (db w')
                   (BoothOperationJs.end_row now2 (op_id operation) count)
                 = match Store.add_daily_stats (booth_daily_stats d) booth
                           (Store.date_of now) (Store.hours_of now now2) with
                   | Some stats =>
                       inr (Store.with_daily_stats
                              (Store.with_operations (db w')
                                 (booth_operations d
                                  ++ [BoothOperationJs.ended now2 count operation]))
                              stats)
                   | None => inl NumericOverflow
                   end).
  { unfold Store.update_operations. rewrite Hw' at 1 2.
    cbn [db booth_daily_stats booth_operations].
    rewrite (end_update_fresh now2 count _ operation _ Hfresh Hopen), Hbooth, Hat.
    destruct (Store.add_daily_stats _ _ _ _); [| reflexivity].
    rewrite Hw' at 2. cbn [db booth_operations].
    rewrite (end_row_older now2 count _ operation Hfresh). reflexivity. }
  destruct (Store.add_daily_stats _ _ _ _) as [stats|].
  - destruct (end_with_store w' now2 (op_id operation) (Some tok) (db w') _ operation
                Hs' Hallow Hrow Hupd) as (Hres & _).
    rewrite Hres. fold count. rewrite Ht, Hat.
    unfold Store.delete_sessions, Store.with_sessions, Store.with_operations,
      Store.with_daily_stats.
    rewrite Hw'. cbn [db booths booth_operations operator_sessions code_attempts participants
                      next_operation_id next_session_id client local zone booth_daily_stats
                      BoothOperationJs.clear_local ls_useMockMode ls_operator_session].
    rewrite filter_app. cbn [filter s_session_token]. rewrite String.eqb_refl.
    cbn [negb]. rewrite app_nil_r, (sessions_kept d tok Hnone). reflexivity.
  - exact (end_aborted w' now2 (op_id operation) (Some tok) (db w') NumericOverflow
             Hs' Hallow Hupd).
Qed.

End OperationSessions.

(** X5.  A session token has exactly 64 characters, each an ASCII letter or
    digit; it fills the session_token column and is never empty. *)
Theorem session_token_shape (rnd : Js.Rng) :
  CodeFormat.unit_interval rnd ->
  String.length (BoothOperationJs.generateSessionToken rnd) = 64%nat
  /\ TokenFormat.all_chars TokenFormat.is_token_char
       (BoothOperationJs.generateSessionToken rnd) = true
  /\ Js.truthy (Some (BoothOperationJs.generateSessionToken rnd)) = true.
Proof.
  intros U. split; [apply (draw_chars_length 64 rnd U) |].
  split; [apply (proj1 (draw_chars_alphabet 64 rnd)) |].
  unfold Js.truthy. apply negb_true_iff. apply String.eqb_neq. apply token_truthy, U.
Qed.

Lemma session_token_shape_witness :
  CodeFormat.unit_interval Examples.half_rng
  /\ String.length (BoothOperationJs.generateSessionToken Examples.half_rng) = 64%nat.
Proof.
  assert (U : CodeFormat.unit_interval Examples.half_rng).
  { intros i. split; [discriminate | reflexivity]. }
  split; [exact U | exact (proj1 (session_token_shape Examples.half_rng U))].
Defined.

(** X6.  A started operation resolves by its token, whether the token is
    passed or read from localStorage, until eight hours after the start
    less the offset of the browser's zone from UTC: expires_at is written
    in UTC into a TIMESTAMP without zone and read back as local time.
    Until then [getCurrentOperation] answers the operation and its session;
    after that it answers "expired" and deletes the session.  In a browser
    that keeps UTC the session lasts eight hours; in a browser eight hours
    or more ahead of UTC it is answered "expired" from the moment after the
    start. *)
Theorem started_session_resolves (w w' : World) (now : Z) (rnd : Js.Rng) (booth : Z)
        (info : OperatorInfo) (d : Database) (operation : BoothOperation) (tok : string) :
  SupabaseClient.getSupabase w = Some d ->
  CodeFormat.unit_interval rnd ->
  Invariants.ids_sequenced d ->
  BoothOperationJs.startBoothOperation w now rnd booth info
  = (w', BoothOperationJs.Started operation tok) ->
  forall now',
    BoothOperationJs.getCurrentOperation w' now' None
    = BoothOperationJs.getCurrentOperation w' now' (Some tok)
    /\ (now' <= now + BoothOperationJs.eight_hours - zone w ->
        exists session,
          snd (BoothOperationJs.getCurrentOperation w' now' (Some tok))
          = BoothOperationJs.Current (Some operation) session
          /\ s_session_token session = tok
          /\ s_booth_operation_id session = op_id operation
          /\ s_expires_at session = now + BoothOperationJs.eight_hours)
    /\ (now + BoothOperationJs.eight_hours - zone w < now' ->
        snd (BoothOperationJs.getCurrentOperation w' now' (Some tok))
        = BoothOperationJs.CurrentFailed BoothOperationJs.ExpiredSession
        /\ Store.sessions_by_token
             (db (fst (BoothOperationJs.getCurrentOperation w' now' (Some tok)))) tok = [])
    /\ (zone w = 0 -> now' <= now + BoothOperationJs.eight_hours ->
        exists session,
          snd (BoothOperationJs.getCurrentOperation w' now' (Some tok))
          = BoothOperationJs.Current (Some operation) session)
    /\ (BoothOperationJs.eight_hours <= zone w -> now < now' ->
        snd (BoothOperationJs.getCurrentOperation w' now' (Some tok))
        = BoothOperationJs.CurrentFailed BoothOperationJs.ExpiredSession).
Proof.
  intros Hs U Hseq Hstart now'.
  destruct (start_Started_inv w w' now rnd booth info d operation tok Hs Hstart)
    as (Htok & Hid & _ & _ & _ & _ & Hnone & _ & ip & Hw').
  assert (Hne : tok <> "") by (rewrite Htok; apply token_truthy, U).
  assert (Ht : Js.truthy (Some tok) = true).
  { unfold Js.truthy. apply String.eqb_neq in Hne. rewrite Hne. reflexivity. }
  set (session := mkSession (next_session_id d) tok (op_id operation)
                            (now + BoothOperationJs.eight_hours) now ip).
  assert (Hs' : SupabaseClient.getSupabase w' = Some (db w')).
  { apply (getSupabase_kept w w' d Hs); rewrite Hw'; reflexivity. }
  assert (Hsingle : Store.single (Store.sessions_by_token (db w') tok) = Some session).
  { rewrite Hw'. unfold Store.sessions_by_token in *. cbn [db operator_sessions].
    rewrite filter_app, Hnone. cbn. rewrite String.eqb_refl. reflexivity. }
  assert (Hjoin : BoothOperationJs.joined_operation (db w') session = Some operation).
  { rewrite Hw'. unfold BoothOperationJs.joined_operation.
    cbn [db booth_operations s_booth_operation_id session].
    apply find_fresh_id. apply (sequenced_fresh d operation Hseq Hid). }
  assert (Hz : zone w' = zone w) by (rewrite Hw'; reflexivity).
  split.
  { unfold BoothOperationJs.getCurrentOperation. rewrite Ht.
    replace (ls_session_token (local w')) with (Some tok) by (rewrite Hw'; reflexivity).
    reflexivity. }
  rewrite (current_with_store w' now' tok (db w') session Hne Hs' Hsingle).
  cbn [s_expires_at session]. rewrite Hz.
  destruct (now + BoothOperationJs.eight_hours - zone w <? now') eqn:Hcmp.
  - apply Z.ltb_lt in Hcmp. cbn [fst snd db].
    split; [lia |]. split; [intros _; split; [reflexivity | apply deleted_sessions_gone] |].
    split; [lia | reflexivity].
  - apply Z.ltb_ge in Hcmp. rewrite Hjoin. cbn [fst snd].
    split; [intros _; exists session; repeat split |].
    split; [lia |]. split; [intros _ _; exists session; reflexivity | lia].
Qed.

Section SampleStart.

Lemma zero_rng_unit : CodeFormat.unit_interval Examples.zero_rng.
Proof. intros i. split; [apply Qle_refl | reflexivity]. Qed.

Lemma free_world_sequenced : Invariants.ids_sequenced (db Examples.free_world).
Proof. split; [intros o [] | constructor]. Qed.

Lemma started_a_eq :
  BoothOperationJs.startBoothOperation Examples.free_world 9000 Examples.zero_rng 1
    Examples.operator_a
  = (fst Cases.started_a, BoothOperationJs.Started Cases.operation_a Cases.token_a).
Proof. vm_compute. reflexivity. Qed.

Lemma started_in_seoul_eq :
  BoothOperationJs.startBoothOperation (Cases.in_zone Examples.free_world Cases.seoul) 9000
    Examples.zero_rng 1 Examples.operator_a
  = (fst Cases.started_in_seoul,
     BoothOperationJs.Started Cases.operation_a Cases.token_a).
Proof. vm_compute. reflexivity. Qed.

End SampleStart.

Lemma started_session_resolves_witness :
  (exists session,
      snd (BoothOperationJs.getCurrentOperation (fst Cases.started_a) 10000
             (Some Cases.token_a))
      = BoothOperationJs.Current (Some Cases.operation_a) session
      /\ s_session_token session = Cases.token_a
      /\ s_booth_operation_id session = 1
      /\ s_expires_at session = 9000 + BoothOperationJs.eight_hours)
  /\ snd (BoothOperationJs.getCurrentOperation (fst Cases.started_in_seoul) 10000
            (Some Cases.token_a))
     = BoothOperationJs.CurrentFailed BoothOperationJs.ExpiredSession.
Proof.
  split.
  - apply (proj1 (proj2 (started_session_resolves Examples.free_world (fst Cases.started_a)
                           9000 Examples.zero_rng 1 Examples.operator_a
                           (db Examples.free_world) Cases.operation_a Cases.token_a
                           eq_refl zero_rng_unit free_world_sequenced started_a_eq 10000))).
    apply Z.leb_le. reflexivity.
  - apply (proj2 (proj2 (proj2 (proj2
             (started_session_resolves (Cases.in_zone Examples.free_world Cases.seoul)
                (fst Cases.started_in_seoul) 9000 Examples.zero_rng 1 Examples.operator_a
                (db Examples.free_world) Cases.operation_a Cases.token_a
                eq_refl zero_rng_unit free_world_sequenced started_in_seoul_eq 10000))))).
    + apply Z.leb_le. reflexivity.
    + apply Z.ltb_lt. reflexivity.
Defined.

(** X7.  Ending a started operation with its token.  When the end answers
    success it has closed exactly that operation and revoked the session:
    the store holds the rows and the sessions it held before the start plus
    the closed row, the booth's active operations are those from before the
    start, and the token no longer resolves.  Otherwise the update was
    aborted by the daily-statistics trigger, the error is answered and
    nothing is written, the session included.  The end succeeds when the
    operation has run for less than 1000 hours (999.995, which rounds to
    1000.00) and the booth has no statistics yet for the day of the start;
    it fails whenever the operation has run for 1000 hours or more. *)
Theorem end_revokes_session (w w' : World) (now now2 : Z) (rnd : Js.Rng) (booth : Z)
        (info : OperatorInfo) (d : Database) (operation : BoothOperation) (tok : string) :
  SupabaseClient.getSupabase w = Some d ->
  CodeFormat.unit_interval rnd ->
  Invariants.ids_sequenced d ->
  BoothOperationJs.startBoothOperation w now rnd booth info
  = (w', BoothOperationJs.Started operation tok) ->
  let r := BoothOperationJs.endBoothOperation w' now2 (op_id operation) (Some tok) in
  (forall data duration count,
      snd r = BoothOperationJs.Ended data duration count ->
      op_id data = op_id operation
      /\ op_is_active data = false
      /\ op_ended_at data = Some now2
      /\ booth_operations (db (fst r)) = (booth_operations d ++ [data])%list
      /\ operator_sessions (db (fst r)) = operator_sessions d
      /\ Store.active_operations (db (fst r)) booth = Store.active_operations d booth
      /\ (forall now3,
             snd (BoothOperationJs.getCurrentOperation (fst r) now3 (Some tok))
             = BoothOperationJs.CurrentFailed BoothOperationJs.UnknownSession
             /\ snd (BoothOperationJs.getCurrentOperation (fst r) now3 None)
                = BoothOperationJs.CurrentFailed BoothOperationJs.NoSession))
  /\ ((exists data duration count, snd r = BoothOperationJs.Ended data duration count)
      \/ r = (w', BoothOperationJs.EndFailed (BoothOperationJs.EndThrown NumericOverflow)))
  /\ (0 <= now2 - now < 3599982000 ->
      existsb (Store.same_day booth (Store.date_of now)) (booth_daily_stats d) = false ->
      exists data duration count, snd r = BoothOperationJs.Ended data duration count)
  /\ (3599982000 <= now2 - now ->
      r = (w', BoothOperationJs.EndFailed (BoothOperationJs.EndThrown NumericOverflow))).
Proof.
  intros Hs U Hseq Hstart r. unfold r.
  rewrite (end_of_started w w' now now2 rnd booth info d operation tok Hs U Hseq Hstart).
  destruct (start_Started_inv w w' now rnd booth info d operation tok Hs Hstart)
    as (Htok & _ & _ & _ & _ & _ & Hnone & _ & _).
  assert (Hne : tok <> "") by (rewrite Htok; apply token_truthy, U).
  assert (Ht : Js.truthy (Some tok) = true).
  { unfold Js.truthy. apply String.eqb_neq in Hne. rewrite Hne. reflexivity. }
  split; [| split; [| split]].
  - destruct (Store.add_daily_stats _ _ _ _) as [stats|]; [| cbn; discriminate].
    match goal with |- context [fst (?W, _)] => set (wE := W) end.
    cbn [fst snd]. intros data duration count [= <- _ _].
    assert (Hs2 : SupabaseClient.getSupabase wE = Some (db wE))
      by (apply (getSupabase_kept w wE d Hs); reflexivity).
    split; [reflexivity |]. split; [reflexivity |]. split; [reflexivity |].
    split; [reflexivity |]. split; [reflexivity |].
    split.
    { unfold Store.active_operations, wE. cbn [db booth_operations].
      apply active_after_end. }
    intros now3. unfold BoothOperationJs.getCurrentOperation. rewrite Ht. cbn [negb].
    rewrite Ht, Hs2. cbn [negb].
    split.
    + unfold Store.sessions_by_token in *. unfold wE at 1. cbn [db operator_sessions].
      rewrite Hnone. reflexivity.
    + reflexivity.
  - destruct (Store.add_daily_stats _ _ _ _) as [stats|];
      [left; do 3 eexists; reflexivity | right; reflexivity].
  - intros Hfit Hday. rewrite (add_daily_stats_first _ booth _ now now2 Hday Hfit).
    do 3 eexists. reflexivity.
  - intros Hlong. unfold Store.add_daily_stats.
    rewrite (hours_overflow now now2 Hlong). reflexivity.
Qed.

Lemma end_revokes_session_witness :
  (exists data duration count,
      snd (BoothOperationJs.endBoothOperation (fst Cases.started_a) 9500
             (op_id Cases.operation_a) (Some Cases.token_a))
      = BoothOperationJs.Ended data duration count)
  /\ BoothOperationJs.endBoothOperation (fst Cases.started_a) Examples.migration_day
       (op_id Cases.operation_a) (Some Cases.token_a)
     = (fst Cases.started_a,
        BoothOperationJs.EndFailed (BoothOperationJs.EndThrown NumericOverflow)).
Proof.
  split.
  - apply (proj1 (proj2 (proj2 (end_revokes_session Examples.free_world
                                  (fst Cases.started_a)
                                  9000 9500 Examples.zero_rng 1 Examples.operator_a
                                  (db Examples.free_world) Cases.operation_a Cases.token_a
                                  eq_refl zero_rng_unit free_world_sequenced
                                  started_a_eq))));
      [split; [apply Z.leb_le | apply Z.ltb_lt]; reflexivity | reflexivity].
  - apply (proj2 (proj2 (proj2 (end_revokes_session Examples.free_world
                                  (fst Cases.started_a)
                                  9000 Examples.migration_day Examples.zero_rng 1
                                  Examples.operator_a
                                  (db Examples.free_world) Cases.operation_a Cases.token_a
                                  eq_refl zero_rng_unit free_world_sequenced
                                  started_a_eq)))).
    apply Z.leb_le. reflexivity.
Defined.

Section Capacity.

Lemma start_inserts_below_limit (w : World) (now : Z) (rnd : Js.Rng) (booth : Z)
      (info : OperatorInfo) (d : Database) (b : Booth) (p : string) :
  SupabaseClient.getSupabase w = Some d ->
  Js.truthy (name info) = true ->
  phone info = Some p ->
  (10 <= String.length (Js.keep_digits p))%nat ->
  BoothOperationJs.storable info (Js.keep_digits p) = true ->
  Store.single (Store.booths_by_id d booth) = Some b ->
  Z.of_nat (List.length (Store.active_operations d booth)) < BoothOperationJs.limit b ->
  exists operation,
    booth_operations (db (fst (BoothOperationJs.startBoothOperation w now rnd booth info)))
    = (booth_operations d ++ [operation])%list
    /\ op_booth_id operation = booth
    /\ op_is_active operation = true
    /\ op_id operation = next_operation_id d.
Proof.
  intros Hs Hn Hp Hlen Hst Hb Hlow.
  rewrite (start_with_store w now rnd booth info d p Hs Hn Hp Hlen).
  rewrite (at_capacity_found d booth b Hb).
  replace (BoothOperationJs.limit b
           <=? Z.of_nat (List.length (Store.active_operations d booth))) with false
    by (symmetry; apply Z.leb_gt; exact Hlow).
  destruct (name info) as [nm|] eqn:Hnm; [| discriminate].
  apply single_Some in Hb.
  unfold BoothOperationJs.gate_and_insert.
  rewrite (storable_insert d now booth info nm (Js.keep_digits p) Hst Hnm
             (filter_nonempty_existsb _ _ _ _ Hb)).
  assert (Hip : Pg.fits 45 (Js.or_null (ipAddress info)) = true).
  { unfold BoothOperationJs.storable in Hst. apply andb_true_iff in Hst. apply Hst. }
  rewrite (session_insert_after d _ now (now + BoothOperationJs.eight_hours) rnd
             (Js.or_null (ipAddress info)) Hip).
  eexists.
  destruct (existsb _ (operator_sessions d)); cbn; repeat split.
Qed.

End Capacity.

(** X2.  One place is left on a booth and an operator takes it.  Then a
    further start on the booth is rejected with the admission error and
    changes nothing.  Once the operator has ended the operation with the
    session token and the end has answered success, a further start whose
    values the columns store as they are inserts its operation.  An end
    after 1000 hours or more is aborted by the daily-statistics trigger and
    changes nothing, so the booth stays full. *)
Theorem sequential_starts_respect_limit (w wA : World) (now : Z) (rndA : Js.Rng)
        (booth : Z) (infoA : OperatorInfo) (d : Database) (b : Booth)
        (opA : BoothOperation) (tokA : string) :
  SupabaseClient.getSupabase w = Some d ->
  CodeFormat.unit_interval rndA ->
  Invariants.ids_sequenced d ->
  Store.single (Store.booths_by_id d booth) = Some b ->
  Z.of_nat (List.length (Store.active_operations d booth)) + 1 = BoothOperationJs.limit b ->
  BoothOperationJs.startBoothOperation w now rndA booth infoA
  = (wA, BoothOperationJs.Started opA tokA) ->
  forall now1 now2 now3 rndB infoB pB,
    Js.truthy (name infoB) = true ->
    phone infoB = Some pB ->
    (10 <= String.length (Js.keep_digits pB))%nat ->
    BoothOperationJs.startBoothOperation wA now1 rndB booth infoB
    = (wA, BoothOperationJs.StartFailed
             (BoothOperationJs.AtCapacity (BoothOperationJs.limit b)))
    /\ (forall data duration count,
           snd (BoothOperationJs.endBoothOperation wA now2 (op_id opA) (Some tokA))
           = BoothOperationJs.Ended data duration count ->
           BoothOperationJs.storable infoB (Js.keep_digits pB) = true ->
           exists opB,
             booth_operations
               (db (fst (BoothOperationJs.startBoothOperation
                           (fst (BoothOperationJs.endBoothOperation wA now2 (op_id opA)
                                   (Some tokA)))
                           now3 rndB booth infoB)))
             = (booth_operations
                  (db (fst (BoothOperationJs.endBoothOperation wA now2 (op_id opA)
                              (Some tokA))))
                ++ [opB])%list
             /\ op_booth_id opB = booth
             /\ op_is_active opB = true)
    /\ (3599982000 <= now2 - now ->
        BoothOperationJs.endBoothOperation wA now2 (op_id opA) (Some tokA)
        = (wA, BoothOperationJs.EndFailed (BoothOperationJs.EndThrown NumericOverflow))).
Proof.
  intros Hs U Hseq Hb Hone Hstart now1 now2 now3 rndB infoB pB Hn Hp Hlen.
  destruct (start_Started_inv w wA now rndA booth infoA d opA tokA Hs Hstart)
    as (_ & _ & Hbooth & Hactive & _ & _ & _ & _ & ip & HwA).
  split; [| split].
  - assert (HsA : SupabaseClient.getSupabase wA = Some (db wA))
      by (apply (getSupabase_kept w wA d Hs); rewrite HwA; reflexivity).
    rewrite (start_with_store wA now1 rndB booth infoB (db wA) pB HsA Hn Hp Hlen).
    assert (HbA : Store.single (Store.booths_by_id (db wA) booth) = Some b)
      by (rewrite HwA; exact Hb).
    rewrite (at_capacity_found (db wA) booth b HbA).
    replace (BoothOperationJs.limit b
             <=? Z.of_nat (List.length (Store.active_operations (db wA) booth))) with true;
      [reflexivity |].
    symmetry. apply Z.leb_le. rewrite HwA. unfold Store.active_operations in *.
    cbn [db booth_operations]. rewrite filter_app, length_app. cbn.
    unfold Store.is_active_of at 2. rewrite Hbooth, Z.eqb_refl, Hactive. cbn. lia.
  - rewrite (end_of_started w wA now now2 rndA booth infoA d opA tokA Hs U Hseq Hstart).
    destruct (Store.add_daily_stats _ _ _ _) as [stats|]; [| cbn; discriminate].
    match goal with |- context [fst (?W, _)] => set (wE := W) end.
    cbn [fst snd]. intros data duration count _ Hst.
    assert (HsE : SupabaseClient.getSupabase wE = Some (db wE))
      by (apply (getSupabase_kept w wE d Hs); reflexivity).
    assert (HbE : Store.single (Store.booths_by_id (db wE) booth) = Some b) by exact Hb.
    assert (Hlow : Z.of_nat (List.length (Store.active_operations (db wE) booth))
                   < BoothOperationJs.limit b).
    { unfold Store.active_operations in *. unfold wE. cbn [db booth_operations].
      rewrite active_after_end. lia. }
    destruct (start_inserts_below_limit wE now3 rndB booth infoB (db wE) b pB
                HsE Hn Hp Hlen Hst HbE Hlow) as (opB & Hrows & HbB & HaB & _).
    exists opB. repeat split; assumption.
  - intros Hlong.
    rewrite (end_of_started w wA now now2 rndA booth infoA d opA tokA Hs U Hseq Hstart).
    unfold Store.add_daily_stats. rewrite (hours_overflow now now2 Hlong). reflexivity.
Qed.

Lemma sequential_starts_respect_limit_witness :
  BoothOperationJs.startBoothOperation (fst Cases.started_a) 9100 Examples.half_rng 1
    Examples.operator_b
  = (fst Cases.started_a, BoothOperationJs.StartFailed (BoothOperationJs.AtCapacity 1))
  /\ exists opB,
      booth_operations
        (db (fst (BoothOperationJs.startBoothOperation
                    (fst (BoothOperationJs.endBoothOperation (fst Cases.started_a) 9200
                            (op_id Cases.operation_a) (Some Cases.token_a)))
                    9300 Examples.half_rng 1 Examples.operator_b)))
      = (booth_operations
           (db (fst (BoothOperationJs.endBoothOperation (fst Cases.started_a) 9200
                       (op_id Cases.operation_a) (Some Cases.token_a))))
         ++ [opB])%list
      /\ op_booth_id opB = 1
      /\ op_is_active opB = true.
Proof.
  pose proof (sequential_starts_respect_limit Examples.free_world (fst Cases.started_a)
                9000 Examples.zero_rng 1 Examples.operator_a (db Examples.free_world)
                (mkBooth 1 "청소년 상담 부스" (Some "ABC123") None (Some true) (Some 1))
                Cases.operation_a Cases.token_a
                eq_refl zero_rng_unit free_world_sequenced eq_refl eq_refl started_a_eq
                9100 9200 9300 Examples.half_rng Examples.operator_b "010-3333-4444"
                eq_refl eq_refl (proj1 (Nat.leb_le 10 11) eq_refl)) as (H1 & H2 & _).
  split; [exact H1 |].
  exact (H2 _ _ _ eq_refl eq_refl).
Defined.

(** X1.  [startBoothOperation] reads the booth's active operations and its
    limit, then inserts, in separate awaited calls.  When two starts on a
    booth with a free place both read before either inserts, and the
    columns store the values of both as they are, neither is rejected and
    the booth gains two active operations, one more than the limit when one
    place was free. *)
Theorem interleaved_starts_exceed_limit (w : World) (now : Z) (rndA rndB : Js.Rng)
        (booth : Z) (infoA infoB : OperatorInfo) (phoneA phoneB : string) (b : Booth)
        (nameA nameB : string) :
  Store.single (Store.booths_by_id (db w) booth) = Some b ->
  name infoA = Some nameA ->
  name infoB = Some nameB ->
  BoothOperationJs.storable infoA phoneA = true ->
  BoothOperationJs.storable infoB phoneB = true ->
  BoothOperationJs.generateSessionToken rndA <> BoothOperationJs.generateSessionToken rndB ->
  Store.sessions_by_token (db w) (BoothOperationJs.generateSessionToken rndA) = [] ->
  Store.sessions_by_token (db w) (BoothOperationJs.generateSessionToken rndB) = [] ->
  Z.of_nat (List.length (Store.active_operations (db w) booth)) < BoothOperationJs.limit b ->
  exists opA opB,
    snd (BoothOperationJs.interleaved_starts w now rndA rndB booth infoA infoB
           phoneA phoneB)
    = (BoothOperationJs.Started opA (BoothOperationJs.generateSessionToken rndA),
       BoothOperationJs.Started opB (BoothOperationJs.generateSessionToken rndB))
    /\ Z.of_nat
         (List.length
            (Store.active_operations
               (db (fst (BoothOperationJs.interleaved_starts w now rndA rndB booth
                           infoA infoB phoneA phoneB))) booth))
       = Z.of_nat (List.length (Store.active_operations (db w) booth)) + 2.
Proof.
  intros Hb HnA HnB HstA HstB Hdiff HtA HtB Hlow.
  pose proof (single_Some _ _ Hb) as Hrows.
  pose proof (filter_nonempty_existsb _ _ _ _ Hrows) as Hexists.
  assert (HipA : Pg.fits 45 (Js.or_null (ipAddress infoA)) = true).
  { unfold BoothOperationJs.storable in HstA. apply andb_true_iff in HstA. apply HstA. }
  assert (HipB : Pg.fits 45 (Js.or_null (ipAddress infoB)) = true).
  { unfold BoothOperationJs.storable in HstB. apply andb_true_iff in HstB. apply HstB. }
  pose proof (no_session_existsb (db w) _ HtA) as HeA.
  pose proof (no_session_existsb (db w) _ HtB) as HeB.
  set (rowA := Rows.started (db w) now booth infoA nameA phoneA).
  set (d1 := Store.with_sessions
               (Store.take_session_id
                  (Store.with_operations (Store.take_operation_id (db w))
                     (booth_operations (db w) ++ [rowA])))
               (operator_sessions (db w)
                ++ [mkSession (next_session_id (db w))
                      (BoothOperationJs.generateSessionToken rndA) (op_id rowA)
                      (now + BoothOperationJs.eight_hours) now
                      (Js.or_null (ipAddress infoA))])).
  set (rowB := Rows.started d1 now booth infoB nameB phoneB).
  set (d2 := Store.with_sessions
               (Store.take_session_id
                  (Store.with_operations (Store.take_operation_id d1)
                     (booth_operations d1 ++ [rowB])))
               (operator_sessions d1
                ++ [mkSession (next_session_id d1)
                      (BoothOperationJs.generateSessionToken rndB) (op_id rowB)
                      (now + BoothOperationJs.eight_hours) now
                      (Js.or_null (ipAddress infoB))])).
  assert (Heq : exists l,
             BoothOperationJs.interleaved_starts w now rndA rndB booth infoA infoB
               phoneA phoneB
             = (mkWorld (client w) d2 l (zone w),
                (BoothOperationJs.Started rowA (BoothOperationJs.generateSessionToken rndA),
                 BoothOperationJs.Started rowB
                   (BoothOperationJs.generateSessionToken rndB)))).
  { unfold BoothOperationJs.interleaved_starts.
    rewrite (at_capacity_found (db w) booth b Hb).
    replace (BoothOperationJs.limit b
             <=? Z.of_nat (List.length (Store.active_operations (db w) booth))) with false
      by (symmetry; apply Z.leb_gt; exact Hlow).
    unfold BoothOperationJs.gate_and_insert at 1.
    rewrite (storable_insert (db w) now booth infoA nameA phoneA HstA HnA Hexists).
    rewrite (session_insert_after (db w) _ now (now + BoothOperationJs.eight_hours) rndA
               (Js.or_null (ipAddress infoA)) HipA).
    rewrite HeA. fold rowA. fold d1. cbn [db].
    unfold BoothOperationJs.gate_and_insert.
    rewrite (storable_insert d1 now booth infoB nameB phoneB HstB HnB Hexists).
    rewrite (session_insert_after d1 _ now (now + BoothOperationJs.eight_hours) rndB
               (Js.or_null (ipAddress infoB)) HipB).
    replace (existsb _ (operator_sessions d1)) with false.
    2:{ symmetry. unfold d1. cbn [operator_sessions Store.with_sessions].
        rewrite existsb_app, HeB. cbn [existsb s_session_token orb].
        rewrite orb_false_r. apply String.eqb_neq. exact Hdiff. }
    eexists. reflexivity. }
  destruct Heq as (l & ->).
  exists rowA, rowB. split; [reflexivity |].
  cbn [fst db]. unfold Store.active_operations.
  cbn [booth_operations Store.with_sessions Store.take_session_id Store.with_operations
       Store.take_operation_id d1 d2].
  rewrite !filter_app, !length_app. cbn [filter].
  unfold Store.is_active_of at 2 3. cbn [op_booth_id op_is_active Rows.started rowA rowB].
  rewrite Z.eqb_refl. cbn. lia.
Qed.

Lemma interleaved_starts_exceed_limit_witness :
  exists opA opB,
    snd (BoothOperationJs.interleaved_starts Examples.free_world 9000
           Examples.zero_rng Examples.half_rng 1
           Examples.operator_a Examples.operator_b "01011112222" "01033334444")
    = (BoothOperationJs.Started opA (BoothOperationJs.generateSessionToken Examples.zero_rng),
       BoothOperationJs.Started opB (BoothOperationJs.generateSessionToken Examples.half_rng))
    /\ Z.of_nat
         (List.length
            (Store.active_operations
               (db (fst (BoothOperationJs.interleaved_starts Examples.free_world 9000
                           Examples.zero_rng Examples.half_rng 1
                           Examples.operator_a Examples.operator_b
                           "01011112222" "01033334444"))) 1))
       = Z.of_nat (List.length (Store.active_operations (db Examples.free_world) 1)) + 2.
Proof.
  apply (interleaved_starts_exceed_limit Examples.free_world 9000
           Examples.zero_rng Examples.half_rng 1
           Examples.operator_a Examples.operator_b "01011112222" "01033334444"
           (mkBooth 1 "청소년 상담 부스" (Some "ABC123") None (Some true) (Some 1))
           "A" "B" eq_refl eq_refl eq_refl eq_refl eq_refl).
  - vm_compute. discriminate.
  - reflexivity.
  - reflexivity.
  - apply Z.ltb_lt. reflexivity.
Defined.
(** ** Mock mode *)

(** X8.  [setMockMode] is read back by [isInMockMode], and in mock mode
    [getSupabase] gives no client.  Without a client the functions of
    booth-operation.js never write the store; a start then keeps its
    operation in localStorage, from where [getCurrentOperation] answers it
    at any later time, until [endBoothOperation] removes it. *)
Theorem mock_mode_stays_local :
  (forall w enabled,
      SupabaseClient.isInMockMode (SupabaseClient.setMockMode w enabled) = enabled
      /\ SupabaseClient.getSupabase (SupabaseClient.setMockMode w true) = None
      /\ db (SupabaseClient.setMockMode w enabled) = db w)
  /\ (forall w now rnd booth info operation token,
         SupabaseClient.getSupabase w = None ->
         db (fst (BoothOperationJs.startBoothOperation w now rnd booth info)) = db w
         /\ db (fst (BoothOperationJs.endBoothOperation w now operation token)) = db w
         /\ db (fst (BoothOperationJs.getCurrentOperation w now token)) = db w)
  /\ (forall w now rnd booth info p,
         SupabaseClient.getSupabase w = None ->
         CodeFormat.unit_interval rnd ->
         Js.truthy (name info) = true ->
         phone info = Some p ->
         (10 <= String.length (Js.keep_digits p))%nat ->
         exists w1 operation,
           BoothOperationJs.startBoothOperation w now rnd booth info
           = (w1, BoothOperationJs.Started operation
                    (BoothOperationJs.generateSessionToken rnd))
           /\ op_booth_id operation = booth
           /\ op_started_at operation = now
           /\ (forall now1,
                  snd (BoothOperationJs.getCurrentOperation w1 now1 None)
                  = BoothOperationJs.MockCurrent operation)
           /\ (forall now2 now3 id token,
                  snd (BoothOperationJs.endBoothOperation w1 now2 id token)
                  = BoothOperationJs.MockEnded
                  /\ snd (BoothOperationJs.getCurrentOperation
                            (fst (BoothOperationJs.endBoothOperation w1 now2 id token))
                            now3 None)
                     = BoothOperationJs.CurrentFailed BoothOperationJs.NoSession)).
Proof.
  split.
  { intros w enabled. unfold SupabaseClient.isInMockMode, SupabaseClient.getSupabase,
      SupabaseClient.isInMockMode, SupabaseClient.setMockMode.
    destruct enabled; repeat split. }
  split.
  { intros w now rnd booth info operation token Hs. repeat split.
    - unfold BoothOperationJs.startBoothOperation.
      destruct (negb _ || negb _); [reflexivity |].
      destruct (String.length _ <? 10)%nat; [reflexivity |].
      rewrite Hs. reflexivity.
    - unfold BoothOperationJs.endBoothOperation. rewrite Hs. reflexivity.
    - unfold BoothOperationJs.getCurrentOperation.
      destruct (if Js.truthy token then token else ls_session_token (local w)) as [t|] eqn:Ht;
        [| reflexivity].
      destruct (negb (Js.truthy (Some t))); [reflexivity |].
      rewrite Hs. destruct (ls_current_operation (local w)); reflexivity. }
  intros w now rnd booth info p Hs U Hn Hp Hlen.
  unfold BoothOperationJs.startBoothOperation.
  rewrite Hn, Hp, (keep_digits_truthy p Hlen), Hs. cbn [negb orb].
  replace (String.length (Js.keep_digits p) <? 10)%nat with false
    by (symmetry; apply Nat.ltb_ge; exact Hlen).
  do 2 eexists. split; [reflexivity |].
  split; [reflexivity |]. split; [reflexivity |].
  assert (Ht : Js.truthy (Some (BoothOperationJs.generateSessionToken rnd)) = true)
    by (apply session_token_shape_truthy, U).
  assert (Hs1 : forall a b, SupabaseClient.getSupabase
                              (set_local w (mkLocal (ls_useMockMode (local w)) a b
                                              (ls_operator_session (local w)))) = None).
  { intros a b. revert Hs. unfold SupabaseClient.getSupabase, SupabaseClient.isInMockMode.
    cbn. auto. }
  split.
  - intros now1. unfold BoothOperationJs.getCurrentOperation.
    change (Js.truthy None) with false.
    cbn [local set_local ls_session_token]. rewrite Ht. cbn [negb].
    rewrite Hs1. reflexivity.
  - intros now2 now3 id token. unfold BoothOperationJs.endBoothOperation.
    rewrite Hs1. split; reflexivity.
Qed.

Lemma mock_mode_stays_local_witness :
  db (fst (BoothOperationJs.endBoothOperation Examples.mock_world 9000 7 (Some "tok")))
  = db Examples.mock_world.
Proof.
  exact (proj1 (proj2 (proj1 (proj2 mock_mode_stays_local) Examples.mock_world 9000
                         Examples.zero_rng 1 Examples.operator 7 (Some "tok") eq_refl))).
Defined.


(** ** Logging in and out (operator-auth.js) *)

Section Login.

(** What booth-code's start has done when it answers success. *)
Lemma code_start_Started_inv (w w1 : World) (now : Z) (code : string) (info : OperatorInfo)
      (id booth : Z) (boothName : string) :
  BoothCode.startBoothOperation w now code info
  = (w1, BoothCode.Started id booth boothName) ->
  snd (BoothCode.validateBoothCode w now code) = BoothCode.Valid booth boothName
  /\ id = next_operation_id (db w)
  /\ exists row,
      op_id row = id
      /\ op_booth_id row = booth
      /\ op_started_at row = now
      /\ op_ended_at row = None
      /\ op_is_active row = true
      /\ Pg.nullable (Pg.varchar 100) (name info) = Some (Some (op_operator_name row))
      /\ w1 = set_db w
                (Store.with_operations
                   (Store.take_operation_id (BoothCode.after_closing (db w) now booth))
                   (booth_operations (BoothCode.after_closing (db w) now booth) ++ [row])).
Proof.
  unfold BoothCode.startBoothOperation.
  destruct (snd (BoothCode.validateBoothCode w now code)) as [b nm| | | |] eqn:Hv;
    try discriminate.
  destruct (Store.insert_operation _ _ _ _ _ _ _ _) as [d2 [e|row]] eqn:Hi;
    [discriminate |].
  apply insert_operation_cases in Hi.
  destruct Hi as (-> & Hid & Hb & Hst & He & Ha & _ & Hn & _).
  destruct (after_closing_rows (db w) now b) as (_ & _ & _ & _ & _ & Hnext & _).
  intros [= <- <- <- <-]. split; [reflexivity |].
  split; [rewrite Hid; exact Hnext |].
  exists row. repeat split; assumption.
Qed.

(** When it answers an error of the store. *)
Lemma code_start_Failed_inv (w w1 : World) (now : Z) (code : string) (info : OperatorInfo)
      (nm : string) (e : PgError) :
  name info = Some nm ->
  BoothCode.startBoothOperation w now code info = (w1, BoothCode.StartFailed e) ->
  exists booth boothName,
    snd (BoothCode.validateBoothCode w now code) = BoothCode.Valid booth boothName
    /\ e = TextRefused
    /\ (Pg.varchar 100 nm = None
        \/ Pg.nullable (Pg.varchar 20) (Js.or_null (phone info)) = None)
    /\ w1 = set_db w (BoothCode.after_closing (db w) now booth).
Proof.
  intros Hn. unfold BoothCode.startBoothOperation.
  destruct (snd (BoothCode.validateBoothCode w now code)) as [b bn| | | |] eqn:Hv;
    try discriminate.
  unfold Store.insert_operation. rewrite Hn. cbn [Pg.nullable].
  destruct (after_closing_rows (db w) now b) as (_ & Hb & _).
  destruct (Pg.varchar 100 nm) as [nm'|]; cbn [option_map].
  - destruct (Pg.nullable (Pg.varchar 20) (Js.or_null (phone info))) as [ph'|].
    + rewrite Hb, (valid_booth_exists w now code b bn Hv). discriminate.
    + intros [= <- <-]. exists b, bn. repeat split. right. reflexivity.
  - intros [= <- <-]. exists b, bn. repeat split. left. reflexivity.
Qed.

(** What a successful login has done. *)
Lemma login_success_inv (w w' : World) (now : Z) (code : string) (info : OperatorInfo)
      (s : SessionData) :
  OperatorAuth.operatorLogin w now code info = (w', OperatorAuth.LoggedIn s) ->
  exists nm booth boothName row,
    name info = Some nm
    /\ Js.length16 code = 6%nat
    /\ Js.trim nm <> ""
    /\ snd (BoothCode.validateBoothCode w now code) = BoothCode.Valid booth boothName
    /\ s = mkSessionData (next_operation_id (db w)) booth boothName nm "operator" now
             (Some (now + OperatorAuth.twenty_four_hours))
    /\ op_id row = next_operation_id (db w)
    /\ op_booth_id row = booth
    /\ op_started_at row = now
    /\ op_ended_at row = None
    /\ op_is_active row = true
    /\ Pg.varchar 100 (Js.trim nm) = Some (op_operator_name row)
    /\ w' = OperatorAuth.saveOperatorSession
              (set_db w
                 (Store.with_operations
                    (Store.take_operation_id (BoothCode.after_closing (db w) now booth))
                    (booth_operations (BoothCode.after_closing (db w) now booth)
                     ++ [row])))
              s.
Proof.
  unfold OperatorAuth.operatorLogin.
  destruct ((code =? "")%string || negb (Js.length16 code =? 6)%nat) eqn:Hcode;
    [discriminate |].
  apply orb_false_iff in Hcode. destruct Hcode as [_ Hlen].
  apply negb_false_iff, Nat.eqb_eq in Hlen.
  destruct (name info) as [nm|]; [| discriminate].
  destruct ((nm =? "")%string || (Js.trim nm =? "")%string) eqn:Hname; [discriminate |].
  apply orb_false_iff in Hname. destruct Hname as [_ Htrim].
  apply String.eqb_neq in Htrim.
  destruct (BoothCode.startBoothOperation _ _ _ _) as [w1 [id booth boothName|v|e]] eqn:Hst;
    [| discriminate | discriminate].
  apply code_start_Started_inv in Hst.
  destruct Hst as (Hv & -> & row & Hid & Hb & Hat & He & Ha & Hn & ->).
  cbn [name Pg.nullable] in Hn.
  destruct (Pg.varchar 100 (Js.trim nm)) as [nm'|] eqn:Hnm; [| discriminate].
  cbn in Hn. injection Hn as ->.
  intros [= <- <-]. exists nm, booth, boothName, row.
  repeat split; assumption.
Qed.

Lemma session_read_back (w : World) (s : SessionData) (now' expires : Z) :
  expiresAt s = Some expires ->
  (now' <= expires ->
   OperatorAuth.getOperatorSession (OperatorAuth.saveOperatorSession w s) now'
   = (OperatorAuth.saveOperatorSession w s, Some s))
  /\ (expires < now' ->
      OperatorAuth.getOperatorSession (OperatorAuth.saveOperatorSession w s) now'
      = (OperatorAuth.clearOperatorSession (OperatorAuth.saveOperatorSession w s), None)).
Proof.
  intros He. unfold OperatorAuth.getOperatorSession, OperatorAuth.expired.
  cbn [local OperatorAuth.saveOperatorSession set_local ls_operator_session].
  rewrite He. split; intros Hcmp.
  - replace (expires <? now') with false by (symmetry; apply Z.ltb_ge; exact Hcmp).
    reflexivity.
  - apply Z.ltb_lt in Hcmp. rewrite Hcmp. reflexivity.
Qed.

(** The active operations of the booth after the start has appended
    [row]. *)
Lemma active_after_start (d : Database) (now booth : Z) (row : BoothOperation) :
  op_booth_id row = booth ->
  op_is_active row = true ->
  match BoothCode.close_active d now booth with
  | inr _ =>
      filter (Store.is_active_of booth)
        (booth_operations (BoothCode.after_closing d now booth) ++ [row]) = [row]
  | inl _ =>
      filter (Store.is_active_of booth)
        (booth_operations (BoothCode.after_closing d now booth) ++ [row])
      = (Store.active_operations d booth ++ [row])%list
  end.
Proof.
  intros Hb Ha. rewrite (active_append _ row booth Hb Ha).
  pose proof (after_closing_rows d now booth) as (Hrows & _).
  destruct (BoothCode.close_active d now booth) as [e|d1].
  - rewrite Hrows. reflexivity.
  - rewrite Hrows, active_after_close. reflexivity.
Qed.

End Login.

(** X9.  A login that does not succeed for another reason than an error of
    the store changes nothing: the world, store and localStorage, is the
    one it found.  A code that is not six code units long is refused before
    the name is looked at, and a missing or blank name before the store is
    asked.  The store fails a login only by refusing the trimmed name
    (VARCHAR(100)) or phone (VARCHAR(20)) on a valid code; then no
    operation is inserted and no session saved, but step 2 of the start has
    run: the booth's active operations are closed, unless the
    daily-statistics trigger aborted that update. *)
Theorem failed_login_changes_nothing (w : World) (now : Z) (code : string)
        (info : OperatorInfo) :
  (forall e, snd (OperatorAuth.operatorLogin w now code info) = OperatorAuth.LoginFailed e ->
             (forall err, e <> OperatorAuth.StartFailed err) ->
             fst (OperatorAuth.operatorLogin w now code info) = w)
  /\ (forall err,
         snd (OperatorAuth.operatorLogin w now code info)
         = OperatorAuth.LoginFailed (OperatorAuth.StartFailed err) ->
         exists nm booth boothName,
           name info = Some nm
           /\ snd (BoothCode.validateBoothCode w now code)
              = BoothCode.Valid booth boothName
           /\ err = TextRefused
           /\ (Pg.varchar 100 (Js.trim nm) = None
               \/ Pg.nullable (Pg.varchar 20)
                    (Js.or_null (OperatorAuth.trimmed_phone info)) = None)
           /\ fst (OperatorAuth.operatorLogin w now code info)
              = set_db w (BoothCode.after_closing (db w) now booth)
           /\ match BoothCode.close_active (db w) now booth with
              | inr _ =>
                  booth_operations (db (fst (OperatorAuth.operatorLogin w now code info)))
                  = map (BoothCode.close_row now booth) (booth_operations (db w))
              | inl _ => fst (OperatorAuth.operatorLogin w now code info) = w
              end)
  /\ (Js.length16 code = 6%nat ->
      forall nm booth boothName,
        name info = Some nm ->
        Js.trim nm <> "" ->
        snd (BoothCode.validateBoothCode w now code) = BoothCode.Valid booth boothName ->
        Pg.varchar 100 (Js.trim nm) = None
        \/ Pg.nullable (Pg.varchar 20)
             (Js.or_null (OperatorAuth.trimmed_phone info)) = None ->
        snd (OperatorAuth.operatorLogin w now code info)
        = OperatorAuth.LoginFailed (OperatorAuth.StartFailed TextRefused))
  /\ (Js.length16 code <> 6%nat ->
      snd (OperatorAuth.operatorLogin w now code info)
      = OperatorAuth.LoginFailed OperatorAuth.BadCode)
  /\ (Js.length16 code = 6%nat ->
      (name info = None \/ exists nm, name info = Some nm /\ Js.trim nm = "") ->
      snd (OperatorAuth.operatorLogin w now code info)
      = OperatorAuth.LoginFailed OperatorAuth.NoName).
Proof.
  unfold OperatorAuth.operatorLogin.
  destruct ((code =? "")%string || negb (Js.length16 code =? 6)%nat) eqn:Hcode.
  { split; [intros e [= <-] _; reflexivity |].
    split; [intros err; discriminate |].
    assert (Hlen : Js.length16 code <> 6%nat).
    { apply orb_true_iff in Hcode. destruct Hcode as [Hc | Hc].
      - apply String.eqb_eq in Hc. subst code. discriminate.
      - apply negb_true_iff, Nat.eqb_neq in Hc. exact Hc. }
    split; [intros H; contradiction |].
    split; [reflexivity |]. intros H; contradiction. }
  apply orb_false_iff in Hcode. destruct Hcode as [_ Hlen].
  apply negb_false_iff, Nat.eqb_eq in Hlen.
  destruct (name info) as [nm|] eqn:Hnm.
  2:{ split; [intros e [= <-] _; reflexivity |].
      split; [intros err; discriminate |].
      split; [intros _ nm0 booth boothName; discriminate |].
      split; [intros Hne; contradiction |]. reflexivity. }
  destruct ((nm =? "")%string || (Js.trim nm =? "")%string) eqn:Hname.
  { split; [intros e [= <-] _; reflexivity |].
    split; [intros err; discriminate |].
    split.
    { intros _ nm0 booth boothName [= <-] Htrim. exfalso.
      apply orb_true_iff in Hname. destruct Hname as [H | H]; apply String.eqb_eq in H.
      - subst nm. apply Htrim. reflexivity.
      - exact (Htrim H). }
    split; [intros Hne; contradiction |]. reflexivity. }
  apply orb_false_iff in Hname. destruct Hname as [_ Htrim].
  apply String.eqb_neq in Htrim.
  set (info' := mkInfo (Some (Js.trim nm)) (OperatorAuth.trimmed_phone info)
                       None None None None).
  destruct (BoothCode.startBoothOperation w now code info')
    as [w1 [id booth boothName|v|e]] eqn:Hst.
  - split; [intros e; discriminate |].
    split; [intros err; discriminate |].
    split.
    { intros _ nm0 b bn [= <-] _ Hv Href. exfalso.
      rewrite (code_start_refused w now code info' b bn Hv) in Hst; [discriminate |].
      destruct Href as [H | H]; [left; cbn; rewrite H; reflexivity | right; exact H]. }
    split; [intros Hne; contradiction |].
    intros _ [H | (nm0 & [= <-] & H)]; [discriminate | contradiction].
  - split.
    { intros e [= <-] _. cbn [fst].
      unfold BoothCode.startBoothOperation in Hst.
      destruct (snd (BoothCode.validateBoothCode w now code)); try discriminate;
        try (injection Hst as <- _; reflexivity).
      destruct (Store.insert_operation _ _ _ _ _ _ _ _) as [d2 [e|row]]; discriminate. }
    split; [intros err; discriminate |].
    split.
    { intros _ nm0 b bn [= <-] _ Hv Href. exfalso.
      rewrite (code_start_refused w now code info' b bn Hv) in Hst; [discriminate |].
      destruct Href as [H | H]; [left; cbn; rewrite H; reflexivity | right; exact H]. }
    split; [intros Hne; contradiction |].
    intros _ [H | (nm0 & [= <-] & H)]; [discriminate | contradiction].
  - destruct (code_start_Failed_inv w w1 now code info' (Js.trim nm) e eq_refl Hst)
      as (booth & boothName & Hv & -> & Href & ->).
    split; [intros e [= <-] Hno; destruct (Hno TextRefused eq_refl) |].
    split.
    { intros err [= <-]. exists nm, booth, boothName.
      split; [reflexivity |]. split; [exact Hv |]. split; [reflexivity |].
      split; [exact Href |]. split; [reflexivity |].
      cbn [fst db set_db].
      pose proof (after_closing_rows (db w) now booth) as (Hrows & _).
      destruct (BoothCode.close_active (db w) now booth) as [e|d1];
        [rewrite Hrows; apply set_db_same | exact Hrows]. }
    split; [intros; reflexivity |].
    split; [intros Hne; contradiction |].
    intros _ [H | (nm0 & [= <-] & H)]; [discriminate | contradiction].
Qed.

Lemma failed_login_changes_nothing_witness :
  snd (OperatorAuth.operatorLogin Examples.busy_world 9000 "ABC12" Cases.visitor)
  = OperatorAuth.LoginFailed OperatorAuth.BadCode
  /\ snd (OperatorAuth.operatorLogin Examples.busy_world 9000 "ABC123" Cases.two_phones)
     = OperatorAuth.LoginFailed (OperatorAuth.StartFailed TextRefused)
  /\ booth_operations
       (db (fst (OperatorAuth.operatorLogin Examples.busy_world 9000 "ABC123"
                   Cases.two_phones)))
     = [mkOperation 7 1 "Kim" (Some "01012345678") None None 1000 (Some 9000) false 0 None].
Proof.
  split; [| split].
  - apply (proj1 (proj2 (proj2 (proj2 (failed_login_changes_nothing Examples.busy_world
                                         9000 "ABC12" Cases.visitor))))).
    cbn. discriminate.
  - apply (proj1 (proj2 (proj2 (failed_login_changes_nothing Examples.busy_world 9000
                                  "ABC123" Cases.two_phones)))
             eq_refl "Lee" 1 "청소년 상담 부스" eq_refl ltac:(discriminate) eq_refl).
    right. reflexivity.
  - reflexivity.
Defined.

(** X10.  After a successful login the code was valid for the booth of the
    session, and the new operation, under the trimmed name as the column
    operator_name stores it, is an active operation of the booth: the only
    one when the update closing the running operations was carried out,
    added to the running ones when the daily-statistics trigger aborted
    that update.  The session saved in localStorage is read back, and
    gives access to that booth and no other, for 24 hours; after that it
    reads as no session. *)
Theorem login_round_trip (w w' : World) (now : Z) (code : string) (info : OperatorInfo)
        (s : SessionData) :
  OperatorAuth.operatorLogin w now code info = (w', OperatorAuth.LoggedIn s) ->
  snd (BoothCode.validateBoothCode w now code) = BoothCode.Valid (boothId s) (boothName s)
  /\ name info = Some (operatorName s)
  /\ (exists operation,
         op_id operation = operationId s
         /\ Pg.varchar 100 (Js.trim (operatorName s)) = Some (op_operator_name operation)
         /\ (Pg.fits 100 (Some (Js.trim (operatorName s))) = true ->
             op_operator_name operation = Js.trim (operatorName s))
         /\ op_started_at operation = now
         /\ match BoothCode.close_active (db w) now (boothId s) with
            | inr _ => Store.active_operations (db w') (boothId s) = [operation]
            | inl _ =>
                Store.active_operations (db w') (boothId s)
                = (Store.active_operations (db w) (boothId s) ++ [operation])%list
            end)
  /\ (forall now',
         now' <= now + OperatorAuth.twenty_four_hours ->
         OperatorAuth.getOperatorSession w' now' = (w', Some s)
         /\ forall booth,
             snd (OperatorAuth.hasBoothAccess w' now' booth) = (boothId s =? booth))
  /\ (forall now' booth,
         now + OperatorAuth.twenty_four_hours < now' ->
         snd (OperatorAuth.getOperatorSession w' now') = None
         /\ snd (OperatorAuth.hasBoothAccess w' now' booth) = false).
Proof.
  intros Hlogin.
  destruct (login_success_inv w w' now code info s Hlogin)
    as (nm & booth & boothName & row & Hnm & _ & _ & Hv & Hs & Hid & Hb & Hat & _ & Ha
        & Hstored & Hw').
  assert (He : expiresAt s = Some (now + OperatorAuth.twenty_four_hours))
    by (rewrite Hs; reflexivity).
  split; [rewrite Hs; exact Hv |].
  split; [rewrite Hs; exact Hnm |].
  split.
  { exists row. rewrite Hs. cbn [operationId operatorName boothId].
    split; [exact Hid |]. split; [exact Hstored |].
    split.
    { intros Hfit. rewrite (fits_varchar 100 _ Hfit) in Hstored.
      injection Hstored as <-. reflexivity. }
    split; [exact Hat |].
    rewrite Hw'. unfold Store.active_operations at 1 3.
    cbn [db OperatorAuth.saveOperatorSession set_local set_db booth_operations
         Store.with_operations].
    exact (active_after_start (db w) now booth row Hb Ha). }
  split.
  - intros now' Hcmp.
    destruct (session_read_back
                (set_db w
                   (Store.with_operations
                      (Store.take_operation_id (BoothCode.after_closing (db w) now booth))
                      (booth_operations (BoothCode.after_closing (db w) now booth)
                       ++ [row])))
                s now' _ He) as [Hvalid _].
    rewrite <- Hw' in Hvalid. specialize (Hvalid Hcmp).
    split; [exact Hvalid |].
    intros b. unfold OperatorAuth.hasBoothAccess. rewrite Hvalid. reflexivity.
  - intros now' b Hcmp.
    destruct (session_read_back
                (set_db w
                   (Store.with_operations
                      (Store.take_operation_id (BoothCode.after_closing (db w) now booth))
                      (booth_operations (BoothCode.after_closing (db w) now booth)
                       ++ [row])))
                s now' _ He) as [_ Hgone].
    rewrite <- Hw' in Hgone. specialize (Hgone Hcmp).
    unfold OperatorAuth.hasBoothAccess. rewrite Hgone. split; reflexivity.
Qed.

Lemma logged_in_eq :
  OperatorAuth.operatorLogin Examples.free_world 9000 "ABC123" Cases.visitor
  = (fst Cases.logged_in, OperatorAuth.LoggedIn Cases.session_lee).
Proof. vm_compute. reflexivity. Qed.

Lemma login_round_trip_witness :
  snd (BoothCode.validateBoothCode Examples.free_world 9000 "ABC123")
  = BoothCode.Valid 1 "청소년 상담 부스"
  /\ name Cases.visitor = Some "  Lee  "
  /\ OperatorAuth.getOperatorSession (fst Cases.logged_in) 10000
     = (fst Cases.logged_in, Some Cases.session_lee)
  /\ snd (OperatorAuth.hasBoothAccess (fst Cases.logged_in) 10000 2) = false.
Proof.
  pose proof (login_round_trip Examples.free_world (fst Cases.logged_in) 9000 "ABC123"
                Cases.visitor Cases.session_lee logged_in_eq) as (H1 & H2 & _ & H4 & _).
  destruct (H4 10000 (proj1 (Z.leb_le 10000 (9000 + OperatorAuth.twenty_four_hours))
                        eq_refl)) as [H5 H6].
  split; [exact H1 |]. split; [exact H2 |]. split; [exact H5 | exact (H6 2)].
Defined.
(** ** Refreshing and leaving a session (operator-auth.js) *)

Section Logout.

Lemma no_session_stays (w : World) (now : Z) :
  snd (OperatorAuth.getOperatorSession w now) = None ->
  forall now',
    snd (OperatorAuth.getOperatorSession (fst (OperatorAuth.getOperatorSession w now)) now')
    = None.
Proof.
  unfold OperatorAuth.getOperatorSession.
  destruct (ls_operator_session (local w)) as [[|s]|] eqn:Hl; cbn [fst snd].
  - intros _ now'. rewrite Hl. reflexivity.
  - destruct (OperatorAuth.expired now s); cbn [fst snd]; [| discriminate].
    intros _ now'. reflexivity.
  - intros _ now'. rewrite Hl. reflexivity.
Qed.

Lemma session_found (w : World) (now : Z) (s : SessionData) :
  snd (OperatorAuth.getOperatorSession w now) = Some s ->
  OperatorAuth.getOperatorSession w now = (w, Some s).
Proof.
  unfold OperatorAuth.getOperatorSession.
  destruct (ls_operator_session (local w)) as [[|s0]|]; cbn; try discriminate.
  destruct (OperatorAuth.expired now s0); cbn; [discriminate |].
  intros [= ->]. reflexivity.
Qed.

(** Ending by id after the start has closed the others leaves the booth
    with no active operation. *)

(** Ending by id after the start has closed the others leaves the booth
    with no active operation. *)
Lemma none_active_after_end (now now2 booth id : Z) (ops : list BoothOperation)
      (row : BoothOperation) :
  op_id row = id ->
  filter (Store.is_active_of booth)
    (map (BoothCode.end_row now2 id) (map (BoothCode.close_row now booth) ops ++ [row]))
  = [].
Proof.
  intros Hid. rewrite map_app, filter_app. cbn [map filter].
  unfold BoothCode.end_row at 2. rewrite Hid, Z.eqb_refl.
  unfold Store.is_active_of at 2. cbn [op_is_active]. rewrite andb_false_r, app_nil_r.
  induction ops as [|o ops IH]; cbn; [reflexivity |].
  assert (H : Store.is_active_of booth
                (BoothCode.end_row now2 id (BoothCode.close_row now booth o)) = false).
  { unfold BoothCode.end_row.
    destruct (op_id (BoothCode.close_row now booth o) =? id).
    - unfold Store.is_active_of. cbn. apply andb_false_r.
    - unfold BoothCode.close_row. destruct (Store.is_active_of booth o) eqn:Ha.
      + unfold Store.is_active_of. cbn. apply andb_false_r.
      + exact Ha. }
  rewrite H. exact IH.
Qed.

(** booth-code's end either rewrites the rows or, aborted, writes
    nothing. *)
Lemma code_end_cases (w : World) (now id : Z) :
  (snd (BoothCode.endBoothOperation w now id) = BoothCode.Ended
   /\ booth_operations (db (fst (BoothCode.endBoothOperation w now id)))
      = map (BoothCode.end_row now id) (booth_operations (db w))
   /\ client w = true)
  \/ BoothCode.endBoothOperation w now id = (w, BoothCode.EndFailed).
Proof.
  unfold BoothCode.endBoothOperation.
  destruct (client w); [| right; reflexivity].
  destruct (Store.update_operations _ _) as [e|d1] eqn:Hupd; [right; reflexivity |].
  left. destruct (update_operations_done _ _ _ Hupd) as (stats & ->).
  repeat split.
Qed.

End Logout.
(** X11.  [refreshSession] answers true exactly when a session is read, and
    then sets its expiry to 24 hours after the call, whatever it was
    before, keeping the other fields and the store: the session is read
    back until then and no longer after.  When no session is read the
    answer is false and none is read later either. *)
Theorem refresh_sets_expiry (w : World) (now : Z) :
  (forall s,
      snd (OperatorAuth.getOperatorSession w now) = Some s ->
      let s' := mkSessionData (operationId s) (boothId s) (boothName s) (operatorName s)
                              (role s) (startedAt s)
                              (Some (now + OperatorAuth.twenty_four_hours)) in
      let w' := fst (OperatorAuth.refreshSession w now) in
      snd (OperatorAuth.refreshSession w now) = true
      /\ db w' = db w
      /\ (forall now', now' <= now + OperatorAuth.twenty_four_hours ->
             OperatorAuth.getOperatorSession w' now' = (w', Some s'))
      /\ (forall now', now + OperatorAuth.twenty_four_hours < now' ->
             snd (OperatorAuth.getOperatorSession w' now') = None))
  /\ (snd (OperatorAuth.getOperatorSession w now) = None ->
      OperatorAuth.refreshSession w now = (fst (OperatorAuth.getOperatorSession w now), false)
      /\ forall now',
          snd (OperatorAuth.getOperatorSession (fst (OperatorAuth.refreshSession w now)) now')
          = None).
Proof.
  split.
  - intros s Hs s' w'. apply session_found in Hs.
    assert (Hr : OperatorAuth.refreshSession w now
                 = (OperatorAuth.saveOperatorSession w s', true)).
    { unfold OperatorAuth.refreshSession. rewrite Hs. reflexivity. }
    unfold w'. rewrite Hr. cbn [fst snd].
    split; [reflexivity |]. split; [reflexivity |]. split.
    + intros now' Hle.
      apply (proj1 (session_read_back w s' now' (now + OperatorAuth.twenty_four_hours)
                      eq_refl) Hle).
    + intros now' Hlt.
      rewrite (proj2 (session_read_back w s' now' (now + OperatorAuth.twenty_four_hours)
                        eq_refl) Hlt).
      reflexivity.
  - intros Hnone.
    assert (Hr : OperatorAuth.refreshSession w now
                 = (fst (OperatorAuth.getOperatorSession w now), false)).
    { unfold OperatorAuth.refreshSession.
      destruct (OperatorAuth.getOperatorSession w now) as [w1 [s|]]; [discriminate |].
      reflexivity. }
    split; [exact Hr |]. intros now'. rewrite Hr. cbn [fst].
    apply no_session_stays, Hnone.
Qed.

Lemma refresh_sets_expiry_witness :
  snd (OperatorAuth.refreshSession Cases.logged_in_world 5000) = true
  /\ db (fst (OperatorAuth.refreshSession Cases.logged_in_world 5000))
     = db Cases.logged_in_world.
Proof.
  pose proof (proj1 (refresh_sets_expiry Cases.logged_in_world 5000)
                (Examples.stored_session 86401000) eq_refl) as H.
  split; [exact (proj1 H) | exact (proj1 (proj2 H))].
Defined.


(** X12.  Logging out after a login.  While the session lasts,
    [operatorLogout] ends the operation of the login.  When that end is
    carried out, the operation is closed at the time of the logout, and
    the booth is left with no active operation if the login had closed the
    running ones; when the daily-statistics trigger aborts the end, the
    store is left as it was.  Once the session has expired the logout
    reads no session: it writes nothing to the store, and the operation of
    the login stays an active operation of the booth, the only one if the
    login had closed the running ones.  Either way no operator session is
    read afterwards. *)
Theorem logout_after_login (w w1 : World) (now : Z) (code : string) (info : OperatorInfo)
        (s : SessionData) :
  OperatorAuth.operatorLogin w now code info = (w1, OperatorAuth.LoggedIn s) ->
  next_operation_id (db w) <> 0 ->
  forall now2,
    let w2 := OperatorAuth.operatorLogout w1 now2 in
    (now2 <= now + OperatorAuth.twenty_four_hours ->
     snd (BoothCode.endBoothOperation w1 now2 (operationId s)) = BoothCode.Ended ->
     booth_operations (db w2)
     = map (BoothCode.end_row now2 (operationId s)) (booth_operations (db w1))
     /\ (exists row,
            In row (booth_operations (db w2))
            /\ op_id row = operationId s
            /\ op_started_at row = now
            /\ op_ended_at row = Some now2
            /\ op_is_active row = false)
     /\ (forall d1,
            BoothCode.close_active (db w) now (boothId s) = inr d1 ->
            Store.active_operations (db w2) (boothId s) = []))
    /\ (now2 <= now + OperatorAuth.twenty_four_hours ->
        snd (BoothCode.endBoothOperation w1 now2 (operationId s)) = BoothCode.EndFailed ->
        db w2 = db w1)
    /\ (now + OperatorAuth.twenty_four_hours < now2 ->
        db w2 = db w1
        /\ exists row,
            In row (Store.active_operations (db w2) (boothId s))
            /\ op_id row = operationId s
            /\ (forall d1,
                   BoothCode.close_active (db w) now (boothId s) = inr d1 ->
                   Store.active_operations (db w2) (boothId s) = [row]))
    /\ ls_operator_session (local w2) = None
    /\ forall now3, snd (OperatorAuth.getOperatorSession w2 now3) = None.
Proof.
  intros Hlogin Hid now2 w2.
  destruct (login_success_inv w w1 now code info s Hlogin)
    as (nm & booth & boothName & row & Hn & _ & _ & Hv & Hs & Hrid & Hrb & Hrat & Hre
        & Hra & _ & Hw1).
  assert (He : expiresAt s = Some (now + OperatorAuth.twenty_four_hours))
    by (rewrite Hs; reflexivity).
  assert (Hop : operationId s = next_operation_id (db w)) by (rewrite Hs; reflexivity).
  assert (Hb : boothId s = booth) by (rewrite Hs; reflexivity).
  assert (Hrows : booth_operations (db w1)
                  = (booth_operations (BoothCode.after_closing (db w) now booth)
                     ++ [row])%list)
    by (rewrite Hw1; reflexivity).
  assert (Hwithin : now2 <= now + OperatorAuth.twenty_four_hours ->
                    w2 = OperatorAuth.clearOperatorSession
                           (fst (BoothCode.endBoothOperation w1 now2 (operationId s)))).
  { intros Hle. unfold w2, OperatorAuth.operatorLogout. rewrite Hw1 at 1.
    rewrite (proj1 (session_read_back _ s now2 _ He) Hle). rewrite <- Hw1.
    replace (operationId s =? 0) with false
      by (symmetry; apply Z.eqb_neq; rewrite Hop; exact Hid).
    reflexivity. }
  split; [| split; [| split]].
  - intros Hle Hended. specialize (Hwithin Hle).
    destruct (code_end_cases w1 now2 (operationId s)) as [(_ & Hdb & _) | Hfail];
      [| rewrite Hfail in Hended; discriminate].
    assert (Hdb2 : booth_operations (db w2)
                   = map (BoothCode.end_row now2 (operationId s))
                         (booth_operations (db w1)))
      by (rewrite Hwithin; exact Hdb).
    split; [exact Hdb2 |]. split.
    + exists (BoothCode.end_row now2 (operationId s) row). split.
      * rewrite Hdb2, Hrows. apply in_map, in_or_app. right. now left.
      * unfold BoothCode.end_row. rewrite Hrid, Hop, Z.eqb_refl.
        cbn [op_id op_started_at op_ended_at op_is_active].
        repeat split; assumption.
    + intros d1 Hclose. unfold Store.active_operations. rewrite Hdb2, Hrows, Hb.
      pose proof (after_closing_rows (db w) now booth) as (Hr & _).
      rewrite Hb in Hclose. rewrite Hclose in Hr. rewrite Hr.
      apply none_active_after_end. rewrite Hop. exact Hrid.
  - intros Hle Hfailed. specialize (Hwithin Hle).
    destruct (code_end_cases w1 now2 (operationId s)) as [(Hended & _) | Hfail];
      [rewrite Hended in Hfailed; discriminate |].
    rewrite Hwithin, Hfail. reflexivity.
  - intros Hlt.
    assert (Hout : w2 = OperatorAuth.clearOperatorSession
                          (OperatorAuth.clearOperatorSession w1)).
    { unfold w2, OperatorAuth.operatorLogout. rewrite Hw1 at 1.
      rewrite (proj2 (session_read_back _ s now2 _ He) Hlt). rewrite <- Hw1.
      reflexivity. }
    split; [rewrite Hout; reflexivity |].
    exists row.
    assert (Hact : Store.active_operations (db w2) (boothId s)
                   = filter (Store.is_active_of booth)
                       (booth_operations (BoothCode.after_closing (db w) now booth)
                        ++ [row])).
    { rewrite Hout. unfold Store.active_operations.
      change (db (OperatorAuth.clearOperatorSession (OperatorAuth.clearOperatorSession w1)))
        with (db w1).
      rewrite Hrows, Hb. reflexivity. }
    split; [| split; [rewrite Hop; exact Hrid |]].
    + rewrite Hact, (active_append _ row booth Hrb Hra). apply in_or_app. right. now left.
    + intros d1 Hclose. rewrite Hact.
      pose proof (active_after_start (db w) now booth row Hrb Hra) as H.
      rewrite Hb in Hclose. rewrite Hclose in H. exact H.
  - assert (Hl : ls_operator_session (local w2) = None).
    { unfold w2, OperatorAuth.operatorLogout.
      destruct (OperatorAuth.getOperatorSession w1 now2) as [w3 o]. reflexivity. }
    split; [exact Hl |]. intros now3. unfold OperatorAuth.getOperatorSession.
    rewrite Hl. reflexivity.
Qed.

Lemma free_world_next_id : next_operation_id (db Examples.free_world) <> 0.
Proof. discriminate. Qed.

Lemma logout_after_login_witness :
  Store.active_operations (db (OperatorAuth.operatorLogout (fst Cases.logged_in) 50000)) 1
  = [].
Proof.
  exact (proj2 (proj2 (proj1 (logout_after_login Examples.free_world (fst Cases.logged_in)
                                9000 "ABC123" Cases.visitor Cases.session_lee logged_in_eq
                                free_world_next_id 50000)
                         (proj1 (Z.leb_le 50000 86409000) eq_refl) eq_refl))
           (db Examples.free_world) eq_refl).
Defined.

(** ** The two validators *)

Section Validators.

Lemma unique_rows (d : Database) (code : string) :
  Invariants.codes_unique d ->
  Store.booths_by_code d code = []
  \/ exists b, Store.booths_by_code d code = [b].
Proof.
  intros Hu. specialize (Hu code).
  destruct (Store.booths_by_code d code) as [|b [|b' l]]; cbn in Hu.
  - left. reflexivity.
  - right. exists b. reflexivity.
  - lia.
Qed.

(** What validate_booth_code answers when it answers a row. *)
Lemma validate_answer (d d1 : Database) (now : Z) (code ip : string) (v : Sql.Validation) :
  Sql.validate_booth_code d now code ip = inr (d1, v) ->
  Sql.check_ip_attempts d now ip < 5 ->
  v = match Store.booths_by_code d code with
      | [] => Sql.mkValidation false None None "잘못된 부스 코드입니다."
      | b :: _ =>
          if Sql.expired now (b_code_expires_at b)
          then Sql.mkValidation false None None "만료된 부스 코드입니다."
          else if Sql.not_active (b_is_active b)
               then Sql.mkValidation false None None "비활성화된 부스입니다."
               else Sql.mkValidation true (Some (b_id b)) (Some (b_name b))
                                     "부스 코드 확인 완료"
      end.
Proof.
  intros Hv Hlow. unfold Sql.validate_booth_code in Hv.
  replace (5 <=? Sql.check_ip_attempts d now ip) with false in Hv
    by (symmetry; apply Z.leb_gt; exact Hlow).
  unfold Sql.log_attempt in Hv.
  destruct (Pg.varchar 6 code); [| destruct (Store.booths_by_code d code) as [|b l];
    [| destruct (Sql.expired _ _); [| destruct (Sql.not_active _)]]; discriminate].
  destruct (Pg.varchar 45 ip); [| destruct (Store.booths_by_code d code) as [|b l];
    [| destruct (Sql.expired _ _); [| destruct (Sql.not_active _)]]; discriminate].
  destruct (Store.booths_by_code d code) as [|b l]; [injection Hv as _ <-; reflexivity |].
  destruct (Sql.expired now (b_code_expires_at b)); [injection Hv as _ <-; reflexivity |].
  destruct (Sql.not_active (b_is_active b)); injection Hv as _ <-; reflexivity.
Qed.

End Validators.

(** X13.  The client-side [validateBoothCode] and the storage function
    [validate_booth_code] read the same booth row, with a client, codes
    held by at most one booth and a source address that is not blocked.
    When the storage function answers a row, the two give the same
    verdict, booth and name provided that the row's is_active is not NULL
    and that the two readings of code_expires_at agree; these agree in a
    browser that keeps UTC and for a code without expiry.  They differ on
    a row whose is_active is NULL and whose code has not expired: the
    storage function accepts the code ([NOT NULL] is not true), the client
    refuses it as inactive.  They differ inside the zone offset: the
    client reads code_expires_at as local time, so that east of UTC it
    answers "expired" for a code the storage function still accepts or
    calls inactive.  And where a column refuses the code or the address
    the storage function raises, while the client answers a verdict. *)
Theorem validators_agree (w : World) (now : Z) (code ip : string) :
  client w = true ->
  Invariants.codes_unique (db w) ->
  Sql.check_ip_attempts (db w) now ip < 5 ->
  (forall d1 v,
      Sql.validate_booth_code (db w) now code ip = inr (d1, v) ->
      ((forall b, In b (Store.booths_by_code (db w) code) ->
                  b_is_active b <> None
                  /\ BoothCode.expired (zone w) now (b_code_expires_at b)
                     = Sql.expired now (b_code_expires_at b)) ->
       match snd (BoothCode.validateBoothCode w now code) with
       | BoothCode.Valid id nm =>
           Sql.is_valid v = true /\ Sql.booth_id v = Some id /\ Sql.booth_name v = Some nm
       | BoothCode.WrongCode =>
           Sql.is_valid v = false /\ Sql.message v = "잘못된 부스 코드입니다."
       | BoothCode.ExpiredCode =>
           Sql.is_valid v = false /\ Sql.message v = "만료된 부스 코드입니다."
       | BoothCode.InactiveBooth =>
           Sql.is_valid v = false /\ Sql.message v = "비활성화된 부스입니다."
       | BoothCode.ValidationError => False
       end)
      /\ (forall b,
             In b (Store.booths_by_code (db w) code) ->
             b_is_active b = None ->
             BoothCode.expired (zone w) now (b_code_expires_at b) = false ->
             Sql.expired now (b_code_expires_at b) = false ->
             Sql.is_valid v = true /\ Sql.booth_id v = Some (b_id b)
             /\ snd (BoothCode.validateBoothCode w now code) = BoothCode.InactiveBooth)
      /\ (forall b expires,
             In b (Store.booths_by_code (db w) code) ->
             b_code_expires_at b = Some expires ->
             expires - zone w < now <= expires ->
             snd (BoothCode.validateBoothCode w now code) = BoothCode.ExpiredCode
             /\ Sql.message v <> "만료된 부스 코드입니다."))
  /\ (Pg.varchar 6 code = None \/ Pg.varchar 45 ip = None ->
      Sql.validate_booth_code (db w) now code ip = inl TextRefused
      /\ snd (BoothCode.validateBoothCode w now code) <> BoothCode.ValidationError)
  /\ (forall expires,
         expires = None \/ zone w = 0 ->
         BoothCode.expired (zone w) now expires = Sql.expired now expires).
Proof.
  intros Hc Hu Hlow. split; [| split].
  - intros d1 v Hv. rewrite (validate_answer (db w) d1 now code ip v Hv Hlow).
    unfold BoothCode.validateBoothCode. rewrite Hc.
    destruct (unique_rows (db w) code Hu) as [-> | [b ->]]; cbn [Store.single].
    { split; [intros _; split; reflexivity |].
      split; [intros b [] | intros b expires []]. }
    split; [| split].
    + intros Hnn. destruct (Hnn b (or_introl eq_refl)) as [Hact Hexp]. rewrite Hexp.
      destruct (Sql.expired now (b_code_expires_at b)); cbn;
        [split; reflexivity |].
      destruct (b_is_active b) as [[|]|]; cbn; try (repeat split; reflexivity).
      contradiction.
    + intros b' [<- | []] Hnull Hexp Hsql. rewrite Hexp, Hsql, Hnull. cbn. repeat split.
    + intros b' expires [<- | []] He Hwin.
      unfold BoothCode.expired, Sql.expired, Js.local_date. rewrite He.
      replace (expires - zone w <? now) with true by (symmetry; apply Z.ltb_lt; lia).
      replace (expires <? now) with false by (symmetry; apply Z.ltb_ge; lia).
      split; [reflexivity |].
      destruct (Sql.not_active (b_is_active b)); cbn; discriminate.
  - intros Href. split; [apply validate_raises; exact Href |].
    unfold BoothCode.validateBoothCode. rewrite Hc.
    destruct (Store.single _); [| discriminate].
    destruct (BoothCode.expired _ _ _); [discriminate |].
    destruct (BoothCode.not_active _); discriminate.
  - intros expires [-> | Hz]; [reflexivity |].
    unfold BoothCode.expired, Sql.expired, Js.local_date. rewrite Hz.
    destruct expires as [e|]; [| reflexivity]. rewrite Z.sub_0_r. reflexivity.
Qed.

Lemma validators_agree_witness :
  Sql.is_valid
    (Sql.mkValidation true (Some 3) (Some "Booth 3") "부스 코드 확인 완료") = true
  /\ Sql.validate_booth_code (db Cases.null_active_world) 9000 "GHI789" "10.0.0.9"
     = inr (Sql.record_attempt (db Cases.null_active_world)
              (mkAttempt "GHI789" "10.0.0.9" 9000 true (Some 3) None),
            Sql.mkValidation true (Some 3) (Some "Booth 3") "부스 코드 확인 완료")
  /\ snd (BoothCode.validateBoothCode Cases.null_active_world 9000 "GHI789")
     = BoothCode.InactiveBooth.
Proof.
  assert (Hu : Invariants.codes_unique (db Cases.null_active_world)).
  { intros c. unfold Store.booths_by_code. cbn [db booths Cases.null_active_world filter].
    destruct (Store.has_code c _); cbn; lia. }
  pose proof (proj1 (proj2 (proj1 (validators_agree Cases.null_active_world 9000 "GHI789"
                                     "10.0.0.9" eq_refl Hu (proj1 (Z.ltb_lt 0 5) eq_refl))
                              (Sql.record_attempt (db Cases.null_active_world)
                                 (mkAttempt "GHI789" "10.0.0.9" 9000 true (Some 3) None))
                              (Sql.mkValidation true (Some 3) (Some "Booth 3")
                                                "부스 코드 확인 완료")
                              eq_refl))
                (mkBooth 3 "Booth 3" (Some "GHI789") None None None)
                (or_introl eq_refl) eq_refl eq_refl eq_refl) as H.
  split; [exact (proj1 H) |]. split; [reflexivity | exact (proj2 (proj2 H))].
Defined.

(** ** Assigning and regenerating codes (booth-code.js) *)

Section Codes.

Lemma assign_Assigned_inv (w w' : World) (now : Z) (rnd : Js.Rng) (booth days : Z)
      (code : string) (expires : Z) :
  BoothCode.assignCodeToBooth w now rnd booth days = (w', BoothCode.Assigned code expires) ->
  client w = true
  /\ code = BoothCode.generateUniqueBoothCode w now rnd 10
  /\ expires = now + days * BoothCode.day
  /\ Pg.timestamp expires = true
  /\ BoothCode.update_code (db w) booth code expires = inr (db w')
  /\ w' = set_db w (db w').
Proof.
  unfold BoothCode.assignCodeToBooth.
  destruct (client w); [| discriminate].
  destruct (Pg.timestamp _) eqn:Ht; [| discriminate].
  destruct (BoothCode.update_code _ _ _ _) as [e|d] eqn:Hu; [discriminate |].
  intros [= <- <- <-]. repeat split; try reflexivity; assumption.
Qed.
(** The row an accepted update writes. *)
Lemma update_code_rows (d d' : Database) (booth : Z) (code : string) (expires : Z) :
  BoothCode.update_code d booth code expires = inr d' ->
  d' = Store.with_booths d
         (map (fun b => if b_id b =? booth
                        then mkBooth (b_id b) (b_name b) (Some code) (Some expires)
                                     (b_is_active b) (b_max_operators b)
                        else b) (booths d))
  /\ (existsb (fun b => b_id b =? booth) (booths d) = true ->
      forall x, In x (booths d) -> b_id x <> booth -> Store.has_code code x = false).
Proof.
  unfold BoothCode.update_code.
  destruct (existsb (fun b => Store.has_code code b && negb (b_id b =? booth)) (booths d))
    eqn:Hother; cbn [andb].
  - destruct (existsb (fun b => b_id b =? booth) (booths d)); [discriminate |].
    intros [= <-]. split; [reflexivity | discriminate].
  - intros [= <-]. split; [reflexivity |].
    intros _ x Hin Hid.
    destruct (Store.has_code code x) eqn:Hc; [| reflexivity].
    assert (Ht : existsb (fun b => Store.has_code code b && negb (b_id b =? booth)) (booths d)
                 = true).
    { apply existsb_exists. exists x. split; [exact Hin |].
      rewrite Hc. apply Z.eqb_neq in Hid. rewrite Hid. reflexivity. }
    congruence.
Qed.

Lemma rows_of_other_ids (bs : list Booth) (booth : Z) (f : Booth -> Booth) :
  filter (fun b => b_id b =? booth) bs = [] ->
  map (fun b => if b_id b =? booth then f b else b) bs = bs.
Proof.
  induction bs as [|x bs IH]; cbn; [reflexivity |].
  destruct (b_id x =? booth); [discriminate |].
  intros H. rewrite (IH H). reflexivity.
Qed.

Lemma by_code_after_update (bs : list Booth) (booth : Z) (code : string) (f : Booth -> Booth)
      (b : Booth) :
  (forall x, Store.has_code code (f x) = true) ->
  filter (fun x => b_id x =? booth) bs = [b] ->
  (forall x, In x bs -> b_id x <> booth -> Store.has_code code x = false) ->
  filter (Store.has_code code) (map (fun x => if b_id x =? booth then f x else x) bs)
  = [f b].
Proof.
  intros Hf. induction bs as [|x bs IH]; cbn; [discriminate |].
  destruct (b_id x =? booth) eqn:Hid.
  - intros [= -> Hrest] Hother. rewrite Hf.
    rewrite (rows_of_other_ids bs booth f Hrest). f_equal.
    apply filter_none. apply not_true_is_false. intros Hex.
    apply existsb_exists in Hex. destruct Hex as (y & Hy & Hc).
    rewrite Hother in Hc; [discriminate | now right |].
    intros Heq. apply Z.eqb_eq in Heq.
    assert (Hin : In y (filter (fun x => b_id x =? booth) bs))
      by (apply filter_In; split; assumption).
    rewrite Hrest in Hin. exact Hin.
  - intros Hrows Hother.
    rewrite (Hother x (or_introl eq_refl)) by (apply Z.eqb_neq; exact Hid).
    apply IH; [exact Hrows |]. intros y Hy. apply Hother. now right.
Qed.

Lemma db_unchanged (w : World) :
  set_db w (Store.with_booths (db w) (booths (db w))) = w.
Proof. destruct w as [c [bs ops ss cs ps n m st] l z]. reflexivity. Qed.

End Codes.

(** X14.  A code that [assignCodeToBooth] reports as assigned has its
    expiry written [expiryDays] days after the call, as UTC text in a
    TIMESTAMP without zone.  When one booth has the id, the code then
    names that booth: [validateBoothCode], which reads the text as local
    time, answers as the booth's is_active says until the expiry less the
    offset of the browser's zone from UTC, and "expired" after that; in a
    browser that keeps UTC this is the expiry written, east of UTC it is
    earlier by the offset.  When no booth has the id the update matches no
    row, which is no error: success is reported and the world is the one
    found. *)
Theorem assigned_code_validates (w w' : World) (now : Z) (rnd : Js.Rng) (booth days : Z)
        (code : string) (expires : Z) :
  BoothCode.assignCodeToBooth w now rnd booth days = (w', BoothCode.Assigned code expires) ->
  expires = now + days * BoothCode.day
  /\ (forall b,
         Store.booths_by_id (db w) booth = [b] ->
         forall now',
           snd (BoothCode.validateBoothCode w' now' code)
           = if expires - zone w <? now' then BoothCode.ExpiredCode
             else if BoothCode.not_active (b_is_active b) then BoothCode.InactiveBooth
                  else BoothCode.Valid booth (b_name b))
  /\ (forall b,
         Store.booths_by_id (db w) booth = [b] ->
         zone w = 0 ->
         forall now',
           snd (BoothCode.validateBoothCode w' now' code) = BoothCode.ExpiredCode
           <-> expires < now')
  /\ (Store.booths_by_id (db w) booth = [] -> w' = w).
Proof.
  intros Ha.
  destruct (assign_Assigned_inv w w' now rnd booth days code expires Ha)
    as (Hc & _ & He & _ & Hu & Hw').
  destruct (update_code_rows (db w) (db w') booth code expires Hu) as (Hd & Hother).
  assert (Hread : forall b,
             Store.booths_by_id (db w) booth = [b] ->
             forall now',
               snd (BoothCode.validateBoothCode w' now' code)
               = if expires - zone w <? now' then BoothCode.ExpiredCode
                 else if BoothCode.not_active (b_is_active b) then BoothCode.InactiveBooth
                      else BoothCode.Valid booth (b_name b)).
  { intros b Hb now'.
    assert (Hex : existsb (fun x => b_id x =? booth) (booths (db w)) = true)
      by (apply (filter_nonempty_existsb _ _ b []); exact Hb).
    assert (Hid : b_id b = booth).
    { assert (Hin : In b (Store.booths_by_id (db w) booth)) by (rewrite Hb; now left).
      apply filter_In in Hin. apply Z.eqb_eq, Hin. }
    unfold BoothCode.validateBoothCode.
    replace (client w') with true by (rewrite Hw'; symmetry; exact Hc).
    replace (zone w') with (zone w) by (rewrite Hw'; reflexivity).
    unfold Store.booths_by_code. rewrite Hd. cbn [booths Store.with_booths].
    rewrite (by_code_after_update (booths (db w)) booth code
               (fun x => mkBooth (b_id x) (b_name x) (Some code) (Some expires)
                                 (b_is_active x) (b_max_operators x)) b).
    + cbn [Store.single b_code_expires_at b_is_active b_id b_name BoothCode.expired].
      rewrite Hid. unfold Js.local_date.
      destruct (expires - zone w <? now'); [reflexivity |].
      destruct (BoothCode.not_active (b_is_active b)); reflexivity.
    + intros x. unfold Store.has_code. cbn. apply String.eqb_refl.
    + exact Hb.
    + exact (Hother Hex). }
  split; [exact He |]. split; [exact Hread |]. split.
  - intros b Hb Hz now'. rewrite (Hread b Hb now'), Hz, Z.sub_0_r.
    destruct (expires <? now') eqn:Hcmp.
    + apply Z.ltb_lt in Hcmp. split; [intros _; exact Hcmp | reflexivity].
    + apply Z.ltb_ge in Hcmp.
      split; [destruct (BoothCode.not_active (b_is_active b)); discriminate | lia].
  - intros Hnone. rewrite Hw', Hd.
    rewrite (rows_of_other_ids (booths (db w)) booth _ Hnone).
    apply db_unchanged.
Qed.

Lemma assigned_code_validates_witness :
  snd (BoothCode.validateBoothCode
         (fst (BoothCode.assignCodeToBooth Examples.free_world 9000 Examples.zero_rng 2 30))
         10000 "AAA000")
  = BoothCode.Valid 2 "진로 체험 부스"
  /\ snd (BoothCode.validateBoothCode
            (fst (BoothCode.assignCodeToBooth (Cases.in_zone Examples.free_world Cases.seoul)
                    9000 Examples.zero_rng 2 30))
            2560000000 "AAA000")
     = BoothCode.ExpiredCode.
Proof.
  assert (Ha : BoothCode.assignCodeToBooth Examples.free_world 9000 Examples.zero_rng 2 30
               = (fst (BoothCode.assignCodeToBooth Examples.free_world 9000
                         Examples.zero_rng 2 30),
                  BoothCode.Assigned "AAA000" 2592009000))
    by (vm_compute; reflexivity).
  assert (Hs : BoothCode.assignCodeToBooth (Cases.in_zone Examples.free_world Cases.seoul)
                 9000 Examples.zero_rng 2 30
               = (fst (BoothCode.assignCodeToBooth
                         (Cases.in_zone Examples.free_world Cases.seoul) 9000
                         Examples.zero_rng 2 30),
                  BoothCode.Assigned "AAA000" 2592009000))
    by (vm_compute; reflexivity).
  split.
  - exact (proj1 (proj2 (assigned_code_validates _ _ 9000 Examples.zero_rng 2 30 "AAA000"
                           2592009000 Ha))
             (mkBooth 2 "진로 체험 부스" (Some "DEF456") None (Some true) None) eq_refl
             10000).
  - exact (proj1 (proj2 (assigned_code_validates _ _ 9000 Examples.zero_rng 2 30 "AAA000"
                           2592009000 Hs))
             (mkBooth 2 "진로 체험 부스" (Some "DEF456") None (Some true) None) eq_refl
             2560000000).
Defined.

Section Regeneration.

Variable booth : Z.
Variable F : Booth -> Booth.
Hypothesis F_id : forall x, b_id (F x) = b_id x.

Lemma rewritten_rows (bs : list Booth) (b : Booth) :
  In b (filter (fun x => b_id x =? booth)
          (map (fun x => if b_id x =? booth then F x else x) bs)) ->
  exists x, In x bs /\ b = F x.
Proof.
  intros Hin. apply filter_In in Hin. destruct Hin as [Hin Hid].
  apply in_map_iff in Hin. destruct Hin as (x & Hx & Hin).
  exists x. split; [exact Hin |].
  destruct (b_id x =? booth) eqn:Hxid; [symmetry; exact Hx |].
  subst b. congruence.
Qed.

Lemma other_rows_kept (bs : list Booth) :
  filter (fun x => negb (b_id x =? booth))
    (map (fun x => if b_id x =? booth then F x else x) bs)
  = filter (fun x => negb (b_id x =? booth)) bs.
Proof.
  induction bs as [|x bs IH]; cbn; [reflexivity |].
  destruct (b_id x =? booth) eqn:Hid.
  - rewrite F_id, Hid. cbn. exact IH.
  - rewrite Hid. cbn. rewrite IH. reflexivity.
Qed.

Lemma ids_kept (bs : list Booth) :
  map b_id (map (fun x => if b_id x =? booth then F x else x) bs) = map b_id bs.
Proof.
  induction bs as [|x bs IH]; cbn; [reflexivity |].
  rewrite IH. destruct (b_id x =? booth); [rewrite F_id |]; reflexivity.
Qed.

End Regeneration.


(** X15.  [regenerateBoothCode] clears the booth's code before it assigns a
    new one.  When the assignment is refused (the code drawn is held by
    another booth) the booth is left with no code and no expiry: the old
    code is lost.  When it succeeds the booth holds the new code, expiring
    [expiryDays] days after the call.  Either way the other booths are as
    before. *)
Theorem regenerate_replaces_code (w : World) (now : Z) (rnd : Js.Rng) (booth days : Z) :
  client w = true ->
  let r := BoothCode.regenerateBoothCode w now rnd booth days in
  (forall b,
      In b (Store.booths_by_id (db (fst r)) booth) ->
      match snd r with
      | BoothCode.Assigned code expires =>
          expires = now + days * BoothCode.day
          /\ b_booth_code b = Some code /\ b_code_expires_at b = Some expires
      | BoothCode.AssignFailed _ =>
          b_booth_code b = None /\ b_code_expires_at b = None
      end)
  /\ filter (fun b => negb (b_id b =? booth)) (booths (db (fst r)))
     = filter (fun b => negb (b_id b =? booth)) (booths (db w))
  /\ map b_id (booths (db (fst r))) = map b_id (booths (db w)).
Proof.
  intros Hc r. unfold r, BoothCode.regenerateBoothCode. rewrite Hc.
  unfold BoothCode.assignCodeToBooth. cbn [client set_db db].
  rewrite Hc.
  set (cleared := BoothCode.clear_code (db w) booth).
  set (code := BoothCode.generateUniqueBoothCode _ now rnd 10).
  set (clear := fun b : Booth => mkBooth (b_id b) (b_name b) None None
                                         (b_is_active b) (b_max_operators b)).
  assert (Hclear : forall x, b_id (clear x) = b_id x) by reflexivity.
  assert (Hfailed : forall e : PgError,
             (forall b,
                 In b (Store.booths_by_id cleared booth) ->
                 match BoothCode.AssignFailed e with
                 | BoothCode.Assigned code0 expires =>
                     expires = now + days * BoothCode.day
                     /\ b_booth_code b = Some code0 /\ b_code_expires_at b = Some expires
                 | BoothCode.AssignFailed _ =>
                     b_booth_code b = None /\ b_code_expires_at b = None
                 end)
             /\ filter (fun b => negb (b_id b =? booth)) (booths cleared)
                = filter (fun b => negb (b_id b =? booth)) (booths (db w))
             /\ map b_id (booths cleared) = map b_id (booths (db w))).
  { intros e. unfold cleared, BoothCode.clear_code. cbn [booths Store.with_booths].
    split; [| split].
    + intros b Hin. unfold Store.booths_by_id in Hin. cbn [booths] in Hin.
      destruct (rewritten_rows booth clear _ _ Hin) as (x & _ & ->).
      split; reflexivity.
    + apply (other_rows_kept booth clear Hclear).
    + apply (ids_kept booth clear Hclear). }
  destruct (Pg.timestamp (now + days * BoothCode.day)).
  2:{ cbn [fst snd db set_db]. exact (Hfailed InvalidDate). }
  destruct (BoothCode.update_code cleared booth code (now + days * BoothCode.day))
    as [e|d'] eqn:Hu.
  { cbn [fst snd db set_db]. exact (Hfailed e). }
  cbn [fst snd db set_db].
  destruct (update_code_rows cleared d' booth code _ Hu) as (-> & _).
  set (upd := fun b : Booth => mkBooth (b_id b) (b_name b) (Some code)
                                       (Some (now + days * BoothCode.day))
                                       (b_is_active b) (b_max_operators b)).
  assert (Hupd : forall x, b_id (upd x) = b_id x) by reflexivity.
  unfold cleared, BoothCode.clear_code. cbn [booths Store.with_booths].
  split; [| split].
  + intros b Hin. unfold Store.booths_by_id in Hin. cbn [booths] in Hin.
    destruct (rewritten_rows booth upd _ _ Hin) as (x & _ & ->).
    repeat split.
  + rewrite (other_rows_kept booth upd Hupd). apply (other_rows_kept booth clear Hclear).
  + rewrite (ids_kept booth upd Hupd). apply (ids_kept booth clear Hclear).
Qed.

Lemma regenerate_replaces_code_witness :
  snd (BoothCode.regenerateBoothCode Cases.three_codes_world Examples.migration_day
         Examples.zero_rng 3 30)
  = BoothCode.AssignFailed UniqueViolation
  /\ map b_booth_code
       (Store.booths_by_id
          (db (fst (BoothCode.regenerateBoothCode Cases.three_codes_world
                      Examples.migration_day Examples.zero_rng 3 30))) 3)
     = [None]
  /\ map b_id
       (booths (db (fst (BoothCode.regenerateBoothCode Cases.three_codes_world
                           Examples.migration_day Examples.zero_rng 3 30))))
     = map b_id (booths (db Cases.three_codes_world)).
Proof.
  split; [vm_compute; reflexivity |]. split; [vm_compute; reflexivity |].
  exact (proj2 (proj2 (regenerate_replaces_code Cases.three_codes_world
                         Examples.migration_day Examples.zero_rng 3 30 eq_refl))).
Defined.


(** ** The clean-up job *)

Section Cleanup.

Lemma filter_implied {A} (f g : A -> bool) (l : list A) :
  (forall x, f x = true -> g x = true) ->
  filter f (filter g l) = filter f l.
Proof.
  intros Himp. induction l as [|x l IH]; cbn; [reflexivity |].
  destruct (f x) eqn:Hf.
  - rewrite (Himp x Hf). cbn. rewrite Hf, IH. reflexivity.
  - destruct (g x); cbn; [rewrite Hf |]; exact IH.
Qed.

Lemma filter_swap {A} (f g : A -> bool) (l : list A) :
  filter f (filter g l) = filter g (filter f l).
Proof.
  induction l as [|x l IH]; cbn; [reflexivity |].
  destruct (f x) eqn:Hf, (g x) eqn:Hg; cbn; rewrite ?Hf, ?Hg, IH; reflexivity.
Qed.

Lemma cleanup_keeps_count (d : Database) (now now' : Z) (ip : string) :
  now <= now' ->
  Sql.check_ip_attempts (Sql.cleanup_expired_sessions d now) now' ip
  = Sql.check_ip_attempts d now' ip.
Proof.
  intros Hle. unfold Sql.check_ip_attempts, Sql.cleanup_expired_sessions.
  cbn [code_attempts]. rewrite filter_implied; [reflexivity |].
  intros a Ha. unfold Sql.counts_against in Ha.
  apply andb_prop in Ha. destruct Ha as [Ha _].
  apply andb_prop in Ha. destruct Ha as [_ Ha].
  apply Z.ltb_lt in Ha. apply negb_true_iff, Z.ltb_ge.
  unfold Sql.one_hour, Sql.seven_days in *. lia.
Qed.

(** The answer of [getCurrentOperation] with a store, by the sessions
    that hold the token. *)
Lemma current_by_sessions (w : World) (now : Z) (t : string) (d : Database) :
  SupabaseClient.getSupabase w = Some d ->
  Js.truthy (Some t) = true ->
  snd (BoothOperationJs.getCurrentOperation w now (Some t))
  = match Store.single (Store.sessions_by_token d t) with
    | None => BoothOperationJs.CurrentFailed BoothOperationJs.UnknownSession
    | Some s =>
        if s_expires_at s - zone w <? now
        then BoothOperationJs.CurrentFailed BoothOperationJs.ExpiredSession
        else BoothOperationJs.Current (BoothOperationJs.joined_operation d s) s
    end.
Proof.
  intros Hs Ht. unfold BoothOperationJs.getCurrentOperation.
  rewrite Ht. cbn [negb]. rewrite Ht. cbn [negb]. rewrite Hs.
  destruct (Store.single _) as [s|]; [| reflexivity].
  unfold Js.local_date. destruct (s_expires_at s - zone w <? now); reflexivity.
Qed.

End Cleanup.

(** X16.  [cleanup_expired_sessions] and the functions that read the tables
    it prunes.  From the time of the clean-up on, the rate limiter counts
    the same attempts for every address (the rows removed are seven days
    old, the limiter looks back one hour) and [validate_booth_code] gives
    the same answers.  Sessions holding distinct tokens,
    [getCurrentOperation] answers as before except for a session the job
    has deleted, which is now unknown.  The job compares expires_at with
    the clock of the store, the browser reads it as local time: in a
    browser on or east of UTC a deleted session was answered "expired"
    before; west of UTC it may have been answered as valid. *)
Theorem cleanup_keeps_answers (w : World) (now : Z) :
  let d' := Sql.cleanup_expired_sessions (db w) now in
  (forall now' ip,
      now <= now' -> Sql.check_ip_attempts d' now' ip = Sql.check_ip_attempts (db w) now' ip)
  /\ (forall now' code ip,
         now <= now' ->
         Sql.answered (Sql.validate_booth_code d' now' code ip)
         = Sql.answered (Sql.validate_booth_code (db w) now' code ip))
  /\ (Invariants.tokens_unique (db w) ->
      forall now' token,
        now <= now' ->
        let before := snd (BoothOperationJs.getCurrentOperation w now' token) in
        let after := snd (BoothOperationJs.getCurrentOperation (set_db w d') now' token) in
        after = before
        \/ (after = BoothOperationJs.CurrentFailed BoothOperationJs.UnknownSession
            /\ (before = BoothOperationJs.CurrentFailed BoothOperationJs.ExpiredSession
                \/ (zone w < 0
                    /\ exists operation session,
                        before = BoothOperationJs.Current operation session
                        /\ s_expires_at session < now))))
  /\ (forall now' t s,
         SupabaseClient.getSupabase w = Some (db w) ->
         t <> "" ->
         Store.sessions_by_token (db w) t = [s] ->
         s_expires_at s < now ->
         now <= now' ->
         Store.sessions_by_token d' t = []
         /\ snd (BoothOperationJs.getCurrentOperation (set_db w d') now' (Some t))
            = BoothOperationJs.CurrentFailed BoothOperationJs.UnknownSession
         /\ (0 <= zone w ->
             snd (BoothOperationJs.getCurrentOperation w now' (Some t))
             = BoothOperationJs.CurrentFailed BoothOperationJs.ExpiredSession)
         /\ (now' <= s_expires_at s - zone w ->
             snd (BoothOperationJs.getCurrentOperation w now' (Some t))
             = BoothOperationJs.Current (BoothOperationJs.joined_operation (db w) s) s)).
Proof.
  intros d'. split; [| split; [| split]].
  - intros now' ip Hle. apply cleanup_keeps_count, Hle.
  - intros now' code ip Hle. unfold Sql.validate_booth_code.
    unfold d'. rewrite (cleanup_keeps_count (db w) now now' ip Hle).
    change (Store.booths_by_code (Sql.cleanup_expired_sessions (db w) now) code)
      with (Store.booths_by_code (db w) code).
    unfold Sql.log_attempt.
    destruct (Pg.varchar 6 code);
      [| destruct (5 <=? _); [reflexivity |];
         destruct (Store.booths_by_code (db w) code) as [|b l]; [reflexivity |];
         destruct (Sql.expired now' (b_code_expires_at b)); [reflexivity |];
         destruct (Sql.not_active (b_is_active b)); reflexivity].
    destruct (Pg.varchar 45 ip);
      destruct (5 <=? _); try reflexivity;
      destruct (Store.booths_by_code (db w) code) as [|b l]; try reflexivity;
      destruct (Sql.expired now' (b_code_expires_at b)); try reflexivity;
      destruct (Sql.not_active (b_is_active b)); reflexivity.
  - intros Hu now' token Hle before after. unfold before, after.
    unfold BoothOperationJs.getCurrentOperation.
    cbn [local set_db zone].
    destruct (if Js.truthy token then token else ls_session_token (local w)) as [t|];
      [| left; reflexivity].
    destruct (negb (Js.truthy (Some t))); [left; reflexivity |].
    unfold SupabaseClient.getSupabase, SupabaseClient.isInMockMode.
    cbn [local client db set_db].
    destruct (match ls_useMockMode (local w) with
              | Some v => (v =? "true")%string
              | None => false
              end);
      [left; destruct (ls_current_operation (local w)); reflexivity |].
    destruct (client w);
      [| left; destruct (ls_current_operation (local w)); reflexivity].
    specialize (Hu t). unfold Store.sessions_by_token in *.
    unfold d', Sql.cleanup_expired_sessions. cbn [operator_sessions].
    rewrite filter_swap.
    destruct (filter (fun s => (s_session_token s =? t)%string) (operator_sessions (db w)))
      as [|s [|s' l]]; cbn in Hu; [left; reflexivity | | lia].
    cbn [filter]. destruct (s_expires_at s <? now) eqn:Hold; cbn [negb Store.single].
    + right. apply Z.ltb_lt in Hold. split; [reflexivity |].
      unfold Js.local_date.
      destruct (s_expires_at s - zone w <? now') eqn:Hread; cbn [snd].
      * left. reflexivity.
      * right. apply Z.ltb_ge in Hread. split; [lia |].
        do 2 eexists. split; [reflexivity | exact Hold].
    + left. destruct (Js.local_date (zone w) (s_expires_at s) <? now'); reflexivity.
  - intros now' t s Hs Ht Hone Hold Hle.
    assert (Htr : Js.truthy (Some t) = true).
    { unfold Js.truthy. apply String.eqb_neq in Ht. rewrite Ht. reflexivity. }
    assert (Hgone : Store.sessions_by_token d' t = []).
    { unfold Store.sessions_by_token in *. unfold d', Sql.cleanup_expired_sessions.
      cbn [operator_sessions]. rewrite filter_swap, Hone. cbn.
      apply Z.ltb_lt in Hold. rewrite Hold. reflexivity. }
    assert (Hs' : SupabaseClient.getSupabase (set_db w d') = Some d').
    { apply (getSupabase_kept w (set_db w d') (db w) Hs); reflexivity. }
    split; [exact Hgone |]. split.
    + rewrite (current_by_sessions (set_db w d') now' t d' Hs' Htr), Hgone. reflexivity.
    + rewrite (current_by_sessions w now' t (db w) Hs Htr), Hone. cbn [Store.single].
      split; intros Hz.
      * replace (s_expires_at s - zone w <? now') with true
          by (symmetry; apply Z.ltb_lt; lia).
        reflexivity.
      * replace (s_expires_at s - zone w <? now') with false
          by (symmetry; apply Z.ltb_ge; lia).
        reflexivity.
Qed.

Lemma cleanup_keeps_answers_witness :
  Store.sessions_by_token (Sql.cleanup_expired_sessions (db Examples.busy_world) 200000)
    "tok" = []
  /\ snd (BoothOperationJs.getCurrentOperation
            (set_db Examples.busy_world
               (Sql.cleanup_expired_sessions (db Examples.busy_world) 200000))
            200000 (Some "tok"))
     = BoothOperationJs.CurrentFailed BoothOperationJs.UnknownSession
  /\ snd (BoothOperationJs.getCurrentOperation Examples.busy_world 200000 (Some "tok"))
     = BoothOperationJs.CurrentFailed BoothOperationJs.ExpiredSession
  /\ snd (BoothOperationJs.getCurrentOperation
            (Cases.in_zone Examples.busy_world (- Cases.seoul)) 200000 (Some "tok"))
     = BoothOperationJs.Current (Some Examples.running) Examples.session_of_7.
Proof.
  pose proof (proj2 (proj2 (proj2 (cleanup_keeps_answers Examples.busy_world 200000)))
                200000 "tok" Examples.session_of_7 eq_refl ltac:(discriminate) eq_refl
                (proj1 (Z.ltb_lt 99999 200000) eq_refl) (Z.le_refl _))
    as (H1 & H2 & H3 & _).
  pose proof (proj2 (proj2 (proj2
                (cleanup_keeps_answers (Cases.in_zone Examples.busy_world (- Cases.seoul))
                   200000)))
                200000 "tok" Examples.session_of_7 eq_refl ltac:(discriminate) eq_refl
                (proj1 (Z.ltb_lt 99999 200000) eq_refl) (Z.le_refl _))
    as (_ & _ & _ & H4).
  split; [exact H1 |]. split; [exact H2 |].
  split; [apply H3; apply Z.leb_le; reflexivity |].
  apply H4. apply Z.leb_le. reflexivity.
Defined.

(** ** One operator per booth (booth-code.js, operator-auth.js) *)

Section OneOperator.

(** A rewrite of the rows that only closes operations does not raise the
    number of active operations of a booth. *)
Lemma closing_lowers (b : Z) (g : BoothOperation -> BoothOperation)
      (ops : list BoothOperation) :
  (forall o, Store.is_active_of b (g o) = true -> Store.is_active_of b o = true) ->
  (List.length (filter (Store.is_active_of b) (map g ops))
   <= List.length (filter (Store.is_active_of b) ops))%nat.
Proof.
  intros Hg. induction ops as [|o ops IH]; cbn; [lia |].
  destruct (Store.is_active_of b (g o)) eqn:Ha.
  - rewrite (Hg o Ha). cbn. lia.
  - destruct (Store.is_active_of b o); cbn; lia.
Qed.

Lemma close_row_closes (now booth b : Z) (o : BoothOperation) :
  Store.is_active_of b (BoothCode.close_row now booth o) = true ->
  Store.is_active_of b o = true.
Proof.
  unfold BoothCode.close_row. destruct (Store.is_active_of booth o); [| auto].
  unfold Store.is_active_of. cbn. rewrite andb_false_r. discriminate.
Qed.

Lemma end_row_closes (now id b : Z) (o : BoothOperation) :
  Store.is_active_of b (BoothCode.end_row now id o) = true ->
  Store.is_active_of b o = true.
Proof.
  unfold BoothCode.end_row. destruct (op_id o =? id); [| auto].
  unfold Store.is_active_of. cbn. rewrite andb_false_r. discriminate.
Qed.

(** Step 2 of the start does not raise the number of active operations
    of any booth. *)
Lemma after_closing_lowers (d : Database) (now booth b : Z) :
  (List.length (Store.active_operations (BoothCode.after_closing d now booth) b)
   <= List.length (Store.active_operations d b))%nat.
Proof.
  pose proof (after_closing_rows d now booth) as (Hrows & _).
  unfold Store.active_operations.
  destruct (BoothCode.close_active d now booth) as [e|d1].
  - rewrite Hrows. lia.
  - rewrite Hrows. apply closing_lowers, close_row_closes.
Qed.

(** The rows of booth-code's start, whatever it answers: those of step 2
    and at most one more, an active operation of the booth of the code. *)
Lemma code_start_rows (w : World) (now : Z) (code : string) (info : OperatorInfo)
      (booth : Z) (boothName : string) :
  snd (BoothCode.validateBoothCode w now code) = BoothCode.Valid booth boothName ->
  exists added,
    booth_operations (db (fst (BoothCode.startBoothOperation w now code info)))
    = (booth_operations (BoothCode.after_closing (db w) now booth) ++ added)%list
    /\ (List.length added <= 1)%nat
    /\ (forall o, In o added -> op_booth_id o = booth /\ op_is_active o = true).
Proof.
  intros Hv. unfold BoothCode.startBoothOperation. rewrite Hv.
  destruct (Store.insert_operation _ _ _ _ _ _ _ _) as [d2 [e|row]] eqn:Hi;
    apply insert_operation_cases in Hi.
  - exists []. cbn. rewrite app_nil_r.
    split; [destruct Hi as [[-> _] | [-> _]]; reflexivity |].
    split; [lia | intros o' []].
  - destruct Hi as (-> & _ & Hb & _ & _ & Ha & _). exists [row]. cbn.
    split; [reflexivity |]. split; [lia |].
    intros o' [<- | []]. split; assumption.
Qed.

Lemma code_start_keeps_one (w : World) (now : Z) (code : string) (info : OperatorInfo) :
  (forall booth boothName,
      snd (BoothCode.validateBoothCode w now code) = BoothCode.Valid booth boothName ->
      exists d1, BoothCode.close_active (db w) now booth = inr d1) ->
  Invariants.one_operator_per_booth (db w) ->
  Invariants.one_operator_per_booth (db (fst (BoothCode.startBoothOperation w now code info))).
Proof.
  intros Hclose Hinv.
  destruct (snd (BoothCode.validateBoothCode w now code)) as [booth boothName| | | |] eqn:Hv;
    try (unfold BoothCode.startBoothOperation; rewrite Hv; exact Hinv).
  destruct (Hclose booth boothName eq_refl) as (d1 & Hc).
  destruct (code_start_rows w now code info booth boothName Hv)
    as (added & Hrows & Hlen & Hadded).
  intros b. unfold Store.active_operations. rewrite Hrows, filter_app, length_app.
  pose proof (after_closing_lowers (db w) now booth b) as Hle.
  unfold Store.active_operations in Hle.
  destruct (Z.eq_dec booth b) as [<- | Hne].
  - pose proof (after_closing_rows (db w) now booth) as (Hr & _).
    rewrite Hc in Hr. rewrite Hr, active_after_close. cbn [List.length].
    pose proof (filter_length_le (Store.is_active_of booth) added). lia.
  - assert (Hnone : filter (Store.is_active_of b) added = []).
    { apply filter_none. apply not_true_is_false. intros Hex.
      apply existsb_exists in Hex. destruct Hex as (o & Hin & Ha).
      destruct (Hadded o Hin) as [Hb _]. unfold Store.is_active_of in Ha.
      apply andb_true_iff in Ha. destruct Ha as [Ha _]. apply Z.eqb_eq in Ha. lia. }
    rewrite Hnone. cbn [List.length]. specialize (Hinv b).
    unfold Store.active_operations in Hinv. lia.
Qed.

Lemma code_end_keeps_one (w : World) (now id : Z) :
  Invariants.one_operator_per_booth (db w) ->
  Invariants.one_operator_per_booth (db (fst (BoothCode.endBoothOperation w now id))).
Proof.
  intros Hinv. destruct (code_end_cases w now id) as [(_ & Hrows & _) | ->];
    [| exact Hinv].
  intros b. unfold Store.active_operations. rewrite Hrows.
  pose proof (closing_lowers b (BoothCode.end_row now id) (booth_operations (db w))
                (end_row_closes now id b)) as Hle.
  specialize (Hinv b). unfold Store.active_operations in Hinv. lia.
Qed.

Lemma session_read_keeps_db (w : World) (now : Z) :
  db (fst (OperatorAuth.getOperatorSession w now)) = db w.
Proof.
  unfold OperatorAuth.getOperatorSession.
  destruct (ls_operator_session (local w)) as [[|s]|]; try reflexivity.
  destruct (OperatorAuth.expired now s); reflexivity.
Qed.

(** The store that a login leaves is the one its start leaves. *)
Lemma login_db (w : World) (now : Z) (code : string) (info : OperatorInfo) :
  db (fst (OperatorAuth.operatorLogin w now code info)) = db w
  \/ exists nm,
      name info = Some nm
      /\ db (fst (OperatorAuth.operatorLogin w now code info))
         = db (fst (BoothCode.startBoothOperation w now code
                      (mkInfo (Some (Js.trim nm)) (OperatorAuth.trimmed_phone info)
                              None None None None))).
Proof.
  unfold OperatorAuth.operatorLogin.
  destruct ((code =? "")%string || negb (Js.length16 code =? 6)%nat); [left; reflexivity |].
  destruct (name info) as [nm|]; [| left; reflexivity].
  destruct ((nm =? "")%string || (Js.trim nm =? "")%string); [left; reflexivity |].
  right. exists nm. split; [reflexivity |].
  destruct (BoothCode.startBoothOperation w now code _) as [w1 [id booth boothName|v|e]];
    reflexivity.
Qed.

End OneOperator.

(** X17.  The code-based flow and the invariant that every booth has one
    active operation at most.  [endBoothOperation] of booth-code.js and
    [operatorLogout] preserve it, whatever their arguments and outcome.
    [startBoothOperation] of booth-code.js and [operatorLogin] preserve it
    when the code is refused and when the update closing the booth's
    running operations is carried out.  When the daily-statistics trigger
    aborts that update (an operation open for 1000 hours or more), a start
    that inserts leaves the booth with one active operation more than it
    had, which breaks the invariant.  Under the invariant
    [getActiveOperation], whose query asks for a single row, answers null
    only for a booth that has no active operation. *)
Theorem code_flow_keeps_one_operator (w : World) (now : Z) :
  Invariants.one_operator_per_booth (db w) ->
  (forall code info,
      (forall booth boothName,
          snd (BoothCode.validateBoothCode w now code) = BoothCode.Valid booth boothName ->
          exists d1, BoothCode.close_active (db w) now booth = inr d1) ->
      Invariants.one_operator_per_booth
        (db (fst (BoothCode.startBoothOperation w now code info)))
      /\ Invariants.one_operator_per_booth
           (db (fst (OperatorAuth.operatorLogin w now code info))))
  /\ (forall code info booth boothName nm e,
         snd (BoothCode.validateBoothCode w now code) = BoothCode.Valid booth boothName ->
         name info = Some nm ->
         BoothCode.storable info = true ->
         BoothCode.close_active (db w) now booth = inl e ->
         List.length
           (Store.active_operations
              (db (fst (BoothCode.startBoothOperation w now code info))) booth)
         = S (List.length (Store.active_operations (db w) booth))
         /\ Store.active_operations (db w) booth <> [])
  /\ (forall id,
         Invariants.one_operator_per_booth (db (fst (BoothCode.endBoothOperation w now id))))
  /\ Invariants.one_operator_per_booth (db (OperatorAuth.operatorLogout w now))
  /\ (forall booth,
         client w = true ->
         BoothCode.getActiveOperation w booth = None ->
         Store.active_operations (db w) booth = []).
Proof.
  intros Hinv. split; [| split; [| split; [| split]]].
  - intros code info Hclose.
    split; [apply code_start_keeps_one; assumption |].
    destruct (login_db w now code info) as [-> | (nm & _ & ->)]; [exact Hinv |].
    apply code_start_keeps_one; assumption.
  - intros code info booth boothName nm e Hv Hn Hst Hc.
    rewrite (code_start_valid w now code info booth boothName nm Hv Hn Hst).
    cbn [fst db set_db]. unfold Store.active_operations at 1.
    cbn [booth_operations Store.with_operations].
    pose proof (active_after_start (db w) now booth
                  (Rows.code_started (db w) now booth nm (Js.or_null (phone info)))
                  eq_refl eq_refl) as Hact.
    rewrite Hc in Hact. rewrite Hact, length_app. cbn [List.length].
    split; [lia |].
    intros Hnone. rewrite (close_active_idle (db w) now booth Hnone) in Hc. discriminate.
  - intros id. apply code_end_keeps_one, Hinv.
  - unfold OperatorAuth.operatorLogout.
    pose proof (session_read_keeps_db w now) as Hdb.
    destruct (OperatorAuth.getOperatorSession w now) as [w1 [s|]]; cbn [fst] in Hdb.
    + destruct (operationId s =? 0).
      * cbn [db OperatorAuth.clearOperatorSession set_local]. rewrite Hdb. exact Hinv.
      * change (db (OperatorAuth.clearOperatorSession
                      (fst (BoothCode.endBoothOperation w1 now (operationId s)))))
          with (db (fst (BoothCode.endBoothOperation w1 now (operationId s)))).
        apply code_end_keeps_one. rewrite Hdb. exact Hinv.
    + cbn [db OperatorAuth.clearOperatorSession set_local]. rewrite Hdb. exact Hinv.
  - intros booth Hc. unfold BoothCode.getActiveOperation. rewrite Hc.
    specialize (Hinv booth).
    destruct (Store.active_operations (db w) booth) as [|o [|o' l]]; cbn in *;
      [reflexivity | discriminate | lia].
Qed.

Section BusyBooth.

Lemma busy_world_one : Invariants.one_operator_per_booth (db Examples.busy_world).
Proof.
  intros b. unfold Store.active_operations. cbn.
  destruct (Store.is_active_of b Examples.running); cbn; lia.
Qed.

End BusyBooth.

Lemma code_flow_keeps_one_operator_witness :
  Invariants.one_operator_per_booth
    (db (fst (BoothCode.startBoothOperation Examples.busy_world 9000 "ABC123"
                Examples.operator)))
  /\ List.length
       (Store.active_operations
          (db (fst (BoothCode.startBoothOperation Examples.busy_world
                      Examples.migration_day "ABC123" Examples.operator))) 1)
     = 2%nat.
Proof.
  split.
  - apply (proj1 (code_flow_keeps_one_operator Examples.busy_world 9000 busy_world_one)).
    intros booth boothName [= <- _]. eexists. reflexivity.
  - exact (proj1 (proj1 (proj2 (code_flow_keeps_one_operator Examples.busy_world
                                  Examples.migration_day busy_world_one))
                    "ABC123" Examples.operator 1 "청소년 상담 부스" "Lee" NumericOverflow
                    eq_refl eq_refl eq_refl eq_refl)).
Defined.

(** ** Invariants of the store *)

Section StoreInvariants.

Lemma invariants_kept (d d' : Database) :
  map op_id (booth_operations d') = map op_id (booth_operations d) ->
  next_operation_id d <= next_operation_id d' ->
  (forall t, (List.length (Store.sessions_by_token d' t)
              <= List.length (Store.sessions_by_token d t))%nat) ->
  Invariants.ids_sequenced d /\ Invariants.tokens_unique d ->
  Invariants.ids_sequenced d' /\ Invariants.tokens_unique d'.
Proof.
  intros Hids Hnext Hsub [[Hlt Hnd] Hu]. split; [split |].
  - intros o Hin.
    assert (Hid : In (op_id o) (map op_id (booth_operations d)))
      by (rewrite <- Hids; apply in_map, Hin).
    apply in_map_iff in Hid. destruct Hid as (o0 & <- & Hin0).
    specialize (Hlt o0 Hin0). lia.
  - rewrite Hids. exact Hnd.
  - intros t. specialize (Hsub t). specialize (Hu t). lia.
Qed.

Lemma invariants_insert (d d' : Database) (ops : list BoothOperation) (row : BoothOperation) :
  booth_operations d' = (ops ++ [row])%list ->
  map op_id ops = map op_id (booth_operations d) ->
  op_id row = next_operation_id d ->
  next_operation_id d' = next_operation_id d + 1 ->
  operator_sessions d' = operator_sessions d ->
  Invariants.ids_sequenced d /\ Invariants.tokens_unique d ->
  Invariants.ids_sequenced d' /\ Invariants.tokens_unique d'.
Proof.
  intros Hrows Hids Hrow Hnext Hss [[Hlt Hnd] Hu]. split; [split |].
  - intros o Hin. rewrite Hrows in Hin. rewrite Hnext.
    apply in_app_or in Hin. destruct Hin as [Hin | [<- | []]]; [| lia].
    assert (Hid : In (op_id o) (map op_id (booth_operations d)))
      by (rewrite <- Hids; apply in_map, Hin).
    apply in_map_iff in Hid. destruct Hid as (o0 & <- & Hin0).
    specialize (Hlt o0 Hin0). lia.
  - rewrite Hrows, map_app, Hids. cbn.
    apply NoDup_app; [exact Hnd | apply NoDup_cons; [intros [] | apply NoDup_nil] |].
    intros i Hi [<- | []]. apply in_map_iff in Hi. destruct Hi as (o0 & Heq & Hin0).
    specialize (Hlt o0 Hin0). lia.
  - intros t. unfold Store.sessions_by_token. rewrite Hss. apply Hu.
Qed.

Lemma invariants_session (d d' : Database) (row : OperatorSession) :
  booth_operations d' = booth_operations d ->
  next_operation_id d' = next_operation_id d ->
  operator_sessions d' = (operator_sessions d ++ [row])%list ->
  Store.sessions_by_token d (s_session_token row) = [] ->
  Invariants.ids_sequenced d /\ Invariants.tokens_unique d ->
  Invariants.ids_sequenced d' /\ Invariants.tokens_unique d'.
Proof.
  intros Hrows Hnext Hss Hfree [[Hlt Hnd] Hu]. split; [split |].
  - intros o Hin. rewrite Hrows in Hin. rewrite Hnext. apply Hlt, Hin.
  - rewrite Hrows. exact Hnd.
  - intros t. unfold Store.sessions_by_token in *. rewrite Hss, filter_app, length_app.
    cbn [filter]. destruct (s_session_token row =? t)%string eqn:Ht; cbn [List.length].
    + apply String.eqb_eq in Ht. subst t. rewrite Hfree. cbn. lia.
    + specialize (Hu t). unfold Store.sessions_by_token in Hu. lia.
Qed.

Lemma filter_shorter {A} (f g : A -> bool) (l : list A) :
  (List.length (filter f (filter g l)) <= List.length (filter f l))%nat.
Proof.
  induction l as [|x l IH]; cbn; [lia |].
  destruct (g x), (f x) eqn:Hf; cbn; rewrite ?Hf; cbn; lia.
Qed.

Lemma touched_tokens (now : Z) (token t : string) (ss : list OperatorSession) :
  List.length (filter (fun s => (s_session_token s =? t)%string)
                 (map (Store.touch_session now token) ss))
  = List.length (filter (fun s => (s_session_token s =? t)%string) ss).
Proof.
  induction ss as [|s ss IH]; cbn; [reflexivity |].
  assert (Htok : s_session_token (Store.touch_session now token s) = s_session_token s).
  { unfold Store.touch_session. destruct (s_session_token s =? token)%string; reflexivity. }
  rewrite Htok. destruct (s_session_token s =? t)%string; cbn; rewrite IH; reflexivity.
Qed.

End StoreInvariants.

Section KeptByCalls.

Lemma insert_operation_keeps (d d1 : Database) (booth : Z)
      (nm ph em org nt : option string) (started : Z) (r : PgError + BoothOperation) :
  Store.insert_operation d booth nm ph em org nt started = (d1, r) ->
  Invariants.ids_sequenced d /\ Invariants.tokens_unique d ->
  Invariants.ids_sequenced d1 /\ Invariants.tokens_unique d1.
Proof.
  intros Hi Hinv. apply insert_operation_cases in Hi. destruct r as [e|row].
  - destruct Hi as [[-> _] | [-> _]]; [exact Hinv |].
    apply (invariants_kept d); [reflexivity | cbn; lia | | exact Hinv].
    intros t. apply Nat.le_refl.
  - destruct Hi as (-> & Hid & _).
    apply (invariants_insert d _ (booth_operations d) row);
      [reflexivity | reflexivity | exact Hid | reflexivity | reflexivity | exact Hinv].
Qed.

Lemma insert_session_keeps (d d2 : Database) (now : Z) (tok : string) (id expires : Z)
      (ip : option string) (r : option PgError) :
  Store.insert_session d now tok id expires ip = (d2, r) ->
  Invariants.ids_sequenced d /\ Invariants.tokens_unique d ->
  Invariants.ids_sequenced d2 /\ Invariants.tokens_unique d2.
Proof.
  intros Hi Hinv. apply insert_session_cases in Hi. destruct r as [e|].
  - destruct Hi as [[-> _] | [-> _]]; [exact Hinv |].
    apply (invariants_kept d); [reflexivity | cbn; lia | | exact Hinv].
    intros t. apply Nat.le_refl.
  - destruct Hi as (t' & ip' & _ & _ & Hu & _ & ->).
    apply (invariants_session d _ (mkSession (next_session_id d) t' id expires now ip'));
      [reflexivity | reflexivity | reflexivity | | exact Hinv].
    apply filter_none. exact Hu.
Qed.

(** An update of booth_operations that keeps the ids keeps the
    invariants, carried out or aborted. *)
Lemma update_keeps (d d1 : Database) (set : BoothOperation -> BoothOperation) :
  (forall o, op_id (set o) = op_id o) ->
  Store.update_operations d set = inr d1 ->
  Invariants.ids_sequenced d /\ Invariants.tokens_unique d ->
  Invariants.ids_sequenced d1 /\ Invariants.tokens_unique d1.
Proof.
  intros Hid Hupd Hinv. destruct (update_operations_done _ _ _ Hupd) as (stats & ->).
  apply (invariants_kept d); [| cbn; lia | | exact Hinv].
  - cbn [booth_operations Store.with_daily_stats Store.with_operations].
    rewrite map_map. apply map_ext. exact Hid.
  - intros t. apply Nat.le_refl.
Qed.

Lemma operation_start_keeps (w : World) (now : Z) (rnd : Js.Rng) (booth : Z)
      (info : OperatorInfo) :
  Invariants.ids_sequenced (db w) /\ Invariants.tokens_unique (db w) ->
  let w' := fst (BoothOperationJs.startBoothOperation w now rnd booth info) in
  Invariants.ids_sequenced (db w') /\ Invariants.tokens_unique (db w').
Proof.
  intros Hinv. unfold BoothOperationJs.startBoothOperation.
  destruct (negb _ || negb _); [exact Hinv |].
  destruct (String.length _ <? 10)%nat; [exact Hinv |].
  destruct (SupabaseClient.getSupabase w) as [d|] eqn:Hs; [| exact Hinv].
  apply getSupabase_Some in Hs. destruct Hs as [-> _].
  unfold BoothOperationJs.gate_and_insert.
  destruct (BoothOperationJs.at_capacity (db w) booth); [exact Hinv |].
  destruct (Store.insert_operation _ _ _ _ _ _ _ _) as [d1 r] eqn:Hop.
  pose proof (insert_operation_keeps _ _ _ _ _ _ _ _ _ _ Hop Hinv) as Hinv1.
  destruct r as [e|row]; [exact Hinv1 |].
  destruct (Store.insert_session _ _ _ _ _ _) as [d2 r2] eqn:Hse.
  pose proof (insert_session_keeps _ _ _ _ _ _ _ _ Hse Hinv1) as Hinv2.
  destruct r2; exact Hinv2.
Qed.

Lemma operation_end_keeps (w : World) (now id : Z) (token : option string) :
  Invariants.ids_sequenced (db w) /\ Invariants.tokens_unique (db w) ->
  let w' := fst (BoothOperationJs.endBoothOperation w now id token) in
  Invariants.ids_sequenced (db w') /\ Invariants.tokens_unique (db w').
Proof.
  intros Hinv. unfold BoothOperationJs.endBoothOperation.
  destruct (SupabaseClient.getSupabase w) as [d|] eqn:Hs; [| exact Hinv].
  apply getSupabase_Some in Hs. destruct Hs as [-> _].
  destruct (negb _); [exact Hinv |].
  destruct (Store.update_operations _ _) as [e|d1] eqn:Hupd; [exact Hinv |].
  assert (Hinv1 : Invariants.ids_sequenced d1 /\ Invariants.tokens_unique d1).
  { apply (update_keeps (db w) d1 _) in Hupd; [exact Hupd | | exact Hinv].
    intros o. unfold BoothOperationJs.end_row. destruct (op_id o =? id); reflexivity. }
  destruct (Store.single _); [| exact Hinv].
  cbn [fst db].
  assert (Hdel : forall t, Invariants.ids_sequenced (Store.delete_sessions d1 t)
                           /\ Invariants.tokens_unique (Store.delete_sessions d1 t)).
  { intros t. apply (invariants_kept d1); [reflexivity | cbn; lia | | exact Hinv1].
    intros t'. apply filter_shorter. }
  destruct token as [t|]; [| exact Hinv1].
  destruct (Js.truthy (Some t)); [apply Hdel | exact Hinv1].
Qed.

Lemma current_keeps (w : World) (now : Z) (token : option string) :
  Invariants.ids_sequenced (db w) /\ Invariants.tokens_unique (db w) ->
  let w' := fst (BoothOperationJs.getCurrentOperation w now token) in
  Invariants.ids_sequenced (db w') /\ Invariants.tokens_unique (db w').
Proof.
  intros Hinv. unfold BoothOperationJs.getCurrentOperation.
  destruct (if Js.truthy token then token else ls_session_token (local w)) as [t|];
    [| exact Hinv].
  destruct (negb _); [exact Hinv |].
  destruct (SupabaseClient.getSupabase w) as [d|] eqn:Hs;
    [| destruct (ls_current_operation (local w)); exact Hinv].
  apply getSupabase_Some in Hs. destruct Hs as [-> _].
  destruct (Store.single _) as [s|]; [| exact Hinv].
  destruct (Js.local_date (zone w) (s_expires_at s) <? now); cbn [fst db set_db].
  - apply (invariants_kept (db w)); [reflexivity | cbn; lia | | exact Hinv].
    intros t'. apply filter_shorter.
  - apply (invariants_kept (db w)); [reflexivity | cbn; lia | | exact Hinv].
    intros t'. unfold Store.sessions_by_token. cbn [operator_sessions Store.with_sessions].
    rewrite touched_tokens. apply Nat.le_refl.
Qed.

Lemma code_start_keeps (w : World) (now : Z) (code : string) (info : OperatorInfo) :
  Invariants.ids_sequenced (db w) /\ Invariants.tokens_unique (db w) ->
  let w' := fst (BoothCode.startBoothOperation w now code info) in
  Invariants.ids_sequenced (db w') /\ Invariants.tokens_unique (db w').
Proof.
  intros Hinv. unfold BoothCode.startBoothOperation.
  destruct (snd (BoothCode.validateBoothCode w now code)) as [booth boothName| | | |];
    try exact Hinv.
  assert (Hinv1 : Invariants.ids_sequenced (BoothCode.after_closing (db w) now booth)
                  /\ Invariants.tokens_unique (BoothCode.after_closing (db w) now booth)).
  { unfold BoothCode.after_closing.
    destruct (BoothCode.close_active (db w) now booth) as [e|d1] eqn:Hc; [exact Hinv |].
    apply (update_keeps (db w) d1 _) in Hc; [exact Hc | | exact Hinv].
    intros o. unfold BoothCode.close_row.
    destruct (Store.is_active_of booth o); reflexivity. }
  destruct (Store.insert_operation _ _ _ _ _ _ _ _) as [d2 r] eqn:Hop.
  pose proof (insert_operation_keeps _ _ _ _ _ _ _ _ _ _ Hop Hinv1) as Hinv2.
  destruct r; exact Hinv2.
Qed.

Lemma code_end_keeps (w : World) (now id : Z) :
  Invariants.ids_sequenced (db w) /\ Invariants.tokens_unique (db w) ->
  let w' := fst (BoothCode.endBoothOperation w now id) in
  Invariants.ids_sequenced (db w') /\ Invariants.tokens_unique (db w').
Proof.
  intros Hinv. unfold BoothCode.endBoothOperation.
  destruct (client w); [| exact Hinv].
  destruct (Store.update_operations _ _) as [e|d1] eqn:Hupd; [exact Hinv |].
  apply (update_keeps (db w) d1 _) in Hupd; [exact Hupd | | exact Hinv].
  intros o. unfold BoothCode.end_row. destruct (op_id o =? id); reflexivity.
Qed.

End KeptByCalls.

(** X18.  The functions that write booth_operations and operator_sessions
    keep two invariants of the store, whatever their arguments and
    outcome: the operation ids are pairwise distinct and below the next
    value of their sequence, and no two sessions hold the same token.
    This holds for the start, the end and the session resolution of
    booth-operation.js, the start and the end of booth-code.js, and the
    clean-up job. *)
Theorem store_invariants_kept (w : World) (now : Z) :
  Invariants.ids_sequenced (db w) /\ Invariants.tokens_unique (db w) ->
  (forall rnd booth info,
      let w' := fst (BoothOperationJs.startBoothOperation w now rnd booth info) in
      Invariants.ids_sequenced (db w') /\ Invariants.tokens_unique (db w'))
  /\ (forall id token,
         let w' := fst (BoothOperationJs.endBoothOperation w now id token) in
         Invariants.ids_sequenced (db w') /\ Invariants.tokens_unique (db w'))
  /\ (forall token,
         let w' := fst (BoothOperationJs.getCurrentOperation w now token) in
         Invariants.ids_sequenced (db w') /\ Invariants.tokens_unique (db w'))
  /\ (forall code info,
         let w' := fst (BoothCode.startBoothOperation w now code info) in
         Invariants.ids_sequenced (db w') /\ Invariants.tokens_unique (db w'))
  /\ (forall id,
         let w' := fst (BoothCode.endBoothOperation w now id) in
         Invariants.ids_sequenced (db w') /\ Invariants.tokens_unique (db w'))
  /\ Invariants.ids_sequenced (Sql.cleanup_expired_sessions (db w) now)
  /\ Invariants.tokens_unique (Sql.cleanup_expired_sessions (db w) now).
Proof.
  intros Hinv.
  split; [intros rnd booth info; apply operation_start_keeps, Hinv |].
  split; [intros id token; apply operation_end_keeps, Hinv |].
  split; [intros token; apply current_keeps, Hinv |].
  split; [intros code info; apply code_start_keeps, Hinv |].
  split; [intros id; apply code_end_keeps, Hinv |].
  apply (invariants_kept (db w)); [reflexivity | apply Z.le_refl | | exact Hinv].
  intros t. apply filter_shorter.
Qed.

Lemma store_invariants_kept_witness :
  Invariants.ids_sequenced (db (fst Cases.started_a))
  /\ Invariants.tokens_unique (db (fst Cases.started_a)).
Proof.
  assert (Hu : Invariants.tokens_unique (db Examples.free_world))
    by (intros t; apply Nat.le_0_l).
  exact (proj1 (store_invariants_kept Examples.free_world 9000
                  (conj free_world_sequenced Hu))
           Examples.zero_rng 1 Examples.operator_a).
Defined.

(** ** Roles and permissions (auth-manager.js, access-control.js) *)

Section Roles.

(** When the role read is OPERATOR, the session [getCurrentUser] reads next
    is the one the role was read from. *)
Lemma operator_session_is_read_again (p : Page) (now : Z) :
  snd (AuthManager.getCurrentUserRole p now) = OPERATOR ->
  AuthManager.getCurrentUserRole p now = (p, OPERATOR)
  /\ exists s,
      OperatorAuth.getOperatorSession (page_world p) now = (page_world p, Some s)
      /\ role s = "operator".
Proof.
  unfold AuthManager.getCurrentUserRole.
  destruct (AuthManager.admin_role_is_admin p); [discriminate |].
  destruct (OperatorAuth.getOperatorSession (page_world p) now) as [w1 [s|]] eqn:Hs;
    [| discriminate].
  pose proof (session_found (page_world p) now s) as Hf. rewrite Hs in Hf.
  specialize (Hf eq_refl). injection Hf as ->.
  destruct (role s =? "operator")%string eqn:Hr; [| discriminate].
  intros _. split.
  - destruct p; reflexivity.
  - exists s. split; [reflexivity | apply String.eqb_eq, Hr].
Qed.

(** The user object carries the role read and its permissions. *)
Lemma current_user_of_role (p : Page) (now : Z) :
  fst (AuthManager.getCurrentUser p now) = fst (AuthManager.getCurrentUserRole p now)
  /\ AuthManager.u_role (snd (AuthManager.getCurrentUser p now))
     = snd (AuthManager.getCurrentUserRole p now)
  /\ AuthManager.u_permissions (snd (AuthManager.getCurrentUser p now))
     = AuthManager.ROLE_PERMISSIONS (snd (AuthManager.getCurrentUserRole p now)).
Proof.
  unfold AuthManager.getCurrentUser.
  destruct (AuthManager.getCurrentUserRole p now) as [p1 r] eqn:Hr.
  destruct r; [repeat split | | repeat split].
  assert (Hop : snd (AuthManager.getCurrentUserRole p now) = OPERATOR)
    by (rewrite Hr; reflexivity).
  destruct (operator_session_is_read_again p now Hop) as (Hrole & s & Hs & _).
  rewrite Hr in Hrole. injection Hrole as ->.
  rewrite Hs. cbn. repeat split. destruct p; reflexivity.
Qed.

Lemma operator_user_booth (p : Page) (now : Z) :
  snd (AuthManager.getCurrentUserRole p now) = OPERATOR ->
  exists s,
    OperatorAuth.getOperatorSession (page_world p) now = (page_world p, Some s)
    /\ AuthManager.u_boothId (snd (AuthManager.getCurrentUser p now)) = Some (boothId s).
Proof.
  intros Hr. destruct (operator_session_is_read_again p now Hr) as (Hrole & s & Hs & _).
  exists s. split; [exact Hs |].
  unfold AuthManager.getCurrentUser. rewrite Hrole, Hs. reflexivity.
Qed.

End Roles.

(** X19.  Page access follows the permissions.  [checkPageAccess] grants
    the page of a role exactly when the current user holds every
    permission of that role, [hasPermission] answers by the permissions of
    the role read, and a user is logged in exactly when they may operate a
    booth.  For a required role that is none of the three names the
    comparison is with undefined and access is granted to everyone. *)
Theorem page_access_follows_permissions (p : Page) (now : Z) :
  (forall required : Role,
      fst (snd (AuthManager.checkPageAccess p now (AuthManager.role_name required)))
      = snd (AuthManager.hasAllPermissions p now (AuthManager.ROLE_PERMISSIONS required)))
  /\ (forall permission,
         snd (AuthManager.hasPermission p now permission)
         = AuthManager.includes
             (AuthManager.ROLE_PERMISSIONS (snd (AuthManager.getCurrentUserRole p now)))
             permission)
  /\ snd (AuthManager.isLoggedIn p now)
     = snd (AuthManager.hasPermission p now AuthManager.OPERATE_BOOTH)
  /\ snd (AuthManager.hasPermission p now AuthManager.VIEW_PUBLIC) = true
  /\ (forall permissions,
         permissions <> [] ->
         snd (AuthManager.hasAllPermissions p now permissions) = true ->
         snd (AuthManager.hasAnyPermission p now permissions) = true)
  /\ (forall requiredRole,
         AuthManager.roleLevel requiredRole = None ->
         snd (AuthManager.checkPageAccess p now requiredRole) = (true, None)).
Proof.
  destruct (current_user_of_role p now) as (_ & _ & Hperm).
  unfold AuthManager.checkPageAccess, AuthManager.hasAllPermissions,
    AuthManager.hasAnyPermission, AuthManager.hasPermission, AuthManager.isLoggedIn.
  destruct (AuthManager.getCurrentUser p now) as [p2 user].
  destruct (AuthManager.getCurrentUserRole p now) as [p1 current].
  cbn [fst snd] in *. rewrite Hperm.
  split; [| split; [| split; [| split; [| split]]]].
  - intros required. destruct current, required; reflexivity.
  - reflexivity.
  - destruct current; reflexivity.
  - destruct current; reflexivity.
  - intros [|x l] Hne Hall; [contradiction |].
    cbn in *. apply andb_prop in Hall. destruct Hall as [-> _]. reflexivity.
  - intros requiredRole Hnone. unfold AuthManager.below. rewrite Hnone.
    destruct (AuthManager.roleLevel (AuthManager.role_name current)); reflexivity.
Qed.

Lemma page_access_follows_permissions_witness :
  snd (AuthManager.checkPageAccess Cases.guest_page 9000 "superadmin") = (true, None)
  /\ snd (AuthManager.checkPageAccess Cases.guest_page 9000 "admin")
     = (false, Some "operator-login.html").
Proof.
  split; [| reflexivity].
  exact (proj2 (proj2 (proj2 (proj2 (proj2
           (page_access_follows_permissions Cases.guest_page 9000)))))
           "superadmin" eq_refl).
Defined.

(** X20.  Two modules read the current role.  auth-manager.js takes a user
    for an administrator by the role of the stored admin session,
    access-control.js by its username.  When the two tests agree, both
    modules read the same role, leave the same page state, and give the
    same answers on booth access and on page access for every required
    role; when the tests differ, exactly one of the modules reads ADMIN.
    On a stored admin session that does not parse, access-control.js
    throws where auth-manager.js falls back to the operator session. *)
Theorem role_readers_compared (p : Page) (now : Z) :
  (AccessControl.admin_username p = None ->
   snd (AccessControl.getCurrentUserRole p now) = None
   /\ snd (AuthManager.getCurrentUserRole p now) <> ADMIN)
  /\ (forall u,
         AccessControl.admin_username p = Some u ->
         let by_name := match u with Some n => (n =? "admin")%string | None => false end in
         (AuthManager.admin_role_is_admin p = by_name ->
          AccessControl.getCurrentUserRole p now
          = (fst (AuthManager.getCurrentUserRole p now),
             Some (snd (AuthManager.getCurrentUserRole p now)))
          /\ snd (AccessControl.isAdmin p now)
             = Some match snd (AuthManager.getCurrentUserRole p now) with
                    | ADMIN => true
                    | _ => false
                    end
          /\ (forall booth,
                 snd (AccessControl.canAccessBooth p now booth)
                 = Some (snd (AuthManager.canAccessBooth p now booth)))
          /\ (forall requiredRole,
                 option_map fst (snd (AccessControl.checkPageAccess p now requiredRole))
                 = Some (fst (snd (AuthManager.checkPageAccess p now requiredRole)))))
         /\ (AuthManager.admin_role_is_admin p <> by_name ->
             (snd (AuthManager.getCurrentUserRole p now) = ADMIN
              <-> snd (AccessControl.getCurrentUserRole p now) <> Some ADMIN))).
Proof.
  split.
  - intros Hthrow. split.
    + unfold AccessControl.getCurrentUserRole. rewrite Hthrow. reflexivity.
    + unfold AuthManager.getCurrentUserRole, AuthManager.admin_role_is_admin.
      unfold AccessControl.admin_username in Hthrow.
      destruct (admin_session p) as [[| |r u]|]; try discriminate.
      destruct (OperatorAuth.getOperatorSession (page_world p) now) as [w1 [s|]];
        [destruct (role s =? "operator")%string |]; discriminate.
  - intros u Hu by_name.
    assert (Hac : AccessControl.getCurrentUserRole p now
                  = if by_name then (p, Some ADMIN)
                    else let (w1, operator) := OperatorAuth.isOperator (page_world p) now in
                         (set_world p w1, Some (if operator then OPERATOR else GUEST))).
    { unfold AccessControl.getCurrentUserRole. rewrite Hu. reflexivity. }
    assert (Hop : (let (w1, operator) := OperatorAuth.isOperator (page_world p) now in
                   (set_world p w1, Some (if operator then OPERATOR else GUEST)))
                  = (let (p1, r) :=
                       match OperatorAuth.getOperatorSession (page_world p) now with
                       | (w1, Some operatorSession) =>
                           (set_world p w1,
                            if (role operatorSession =? "operator")%string
                            then OPERATOR else GUEST)
                       | (w1, None) => (set_world p w1, GUEST)
                       end in (p1, Some r))).
    { unfold OperatorAuth.isOperator.
      destruct (OperatorAuth.getOperatorSession (page_world p) now) as [w1 [s|]];
        [destruct (role s =? "operator")%string |]; reflexivity. }
    split.
    + intros Hsame.
      assert (Hrole : AccessControl.getCurrentUserRole p now
                      = (fst (AuthManager.getCurrentUserRole p now),
                         Some (snd (AuthManager.getCurrentUserRole p now)))).
      { rewrite Hac. unfold AuthManager.getCurrentUserRole. rewrite Hsame.
        destruct by_name; [reflexivity |]. rewrite Hop.
        destruct (OperatorAuth.getOperatorSession (page_world p) now) as [w1 [s|]];
          reflexivity. }
      split; [exact Hrole |]. split; [| split].
      * unfold AccessControl.isAdmin. rewrite Hrole.
        destruct (snd (AuthManager.getCurrentUserRole p now)); reflexivity.
      * intros booth. unfold AccessControl.canAccessBooth, AuthManager.canAccessBooth.
        rewrite Hrole.
        destruct (current_user_of_role p now) as (_ & Hr & _).
        destruct (snd (AuthManager.getCurrentUserRole p now)) eqn:Hcur.
        -- destruct (AuthManager.getCurrentUser p now) as [p2 user]. cbn in *.
           rewrite Hr. reflexivity.
        -- destruct (operator_user_booth p now Hcur) as (s & Hs & Hb).
           destruct (operator_session_is_read_again p now Hcur) as (Hp & _).
           rewrite Hp. cbn [fst]. unfold OperatorAuth.hasBoothAccess. rewrite Hs.
           destruct (AuthManager.getCurrentUser p now) as [p2 user]. cbn in *.
           rewrite Hr, Hb. reflexivity.
        -- destruct (AuthManager.getCurrentUser p now) as [p2 user]. cbn in *.
           rewrite Hr. reflexivity.
      * intros requiredRole.
        unfold AccessControl.checkPageAccess, AuthManager.checkPageAccess.
        rewrite Hrole.
        destruct (AuthManager.getCurrentUserRole p now) as [p1 current]. cbn [fst snd].
        unfold AuthManager.below, AuthManager.roleLevel.
        destruct (requiredRole =? "admin")%string eqn:Ha.
        { apply String.eqb_eq in Ha. subst requiredRole. destruct current; reflexivity. }
        destruct (requiredRole =? "operator")%string eqn:Ho.
        { destruct current; reflexivity. }
        destruct (requiredRole =? "guest")%string; destruct current; reflexivity.
    + intros Hdiff. rewrite Hac. unfold AuthManager.getCurrentUserRole.
      destruct (AuthManager.admin_role_is_admin p), by_name; try congruence.
      * cbn [snd]. split; [intros _ | reflexivity].
        rewrite Hop.
        destruct (OperatorAuth.getOperatorSession (page_world p) now) as [w1 [s|]];
          [destruct (role s =? "operator")%string |]; discriminate.
      * cbn [snd]. split; [| intros H; exfalso; apply H; reflexivity].
        destruct (OperatorAuth.getOperatorSession (page_world p) now) as [w1 [s|]];
          [destruct (role s =? "operator")%string |]; discriminate.
Qed.

Lemma role_readers_compared_witness :
  (snd (AuthManager.getCurrentUserRole Cases.renamed_admin_page 9000) = ADMIN
   <-> snd (AccessControl.getCurrentUserRole Cases.renamed_admin_page 9000) <> Some ADMIN)
  /\ snd (AccessControl.getCurrentUserRole Cases.broken_page 5000) = None.
Proof.
  split.
  - apply (proj2 (proj2 (role_readers_compared Cases.renamed_admin_page 9000)
                    (Some "root") eq_refl)).
    discriminate.
  - exact (proj1 (proj1 (role_readers_compared Cases.broken_page 5000) eq_refl)).
Defined.

Section LeavingAPage.

Lemma not_operator_stays (w : World) (now : Z) :
  snd (OperatorAuth.isOperator w now) = false ->
  forall now', snd (OperatorAuth.isOperator (fst (OperatorAuth.isOperator w now)) now') = false.
Proof.
  unfold OperatorAuth.isOperator, OperatorAuth.getOperatorSession.
  destruct (ls_operator_session (local w)) as [[|s]|] eqn:Hl; cbn [fst snd].
  - intros _ now'. rewrite Hl. reflexivity.
  - destruct (OperatorAuth.expired now s); cbn [fst snd].
    + intros _ now'. reflexivity.
    + intros Hr now'. rewrite Hl. destruct (OperatorAuth.expired now' s); [reflexivity |].
      exact Hr.
  - intros _ now'. rewrite Hl. reflexivity.
Qed.

Lemma logged_out_is_no_operator (w : World) (now now' : Z) :
  snd (OperatorAuth.isOperator (OperatorAuth.operatorLogout w now) now') = false.
Proof.
  unfold OperatorAuth.isOperator, OperatorAuth.getOperatorSession,
    OperatorAuth.operatorLogout.
  destruct (OperatorAuth.getOperatorSession w now) as [w1 o]. reflexivity.
Qed.

End LeavingAPage.

(** X21.  [logout] of access-control.js.  A user who is not the
    administrator is a guest afterwards, at any later time: an operator's
    session is removed by [operatorLogout], a guest stays a guest.  The
    administrator's logout removes the admin session only: the operator's
    world is untouched, and an operator session stored in the same
    browser decides the role from then on. *)
Theorem logout_of_page (p p' : Page) (now : Z) :
  AccessControl.logout p now = Some p' ->
  (snd (AccessControl.getCurrentUserRole p now) = Some ADMIN ->
   p' = mkPage (page_world p) None
   /\ forall now',
       snd (AccessControl.getCurrentUserRole p' now')
       = Some (if snd (OperatorAuth.isOperator (page_world p) now')
               then OPERATOR else GUEST))
  /\ (snd (AccessControl.getCurrentUserRole p now) <> Some ADMIN ->
      forall now', snd (AccessControl.getCurrentUserRole p' now') = Some GUEST).
Proof.
  unfold AccessControl.logout.
  assert (Hname : forall q w, AccessControl.admin_username (set_world q w)
                              = AccessControl.admin_username q) by reflexivity.
  assert (Hrole : AccessControl.getCurrentUserRole p now
                  = match AccessControl.admin_username p with
                    | None => (p, None)
                    | Some u =>
                        if match u with Some n => (n =? "admin")%string | None => false end
                        then (p, Some ADMIN)
                        else
                          let (w1, operator) := OperatorAuth.isOperator (page_world p) now in
                          (set_world p w1, Some (if operator then OPERATOR else GUEST))
                    end) by reflexivity.
  rewrite Hrole. clear Hrole.
  destruct (AccessControl.admin_username p) as [u|] eqn:Hu; [| discriminate].
  destruct (match u with Some n => (n =? "admin")%string | None => false end) eqn:Hb.
  - intros [= <-]. split; [| intros H; exfalso; apply H; reflexivity].
    intros _. split; [reflexivity |]. intros now'.
    unfold AccessControl.getCurrentUserRole. cbn [AccessControl.admin_username admin_session
                                                     page_world].
    destruct (OperatorAuth.isOperator (page_world p) now') as [w1 [|]]; reflexivity.
  - destruct (OperatorAuth.isOperator (page_world p) now) as [w1 operator] eqn:Hop.
    destruct operator; intros [= <-]; (split; [discriminate |]); intros _ now'.
    + unfold AccessControl.getCurrentUserRole. rewrite !Hname, Hu, Hb.
      cbn [page_world set_world].
      pose proof (logged_out_is_no_operator w1 now now') as Hout.
      destruct (OperatorAuth.isOperator (OperatorAuth.operatorLogout w1 now) now')
        as [w2 o]. cbn in Hout. subst o. reflexivity.
    + unfold AccessControl.getCurrentUserRole. rewrite Hname, Hu, Hb.
      cbn [page_world set_world].
      pose proof (not_operator_stays (page_world p) now) as Hstay. rewrite Hop in Hstay.
      specialize (Hstay eq_refl now'). cbn [fst] in Hstay.
      destruct (OperatorAuth.isOperator w1 now') as [w2 o]. cbn in Hstay. subst o.
      reflexivity.
Qed.

Lemma logout_of_page_witness :
  snd (AccessControl.getCurrentUserRole
         (mkPage (page_world Cases.admin_page) None) 5000)
  = Some OPERATOR.
Proof.
  exact (proj2 (proj1 (logout_of_page Cases.admin_page
                         (mkPage (page_world Cases.admin_page) None) 5000 eq_refl)
                  eq_refl) 5000).
Defined.

(** ** Operation statistics (booth-operation.js) *)

Section Statistics.

Lemma nodup_shorter {A} (dec : forall a b : A, {a = b} + {a <> b}) (l : list A) :
  (List.length (nodup dec l) <= List.length l)%nat.
Proof.
  induction l as [|x l IH]; cbn; [lia |].
  destruct (in_dec dec x l); cbn; lia.
Qed.

Lemma nodup_nonempty {A} (dec : forall a b : A, {a = b} + {a <> b}) (x : A) (l : list A) :
  (0 < List.length (nodup dec (x :: l)))%nat.
Proof.
  assert (Hin : In x (nodup dec (x :: l))) by (apply nodup_In; now left).
  destruct (nodup dec (x :: l)); [destruct Hin | cbn; lia].
Qed.

Lemma filter_both {A} (f g : A -> bool) (l : list A) :
  filter f (filter g l) = filter (fun x => g x && f x) l.
Proof.
  induction l as [|x l IH]; cbn; [reflexivity |].
  destruct (g x); cbn; [destruct (f x) |]; rewrite IH; reflexivity.
Qed.

Lemma sum_between (f : BoothOperation -> Z) (lo hi : Z) (l : list BoothOperation) (a : Z) :
  (forall o, In o l -> lo <= f o <= hi) ->
  a + Z.of_nat (List.length l) * lo
  <= fold_left (fun sum o => sum + f o) l a
  <= a + Z.of_nat (List.length l) * hi.
Proof.
  revert a. induction l as [|o l IH]; intros a Hb; [cbn; lia |].
  cbn [fold_left]. specialize (IH (a + f o) (fun x Hx => Hb x (or_intror Hx))).
  pose proof (Hb o (or_introl eq_refl)) as Ho.
  change (List.length (o :: l)) with (S (List.length l)). lia.
Qed.

(** [Math.round] of a quotient of integers lies between integer bounds of
    the quotient. *)
Lemma round_div_between (a n lo hi : Z) :
  0 < n -> n * lo <= a <= n * hi -> lo <= Js.round_div a n <= hi.
Proof.
  intros Hn Ha. unfold Js.round_div. split.
  - apply Z.div_le_lower_bound; lia.
  - apply Z.lt_succ_r. apply Z.div_lt_upper_bound; lia.
Qed.

End Statistics.

(** X22.  The figures of [getOperationStats] are consistent: the active
    operations and the distinct operator phones are counted among the
    operations selected, and a selection that is not empty has at least
    one operator.  For a booth id that is not 0 the active operations are
    those the admission check of [startBoothOperation] counts; the ids
    null and 0 select the operations of every booth.  The average
    duration lies between the shortest and the longest duration in
    minutes of the ended operations.  Without a client every figure
    is 0. *)
Theorem stats_are_consistent (w : World) (boothId : option Z) :
  let s := BoothOperationJs.getOperationStats w boothId in
  0 <= BoothOperationJs.activeOperations s <= BoothOperationJs.totalOperations s
  /\ 0 <= BoothOperationJs.totalOperators s <= BoothOperationJs.totalOperations s
  /\ (0 < BoothOperationJs.totalOperations s -> 0 < BoothOperationJs.totalOperators s)
  /\ (forall d b,
         SupabaseClient.getSupabase w = Some d -> boothId = Some b -> b <> 0 ->
         BoothOperationJs.activeOperations s
         = Z.of_nat (List.length (Store.active_operations d b)))
  /\ (forall d,
         SupabaseClient.getSupabase w = Some d -> boothId = None \/ boothId = Some 0 ->
         BoothOperationJs.totalOperations s = Z.of_nat (List.length (booth_operations d)))
  /\ (forall d lo hi,
         SupabaseClient.getSupabase w = Some d ->
         (forall o, In o (BoothOperationJs.stats_rows d boothId) ->
                    BoothOperationJs.completed o = true ->
                    lo <= BoothOperationJs.minutes_of o <= hi) ->
         (exists o, In o (BoothOperationJs.stats_rows d boothId)
                    /\ BoothOperationJs.completed o = true) ->
         lo <= BoothOperationJs.averageDuration s <= hi)
  /\ (SupabaseClient.getSupabase w = None -> s = BoothOperationJs.mkStats 0 0 0 0 0).
Proof.
  intros s. unfold s, BoothOperationJs.getOperationStats.
  destruct (SupabaseClient.getSupabase w) as [d|].
  2: { cbn. repeat split; try lia; try discriminate. }
  cbn [BoothOperationJs.activeOperations BoothOperationJs.totalOperations
       BoothOperationJs.totalOperators BoothOperationJs.averageDuration].
  set (operations := BoothOperationJs.stats_rows d boothId).
  split; [| split; [| split; [| split; [| split; [| split]]]]].
  - pose proof (filter_length_le op_is_active operations). lia.
  - pose proof (nodup_shorter BoothOperationJs.phone_eq_dec
                  (map op_operator_phone operations)) as Hle.
    rewrite length_map in Hle. lia.
  - intros Hpos. destruct operations as [|o l]; [cbn in Hpos; lia |].
    pose proof (nodup_nonempty BoothOperationJs.phone_eq_dec (op_operator_phone o)
                  (map op_operator_phone l)) as Hne.
    cbn [map]. lia.
  - intros d0 b [= <-] -> Hb. unfold operations, BoothOperationJs.stats_rows.
    replace (b =? 0) with false by (symmetry; apply Z.eqb_neq; exact Hb).
    rewrite filter_both. reflexivity.
  - intros d0 [= <-] [-> | ->]; reflexivity.
  - intros d0 lo hi [= <-] Hbound (o & Hin & Hdone).
    assert (Hc : In o (filter BoothOperationJs.completed operations))
      by (apply filter_In; split; assumption).
    destruct (filter BoothOperationJs.completed operations) as [|c cs] eqn:Hcs;
      [destruct Hc |].
    apply round_div_between; [cbn [List.length]; lia |].
    pose proof (sum_between BoothOperationJs.minutes_of lo hi (c :: cs) 0) as Hsum.
    assert (Hall : forall x, In x (c :: cs) -> lo <= BoothOperationJs.minutes_of x <= hi).
    { intros x Hx. rewrite <- Hcs in Hx. apply filter_In in Hx.
      apply Hbound; apply Hx. }
    specialize (Hsum Hall). lia.
  - discriminate.
Qed.

Lemma stats_are_consistent_witness :
  BoothOperationJs.activeOperations
    (BoothOperationJs.getOperationStats Examples.busy_world (Some 1))
  = Z.of_nat (List.length (Store.active_operations (db Examples.busy_world) 1)).
Proof.
  exact (proj1 (proj2 (proj2 (proj2 (stats_are_consistent Examples.busy_world (Some 1)))))
           (db Examples.busy_world) 1 eq_refl eq_refl (Z.neq_sym _ _ (Z.lt_neq 0 1 Z.lt_0_1))).
Defined.


(** ** A lockout extends itself *)

Section Lockout.

Lemma filter_no_longer {A} (f g : A -> bool) (l : list A) :
  (forall x, f x = true -> g x = true) ->
  (List.length (filter f l) <= List.length (filter g l))%nat.
Proof.
  intros Himp. induction l as [|x l IH]; cbn; [lia |].
  destruct (f x) eqn:Hf.
  - rewrite (Himp x Hf). cbn. lia.
  - destruct (g x); cbn; lia.
Qed.

(** Looking back from an earlier time counts no fewer attempts. *)
Lemma earlier_counts_more (d : Database) (now until : Z) (ip : string) :
  now <= until ->
  Sql.check_ip_attempts d until ip <= Sql.check_ip_attempts d now ip.
Proof.
  intros Hle. unfold Sql.check_ip_attempts. apply inj_le. apply filter_no_longer.
  intros a. unfold Sql.counts_against. intros Ha.
  apply andb_prop in Ha. destruct Ha as [Ha Hfail].
  apply andb_prop in Ha. destruct Ha as [Hip Hyoung].
  rewrite Hip, Hfail. apply Z.ltb_lt in Hyoung.
  replace (now - Sql.one_hour <? ca_attempted_at a) with true; [reflexivity |].
  symmetry. apply Z.ltb_lt. lia.
Qed.

End Lockout.

(** X23.  A lockout extends itself.  An address of at most 45 characters
    has five failed attempts younger than one hour at some time.  Then
    every call of [validate_booth_code] it makes up to that time with a
    code that the column attempted_code (VARCHAR(6)) takes is turned away
    as rate-limited, the right code included, and is logged as a failed
    attempt of the address; a call with a code that the column refuses
    raises and is not logged.  The booths are not written, and at any time
    the count is the count before plus the logged calls younger than one
    hour. *)
Theorem lockout_extends (ip : string) (until : Z) (calls : list (Z * string)) (d : Database) :
  Pg.fits 45 (Some ip) = true ->
  5 <= Sql.check_ip_attempts d until ip ->
  Forall (fun c => fst c <= until) calls ->
  let r := Sql.calls_from d ip calls in
  snd r
  = map (fun c => match Pg.varchar 6 (snd c) with
                  | Some _ =>
                      inr (Sql.mkValidation false None None
                             "너무 많은 시도입니다. 잠시 후 다시 시도해주세요.")
                  | None => inl TextRefused
                  end) calls
  /\ booths (fst r) = booths d
  /\ forall at_,
      Sql.check_ip_attempts (fst r) at_ ip
      = Sql.check_ip_attempts d at_ ip
        + Z.of_nat
            (List.length
               (filter (fun c => (at_ - Sql.one_hour <? fst c)
                                 && match Pg.varchar 6 (snd c) with
                                    | Some _ => true
                                    | None => false
                                    end) calls)).
Proof.
  intros Hip. revert d. induction calls as [|[now code] rest IH]; intros d Hfull Hbefore.
  - cbn. repeat split. intros at_. lia.
  - inversion Hbefore as [|c l Hnow Hrest]; subst. cbn [fst] in Hnow.
    assert (Hblocked : 5 <= Sql.check_ip_attempts d now ip).
    { pose proof (earlier_counts_more d now until ip Hnow). lia. }
    cbn [Sql.calls_from map filter fst snd].
    destruct (Pg.varchar 6 code) as [code'|] eqn:Hcode.
    + set (a := mkAttempt code' ip now false None (Some "시도 횟수 초과")).
      assert (Hcount : forall at_,
                 Sql.check_ip_attempts (Sql.record_attempt d a) at_ ip
                 = Sql.check_ip_attempts d at_ ip
                   + (if at_ - Sql.one_hour <? now then 1 else 0)).
      { intros at_. rewrite check_ip_attempts_record. unfold Sql.counts_against, a.
        cbn [ca_ip_address ca_attempted_at ca_success]. rewrite String.eqb_refl.
        cbn [andb negb]. rewrite andb_true_r. reflexivity. }
      assert (Hfull1 : 5 <= Sql.check_ip_attempts (Sql.record_attempt d a) until ip).
      { rewrite Hcount. destruct (until - Sql.one_hour <? now); lia. }
      specialize (IH (Sql.record_attempt d a) Hfull1 Hrest).
      rewrite (validate_when_blocked d now code ip Hblocked).
      rewrite (log_attempt_accepted d code ip code' ip now _ _ _ Hcode
                 (fits_varchar 45 ip Hip)).
      cbn [Sql.returning]. fold a.
      destruct (Sql.calls_from (Sql.record_attempt d a) ip rest) as [d2 answers].
      cbn [fst snd] in *. destruct IH as (Hanswers & Hbooths & Hcounts).
      split; [rewrite Hanswers; reflexivity |].
      split; [rewrite Hbooths; reflexivity |].
      intros at_. rewrite Hcounts, Hcount. rewrite andb_true_r.
      destruct (at_ - Sql.one_hour <? now); cbn [List.length]; lia.
    + specialize (IH d Hfull Hrest).
      rewrite (validate_raises d now code ip (or_introl Hcode)).
      destruct (Sql.calls_from d ip rest) as [d2 answers].
      cbn [fst snd] in *. destruct IH as (Hanswers & Hbooths & Hcounts).
      split; [rewrite Hanswers; reflexivity |].
      split; [exact Hbooths |].
      intros at_. rewrite Hcounts, andb_false_r. reflexivity.
Qed.

Lemma lockout_extends_witness :
  snd (Sql.calls_from (db Examples.probed_world) "203.0.113.7"
         [(Examples.ten_fifty, "ABC123"); (Examples.ten_fifty, "ABC1234");
          (Examples.ten_fifty, "DEF456")])
  = [inr (Sql.mkValidation false None None
            "너무 많은 시도입니다. 잠시 후 다시 시도해주세요.");
     inl TextRefused;
     inr (Sql.mkValidation false None None
            "너무 많은 시도입니다. 잠시 후 다시 시도해주세요.")].
Proof.
  assert (Hbefore : Forall (fun c : Z * string => fst c <= Examples.ten_fifty)
                      [(Examples.ten_fifty, "ABC123"); (Examples.ten_fifty, "ABC1234");
                       (Examples.ten_fifty, "DEF456")])
    by (repeat constructor; apply Z.le_refl).
  exact (proj1 (lockout_extends "203.0.113.7" Examples.ten_fifty
                  [(Examples.ten_fifty, "ABC123"); (Examples.ten_fifty, "ABC1234");
                   (Examples.ten_fifty, "DEF456")]
                  (db Examples.probed_world) eq_refl
                  (proj1 (Z.leb_le 5 5) eq_refl) Hbefore)).
Defined.

(** ** The quick start (operator-auth.js) *)

Section QuickStart.

Lemma reverse_onto_append (s t acc : string) :
  Js.reverse_onto (s ++ t) acc = Js.reverse_onto t (Js.reverse_onto s acc).
Proof.
  revert acc. induction s as [|c s IH]; intros acc; cbn; [reflexivity | apply IH].
Qed.

Lemma reverse_last (s : string) (c : ascii) :
  Js.reverse (s ++ String c "") = String c (Js.reverse s).
Proof. unfold Js.reverse. rewrite reverse_onto_append. reflexivity. Qed.

Lemma reverse_onto_twice (s acc acc' : string) :
  Js.reverse_onto (Js.reverse_onto s acc) acc' = Js.reverse_onto acc (s ++ acc').
Proof.
  revert acc acc'. induction s as [|c s IH]; intros acc acc'; cbn; [reflexivity |].
  rewrite IH. reflexivity.
Qed.

Lemma append_empty (s : string) : (s ++ "")%string = s.
Proof. induction s as [|c s IH]; cbn; [reflexivity | rewrite IH; reflexivity]. Qed.

Lemma reverse_twice (s : string) : Js.reverse (Js.reverse s) = s.
Proof. unfold Js.reverse. rewrite reverse_onto_twice. cbn. apply append_empty. Qed.

Lemma toUpperCase_append (s t : string) :
  Js.toUpperCase (s ++ t) = (Js.toUpperCase s ++ Js.toUpperCase t)%string.
Proof. induction s as [|c s IH]; cbn; [reflexivity | rewrite IH; reflexivity]. Qed.

(** A digit or an upper-case letter is one byte and no white space. *)
Lemma alnum_is_no_space (c : ascii) :
  CodeFormat.is_alnum c = true ->
  Js.space1 c = false
  /\ (forall b, Js.space2 b c = false)
  /\ (forall a b, Js.space3 a b c = false).
Proof.
  unfold CodeFormat.is_alnum, Js.is_digit, Js.is_upper, Js.space1, Js.space2, Js.space3.
  set (n := nat_of_ascii c). intros H.
  assert (Hn : (48 <= n <= 90)%nat).
  { apply orb_prop in H. destruct H as [H | H]; apply andb_prop in H; destruct H as [H1 H2];
      apply Nat.leb_le in H1; apply Nat.leb_le in H2; lia. }
  assert (H13 : (n <=? 13)%nat = false) by (apply Nat.leb_gt; lia).
  assert (H32 : (n =? 32)%nat = false) by (apply Nat.eqb_neq; lia).
  assert (H160 : (n =? 160)%nat = false) by (apply Nat.eqb_neq; lia).
  assert (H128 : (n =? 128)%nat = false) by (apply Nat.eqb_neq; lia).
  assert (H128' : (128 <=? n)%nat = false) by (apply Nat.leb_gt; lia).
  assert (H168 : (n =? 168)%nat = false) by (apply Nat.eqb_neq; lia).
  assert (H169 : (n =? 169)%nat = false) by (apply Nat.eqb_neq; lia).
  assert (H175 : (n =? 175)%nat = false) by (apply Nat.eqb_neq; lia).
  assert (H159 : (n =? 159)%nat = false) by (apply Nat.eqb_neq; lia).
  assert (H191 : (n =? 191)%nat = false) by (apply Nat.eqb_neq; lia).
  split; [| split].
  - rewrite H13, H32, andb_false_r. reflexivity.
  - intros b. rewrite H160. apply andb_false_r.
  - intros a b. cbv zeta. rewrite H128, H128', H168, H169, H175, H159, H191.
    cbn [andb orb]. rewrite !andb_false_r. reflexivity.
Qed.

Lemma trimEnd_keeps (s : string) (c : ascii) :
  CodeFormat.is_alnum c = true ->
  Js.trimEnd (s ++ String c "") = (s ++ String c "")%string.
Proof.
  intros Hc. destruct (alnum_is_no_space c Hc) as (H1 & H2 & H3).
  unfold Js.trimEnd. rewrite reverse_last.
  assert (Hkeep : Js.trimStart_reversed (String c (Js.reverse s)) = String c (Js.reverse s)).
  { cbn [Js.trimStart_reversed]. rewrite H1.
    destruct (Js.reverse s) as [|b r2]; [reflexivity |]. rewrite H2.
    destruct r2 as [|a r3]; [reflexivity |]. rewrite H3. reflexivity. }
  rewrite Hkeep, <- reverse_last. apply reverse_twice.
Qed.

(** The base-36 text of a time ends in a digit or, once in upper case, an
    upper-case letter. *)
Lemma toString36_last (now : Z) :
  0 <= now ->
  exists t c,
    Js.toUpperCase (Js.toString36 now) = (t ++ String c "")%string
    /\ CodeFormat.is_alnum c = true.
Proof.
  intros Hn. unfold Js.toString36.
  replace (now <? 0) with false by (symmetry; apply Z.ltb_ge; exact Hn).
  cbn [Js.toString36_pos].
  assert (Hmod : 0 <= now mod 36 < 36) by (apply Z.mod_pos_bound; lia).
  destruct (now <? 36) eqn:Hsmall.
  - apply Z.ltb_lt in Hsmall. exists ""%string, (Js.upper_char (Js.digit36 now)).
    split; [reflexivity | apply digit36_upper; lia].
  - eexists _, (Js.upper_char (Js.digit36 (now mod 36))).
    split; [rewrite toUpperCase_append; reflexivity | apply digit36_upper, Hmod].
Qed.

Lemma temp_name_kept (now : Z) :
  0 <= now ->
  let tempName := "운영자_" ++ Js.toUpperCase (Js.toString36 now) in
  Js.trim tempName = tempName /\ tempName <> "".
Proof.
  intros Hn tempName. split; [| discriminate].
  unfold tempName. destruct (toString36_last now Hn) as (t & c & -> & Hc).
  unfold Js.trim.
  assert (Hstart : forall x, Js.trimStart ("운영자_" ++ x) = ("운영자_" ++ x)%string)
    by reflexivity.
  rewrite Hstart. rewrite <- append_assoc. apply trimEnd_keeps, Hc.
Qed.

(** The base-36 text of a time, in upper case: digits and upper-case
    letters, no more of them than the fuel. *)
Lemma upper_base36_plain (fuel : nat) :
  forall n, 0 <= n ->
    TokenFormat.all_chars CodeFormat.is_alnum (Js.toUpperCase (Js.toString36_pos fuel n))
    = true
    /\ (String.length (Js.toUpperCase (Js.toString36_pos fuel n)) <= fuel)%nat.
Proof.
  induction fuel as [|fuel IH]; intros n Hn; [split; cbn; [reflexivity | lia] |].
  cbn [Js.toString36_pos]. destruct (n <? 36) eqn:Hsmall.
  - apply Z.ltb_lt in Hsmall. cbn. rewrite digit36_upper by lia. split; [reflexivity | lia].
  - assert (Hq : 0 <= n / 36) by (apply Z.div_pos; lia).
    destruct (IH (n / 36) Hq) as [Ha Hl].
    rewrite toUpperCase_append, all_chars_append, length_append, Ha.
    cbn. rewrite digit36_upper by (apply Z.mod_pos_bound; lia).
    split; [reflexivity | lia].
Qed.

Lemma alnum_text_plain (s : string) :
  TokenFormat.all_chars CodeFormat.is_alnum s = true ->
  Pg.has_nul s = false /\ Pg.char_length s = String.length s.
Proof.
  induction s as [|c s IH]; cbn; [split; reflexivity |].
  intros H. apply andb_true_iff in H. destruct H as [Hc Hs].
  destruct (IH Hs) as [Hn Hl]. rewrite Hn, Hl.
  unfold CodeFormat.is_alnum in Hc. rewrite orb_comm in Hc.
  destruct (plain_char c Hc) as [H0 Hcont]. rewrite H0, Hcont. split; reflexivity.
Qed.

(** The column operator_name, VARCHAR(100), stores the generated name as
    it is. *)
Lemma temp_name_fits (now : Z) :
  0 <= now < 2 ^ 53 ->
  Pg.fits 100 (Some ("운영자_" ++ Js.toUpperCase (Js.toString36 now))) = true.
Proof.
  intros [Hn Hmax]. unfold Js.toString36.
  replace (now <? 0) with false by (symmetry; apply Z.ltb_ge; exact Hn).
  destruct (upper_base36_plain (S (Z.to_nat (Z.log2 now))) now Hn) as [Ha Hl].
  destruct (alnum_text_plain _ Ha) as [Hnul Hlen].
  assert (Hlog : Z.log2 now < 53).
  { destruct (Z.eq_dec now 0) as [-> | Hne]; [reflexivity |].
    apply Z.log2_lt_pow2; lia. }
  pose proof (Z.log2_nonneg now) as Hpos.
  set (u := Js.toUpperCase (Js.toString36_pos (S (Z.to_nat (Z.log2 now))) now)) in *.
  cbn [Pg.fits].
  assert (Hn2 : Pg.has_nul ("운영자_" ++ u) = Pg.has_nul u) by reflexivity.
  assert (Hc2 : Pg.char_length ("운영자_" ++ u) = (4 + Pg.char_length u)%nat)
    by reflexivity.
  rewrite Hn2, Hc2, Hnul, Hlen. cbn [negb andb]. apply Nat.leb_le. lia.
Qed.

End QuickStart.

(** X24.  [quickOperatorStart] always passes the name check of
    [operatorLogin]: the name it makes from the clock is not blank,
    [trim] leaves it as it is, and the column operator_name stores it as
    it is.  A quick start is therefore never refused for its name, and
    with a six-unit code that validates it logs in: the operation is
    stored under the generated name, with no phone, as an active operation
    of the booth, the only one when the update closing the running
    operations was carried out, added to them when the daily-statistics
    trigger aborted that update. *)
Theorem quick_start_logs_in (w : World) (now : Z) (code : string) :
  0 <= now < 2 ^ 53 ->
  let tempName := "운영자_" ++ Js.toUpperCase (Js.toString36 now) in
  Js.trim tempName = tempName
  /\ Pg.varchar 100 tempName = Some tempName
  /\ (snd (OperatorAuth.quickOperatorStart w now code)
      = OperatorAuth.LoginFailed OperatorAuth.NoName -> False)
  /\ (forall id nm,
         Js.length16 code = 6%nat ->
         snd (BoothCode.validateBoothCode w now code) = BoothCode.Valid id nm ->
         let session := mkSessionData (next_operation_id (db w)) id nm tempName "operator" now
                                      (Some (now + OperatorAuth.twenty_four_hours)) in
         let row := mkOperation (next_operation_id (db w)) id tempName None None None
                                now None true 0 None in
         snd (OperatorAuth.quickOperatorStart w now code) = OperatorAuth.LoggedIn session
         /\ match BoothCode.close_active (db w) now id with
            | inr _ =>
                Store.active_operations
                  (db (fst (OperatorAuth.quickOperatorStart w now code))) id = [row]
            | inl _ =>
                Store.active_operations
                  (db (fst (OperatorAuth.quickOperatorStart w now code))) id
                = (Store.active_operations (db w) id ++ [row])%list
            end).
Proof.
  intros Hn tempName. destruct (temp_name_kept now (proj1 Hn)) as (Htrim & Hne).
  fold tempName in Htrim, Hne.
  pose proof (temp_name_fits now Hn) as Hfit. fold tempName in Hfit.
  assert (Hcheck : (tempName =? "")%string || (Js.trim tempName =? "")%string = false).
  { rewrite Htrim. apply String.eqb_neq in Hne. rewrite Hne. reflexivity. }
  split; [exact Htrim |].
  split; [exact (fits_varchar 100 tempName Hfit) |]. split.
  - unfold OperatorAuth.quickOperatorStart, OperatorAuth.operatorLogin. fold tempName.
    destruct ((code =? "")%string || negb (Js.length16 code =? 6)%nat); [discriminate |].
    cbn [name]. rewrite Hcheck.
    destruct (BoothCode.startBoothOperation w now code _) as [w1 [op b bn|v|e]];
      discriminate.
  - intros id nm Hlen Hv session row.
    assert (Hcode : (code =? "")%string || negb (Js.length16 code =? 6)%nat = false).
    { rewrite Hlen. cbn. rewrite orb_false_r. apply String.eqb_neq.
      intros ->. discriminate. }
    unfold OperatorAuth.quickOperatorStart, OperatorAuth.operatorLogin. fold tempName.
    rewrite Hcode. cbn [name OperatorAuth.trimmed_phone phone]. rewrite Hcheck, Htrim.
    rewrite (code_start_valid w now code (mkInfo (Some tempName) None None None None None)
               id nm tempName Hv eq_refl).
    2:{ unfold BoothCode.storable. cbn [name phone Js.or_null Js.truthy Pg.fits].
        rewrite andb_true_r. exact Hfit. }
    cbn [fst snd db OperatorAuth.saveOperatorSession set_local set_db].
    split; [reflexivity |].
    unfold Store.active_operations at 1 3. cbn [booth_operations Store.with_operations].
    exact (active_after_start (db w) now id row eq_refl eq_refl).
Qed.

Lemma quick_start_logs_in_witness :
  Js.trim ("운영자_" ++ Js.toUpperCase (Js.toString36 Examples.migration_day))
  = "운영자_MEW2GAO0"
  /\ snd (OperatorAuth.quickOperatorStart Examples.free_world Examples.migration_day
            "ABC123")
     = OperatorAuth.LoggedIn
         (mkSessionData 1 1 "청소년 상담 부스" "운영자_MEW2GAO0" "operator"
            Examples.migration_day
            (Some (Examples.migration_day + OperatorAuth.twenty_four_hours))).
Proof.
  pose proof (quick_start_logs_in Examples.free_world Examples.migration_day "ABC123"
                (conj (proj1 (Z.leb_le 0 Examples.migration_day) eq_refl)
                      (proj1 (Z.ltb_lt Examples.migration_day (2 ^ 53)) eq_refl)))
    as (H1 & _ & _ & H4).
  split; [exact H1 |].
  exact (proj1 (H4 1 "청소년 상담 부스" eq_refl eq_refl)).
Defined.
